(** * talonfmt: the tree-to-document translator ([talonfmt/formatter.py])

    A shallow embedding of [TalonFormatter] and of the helpers of
    [talonfmt/extra.py], with the properties of its header/body splitting,
    short-command detection, match keywords, error behaviour and comment
    buffer: what the buffer holds, when it is empty, and that no comment
    of a tree is lost on the way to the document.

    Conventions of the embedding.
    - A syntax-tree node is a value of [Node], one constructor per node class
      of [tree_sitter_talon], with the named fields the formatter reads; the
      four attributes every node has are kept in [Info].  The source never
      assigns to an attribute of a node, so nodes are immutable values here.
      Children are not typed: a handler meets whatever the tree holds, as at
      run time.
    - A text is a [string] of its UTF-8 bytes; the whitespace of
      [str.strip] and of [\s] is read off them, the characters of two and
      three bytes included.
    - The documents of [doc_printer] are the terms of [Doc]; its combinators
      build terms, consume the iterables they are given at once, and nothing
      is rendered.  [create_tables] is a parameter.
    - The translator's only mutable attribute, [_comment_buffer], is the
      state of the monad [M]; exceptions are the [Raise] outcome.
    - A generator is modelled by the list of the values it yields, its
      effects taking place in program order.  This is exact wherever the
      consumer takes all values before it does anything else ([list],
      [tuple], [extend], [join], [yield from] up to such a consumer).  Two
      consumers work between the values.  [format_children] formats each
      child as [store_comments] yields it, so [store_comments] takes the
      body of the consuming loop as an argument.  The loop of the
      [TalonBlock] handler drains the comment buffer before each line of a
      child; the model is exact there for a child that yields one line after
      its effects, which is every statement and comment a block can hold.
    - The methods call each other through dynamic dispatch on arbitrary
      trees, and two of them format a node they have just built, so the
      recursion is bounded by [fuel]; [OutOfFuel] is a third outcome.
      [enough_fuel] and [outcome_settled] show that four times the depth of
      the tree, and five, is enough and that more changes nothing. *)

From Stdlib Require Import String Ascii List ZArith Bool Arith Lia.
From Stdlib Require Import FunctionalExtensionality.
Import ListNotations.
Open Scope string_scope.
Open Scope list_scope.

Set Implicit Arguments.
Set Warnings "-register-all".

(* ------------------------------------------------------------------ *)
(** ** Syntax trees ([tree_sitter_talon]) *)

Record Point : Type := mkPoint { line : Z; column : Z }.

Record Info : Type := mkInfo {
  text : string;
  type_name : string;
  start_position : Point;
  end_position : Point
}.

Inductive Node : Type :=
| TalonSourceFile (i : Info) (children : list Node)
| TalonContext (i : Info) (children : list Node)
| TalonIncludeTag (i : Info) (children : list Node) (tag : Node)
| TalonSettings (i : Info) (children : list Node)
| TalonCommand (i : Info) (children : list Node) (rule script : Node)
| TalonBlock (i : Info) (children : list Node)
| TalonAssignment (i : Info) (children : list Node) (left right : Node)
| TalonExpression (i : Info) (children : list Node) (expression : Node)
| TalonComment (i : Info)
| TalonDocstring (i : Info)
| TalonAnd (i : Info) (children : list Node)
| TalonNot (i : Info) (children : list Node)
| TalonOr (i : Info) (children : list Node)
| TalonMatch (i : Info) (children : list Node) (key pattern : Node)
| TalonError (i : Info) (children : list Node)
| TalonAction (i : Info) (children : list Node) (action_name arguments : Node)
| TalonArgumentList (i : Info) (children : list Node)
| TalonBinaryOperator (i : Info) (children : list Node)
                      (left operator right : Node)
| TalonIdentifier (i : Info)
| TalonKeyAction (i : Info) (children : list Node) (arguments : Node)
| TalonOperator (i : Info)
| TalonParenthesizedExpression (i : Info) (children : list Node)
| TalonRegexEscapeSequence (i : Info) (children : list Node)
| TalonSleepAction (i : Info) (children : list Node) (arguments : Node)
| TalonVariable (i : Info) (children : list Node) (variable_name : Node)
| TalonFloat (i : Info)
| TalonInteger (i : Info)
| TalonNumber (i : Info) (children : list Node)
| TalonImplicitString (i : Info)
| TalonInterpolation (i : Info) (children : list Node)
| TalonString (i : Info) (children : list Node)
| TalonStringContent (i : Info)
| TalonStringEscapeSequence (i : Info)
| TalonCapture (i : Info) (children : list Node) (capture_name : Node)
| TalonChoice (i : Info) (children : list Node)
| TalonEndAnchor (i : Info)
| TalonList (i : Info) (children : list Node) (list_name : Node)
| TalonOptional (i : Info) (children : list Node)
| TalonParenthesizedRule (i : Info) (children : list Node)
| TalonRepeat (i : Info) (children : list Node)
| TalonRepeat1 (i : Info) (children : list Node)
| TalonRule (i : Info) (children : list Node)
| TalonSeq (i : Info) (children : list Node)
| TalonStartAnchor (i : Info)
| TalonWord (i : Info).

(** The attributes [text], [type_name], [start_position], [end_position]. *)
Definition info (node : Node) : Info :=
  match node with
  | TalonSourceFile i _ | TalonContext i _ | TalonIncludeTag i _ _
  | TalonSettings i _ | TalonCommand i _ _ _ | TalonBlock i _
  | TalonAssignment i _ _ _ | TalonExpression i _ _ | TalonComment i
  | TalonDocstring i | TalonAnd i _ | TalonNot i _ | TalonOr i _
  | TalonMatch i _ _ _ | TalonError i _ | TalonAction i _ _ _
  | TalonArgumentList i _ | TalonBinaryOperator i _ _ _ _
  | TalonIdentifier i | TalonKeyAction i _ _ | TalonOperator i
  | TalonParenthesizedExpression i _ | TalonRegexEscapeSequence i _
  | TalonSleepAction i _ _ | TalonVariable i _ _ | TalonFloat i
  | TalonInteger i | TalonNumber i _ | TalonImplicitString i
  | TalonInterpolation i _ | TalonString i _ | TalonStringContent i
  | TalonStringEscapeSequence i | TalonCapture i _ _ | TalonChoice i _
  | TalonEndAnchor i | TalonList i _ _ | TalonOptional i _
  | TalonParenthesizedRule i _ | TalonRepeat i _ | TalonRepeat1 i _
  | TalonRule i _ | TalonSeq i _ | TalonStartAnchor i | TalonWord i => i
  end.

(** The attribute [children]; the leaf classes have none. *)
Definition children_of (node : Node) : list Node :=
  match node with
  | TalonSourceFile _ c | TalonContext _ c | TalonIncludeTag _ c _
  | TalonSettings _ c | TalonCommand _ c _ _ | TalonBlock _ c
  | TalonAssignment _ c _ _ | TalonExpression _ c _ | TalonAnd _ c
  | TalonNot _ c | TalonOr _ c | TalonMatch _ c _ _ | TalonError _ c
  | TalonAction _ c _ _ | TalonArgumentList _ c
  | TalonBinaryOperator _ c _ _ _ | TalonKeyAction _ c _
  | TalonParenthesizedExpression _ c | TalonRegexEscapeSequence _ c
  | TalonSleepAction _ c _ | TalonVariable _ c _ | TalonNumber _ c
  | TalonInterpolation _ c | TalonString _ c | TalonCapture _ c _
  | TalonChoice _ c | TalonList _ c _ | TalonOptional _ c
  | TalonParenthesizedRule _ c | TalonRepeat _ c | TalonRepeat1 _ c
  | TalonRule _ c | TalonSeq _ c => c
  | _ => []
  end.

(** [type(node)], by its name. *)
Definition class_name (node : Node) : string :=
  match node with
  | TalonSourceFile _ _ => "TalonSourceFile"
  | TalonContext _ _ => "TalonContext"
  | TalonIncludeTag _ _ _ => "TalonIncludeTag"
  | TalonSettings _ _ => "TalonSettings"
  | TalonCommand _ _ _ _ => "TalonCommand"
  | TalonBlock _ _ => "TalonBlock"
  | TalonAssignment _ _ _ _ => "TalonAssignment"
  | TalonExpression _ _ _ => "TalonExpression"
  | TalonComment _ => "TalonComment"
  | TalonDocstring _ => "TalonDocstring"
  | TalonAnd _ _ => "TalonAnd"
  | TalonNot _ _ => "TalonNot"
  | TalonOr _ _ => "TalonOr"
  | TalonMatch _ _ _ _ => "TalonMatch"
  | TalonError _ _ => "TalonError"
  | TalonAction _ _ _ _ => "TalonAction"
  | TalonArgumentList _ _ => "TalonArgumentList"
  | TalonBinaryOperator _ _ _ _ _ => "TalonBinaryOperator"
  | TalonIdentifier _ => "TalonIdentifier"
  | TalonKeyAction _ _ _ => "TalonKeyAction"
  | TalonOperator _ => "TalonOperator"
  | TalonParenthesizedExpression _ _ => "TalonParenthesizedExpression"
  | TalonRegexEscapeSequence _ _ => "TalonRegexEscapeSequence"
  | TalonSleepAction _ _ _ => "TalonSleepAction"
  | TalonVariable _ _ _ => "TalonVariable"
  | TalonFloat _ => "TalonFloat"
  | TalonInteger _ => "TalonInteger"
  | TalonNumber _ _ => "TalonNumber"
  | TalonImplicitString _ => "TalonImplicitString"
  | TalonInterpolation _ _ => "TalonInterpolation"
  | TalonString _ _ => "TalonString"
  | TalonStringContent _ => "TalonStringContent"
  | TalonStringEscapeSequence _ => "TalonStringEscapeSequence"
  | TalonCapture _ _ _ => "TalonCapture"
  | TalonChoice _ _ => "TalonChoice"
  | TalonEndAnchor _ => "TalonEndAnchor"
  | TalonList _ _ _ => "TalonList"
  | TalonOptional _ _ => "TalonOptional"
  | TalonParenthesizedRule _ _ => "TalonParenthesizedRule"
  | TalonRepeat _ _ => "TalonRepeat"
  | TalonRepeat1 _ _ => "TalonRepeat1"
  | TalonRule _ _ => "TalonRule"
  | TalonSeq _ _ => "TalonSeq"
  | TalonStartAnchor _ => "TalonStartAnchor"
  | TalonWord _ => "TalonWord"
  end.

(** [isinstance(node, C)] for the classes the formatter tests. *)
Definition isinstance_Node (node : Node) : bool := true.

Definition isinstance_TalonComment (node : Node) : bool :=
  match node with TalonComment _ => true | _ => false end.

Definition isinstance_TalonBlock (node : Node) : bool :=
  match node with TalonBlock _ _ => true | _ => false end.

Definition isinstance_TalonContext (node : Node) : bool :=
  match node with TalonContext _ _ => true | _ => false end.

Definition isinstance_TalonCommand (node : Node) : bool :=
  match node with TalonCommand _ _ _ _ => true | _ => false end.

Definition isinstance_TalonError (node : Node) : bool :=
  match node with TalonError _ _ => true | _ => false end.

(** [isinstance(child, (TalonIncludeTag, TalonSettings, TalonCommand))]. *)
Definition isinstance_body_only (node : Node) : bool :=
  match node with
  | TalonIncludeTag _ _ _ | TalonSettings _ _ | TalonCommand _ _ _ _ => true
  | _ => false
  end.

(** The attribute [script] of a command ([node.script.children] is read by
    [is_short_command]); other classes have no script. *)
Definition script_children (node : Node) : list Node :=
  match node with
  | TalonCommand _ _ _ script => children_of script
  | _ => []
  end.

(* ------------------------------------------------------------------ *)
(** ** [talonfmt/extra.py] and the two module-level helpers *)

(** [is_short_command] ([formatter.py]) and
    [_TalonCommandDeclaration_is_short] ([extra.py]) have the same body. *)
Definition is_short_command (node : Node) : bool :=
  (length (children_of node) + length (script_children node) =? 1)%nat.

Definition _TalonCommandDeclaration_is_short (self : Node) : bool :=
  (length (children_of self) + length (script_children self) =? 1)%nat.

(** [block_with_comments] builds a [TalonBlock] from the attributes of
    [block]. *)
Definition block_with_comments (comments : list Node) (block : Node) : Node :=
  TalonBlock
    (mkInfo (text (info block))
            (type_name (info block))
            (start_position (info block))
            (end_position (info block)))
    (comments ++ children_of block).

Definition _TalonBlock_with_comments (self : Node) (comments : list Node)
  : Node :=
  TalonBlock
    (mkInfo (text (info self))
            (type_name (info self))
            (start_position (info self))
            (end_position (info self)))
    (comments ++ children_of self).

(* ------------------------------------------------------------------ *)
(** ** Strings: the methods of [str] the formatter calls

    A text is held as its UTF-8 bytes.  The whitespace of [str.strip],
    and of [\s] in a pattern on [str], is a set of characters, some of
    them two or three bytes long: the ASCII characters 9 to 13 and 28 to
    32, U+0085, U+00A0, U+1680, U+2000 to U+200A, U+2028, U+2029, U+202F,
    U+205F and U+3000.  In UTF-8 no encoding of a character is a part of
    the encoding of another, and none starts with a continuation byte:
    the encodings found at the start of the bytes, at their end, or
    where a scan from the start stands, are the whitespace characters
    there. *)

(** The whitespace characters of one byte. *)
Definition is_whitespace (c : ascii) : bool :=
  let n := nat_of_ascii c in
  ((9 <=? n) && (n <=? 13) || (28 <=? n) && (n <=? 32))%nat.

(** The whitespace characters of two bytes: U+0085 is [C2 85] and U+00A0
    is [C2 A0]. *)
Definition is_whitespace2 (a b : ascii) : bool :=
  let x := nat_of_ascii a in
  let y := nat_of_ascii b in
  ((x =? 194) && ((y =? 133) || (y =? 160)))%nat.

(** The whitespace characters of three bytes: U+1680 is [E1 9A 80];
    U+2000 to U+200A are [E2 80 80] to [E2 80 8A], U+2028, U+2029 and
    U+202F are [E2 80 A8], [E2 80 A9] and [E2 80 AF]; U+205F is
    [E2 81 9F]; U+3000 is [E3 80 80]. *)
Definition is_whitespace3 (a b c : ascii) : bool :=
  let x := nat_of_ascii a in
  let y := nat_of_ascii b in
  let z := nat_of_ascii c in
  ((x =? 225) && (y =? 154) && (z =? 128)
   || (x =? 226) && (y =? 128)
      && ((128 <=? z) && (z <=? 138)
          || (z =? 168) || (z =? 169) || (z =? 175))
   || (x =? 226) && (y =? 129) && (z =? 159)
   || (x =? 227) && (y =? 128) && (z =? 128))%nat.

Fixpoint lstrip_list (drop : ascii -> bool) (l : list ascii) : list ascii :=
  match l with
  | [] => []
  | c :: rest => if drop c then lstrip_list drop rest else l
  end.

(** The bytes without the whitespace characters they start with. *)
Fixpoint lstrip_whitespace (l : list ascii) : list ascii :=
  match l with
  | [] => []
  | a :: l1 =>
      if is_whitespace a then lstrip_whitespace l1
      else
        match l1 with
        | [] => l
        | b :: l2 =>
            if is_whitespace2 a b then lstrip_whitespace l2
            else
              match l2 with
              | [] => l
              | c :: l3 =>
                  if is_whitespace3 a b c then lstrip_whitespace l3 else l
              end
        end
  end.

(** The same on the bytes backwards, where a character shows its last
    byte first. *)
Fixpoint lstrip_whitespace_backwards (l : list ascii) : list ascii :=
  match l with
  | [] => []
  | c :: l1 =>
      if is_whitespace c then lstrip_whitespace_backwards l1
      else
        match l1 with
        | [] => l
        | b :: l2 =>
            if is_whitespace2 b c then lstrip_whitespace_backwards l2
            else
              match l2 with
              | [] => l
              | a :: l3 =>
                  if is_whitespace3 a b c
                  then lstrip_whitespace_backwards l3 else l
              end
        end
  end.

Definition rstrip_whitespace (l : list ascii) : list ascii :=
  rev (lstrip_whitespace_backwards (rev l)).

(** [s.strip()] *)
Definition strip (s : string) : string :=
  string_of_list_ascii
    (rstrip_whitespace (lstrip_whitespace (list_ascii_of_string s))).

(** [s.lstrip("#")] *)
Definition lstrip_hash (s : string) : string :=
  string_of_list_ascii
    (lstrip_list (Ascii.eqb "#"%char) (list_ascii_of_string s)).

(* ------------------------------------------------------------------ *)
(** ** Documents ([doc_printer]) *)

Inductive Doc : Type :=
| Empty
| Fail
| Line
| Space
| Text (s : string)
| Words (s : string) (collapse_whitespace : option bool)
| Cat (docs : list Doc)
| Alt (alternatives : list Doc)
| Nest (indent : Z) (docs : list Doc)
| Row (cells : list Doc) (table_type : string) (min_col_widths : list Z).

(** [a / b] and [a // b]; a [str] operand is the [Text] of it. *)
Definition slash (a b : Doc) : Doc := Cat [a; b].
Definition dslash (a b : Doc) : Doc := Cat [a; Space; b].

Declare Scope doc_scope.
Delimit Scope doc_scope with doc.
Bind Scope doc_scope with Doc.
Notation "a </> b" := (slash a b) (at level 40, left associativity)
  : doc_scope.
Notation "a <//> b" := (dslash a b) (at level 40, left associativity)
  : doc_scope.
Open Scope doc_scope.

Definition cat (docs : list Doc) : Doc := Cat docs.
Definition alt (docs : list Doc) : Doc := Alt docs.
Definition nest (indent : Z) (docs : list Doc) : Doc := Nest indent docs.
Definition row (cells : list Doc) (table_type : string)
  (min_col_widths : list Z) : Doc := Row cells table_type min_col_widths.

Fixpoint intersperse (sep : Doc) (docs : list Doc) : list Doc :=
  match docs with
  | [] => []
  | [d] => [d]
  | d :: rest => d :: sep :: intersperse sep rest
  end.

(** [sep.join(docs)] *)
Definition join (sep : Doc) (docs : list Doc) : Doc :=
  Cat (intersperse sep docs).

Definition parens (docs : list Doc) : Doc :=
  Cat (Text "(" :: docs ++ [Text ")"]).
Definition braces (docs : list Doc) : Doc :=
  Cat (Text "{" :: docs ++ [Text "}"]).
Definition brackets (docs : list Doc) : Doc :=
  Cat (Text "[" :: docs ++ [Text "]"]).
Definition angles (docs : list Doc) : Doc :=
  Cat (Text "<" :: docs ++ [Text ">"]).
Definition quote_mark : string := String (ascii_of_nat 34) EmptyString.
Definition double_quote (docs : list Doc) : Doc :=
  Cat (Text quote_mark :: docs ++ [Text quote_mark]).

(* ------------------------------------------------------------------ *)
(** ** The translator's state and exceptions *)

(** [TypeError cls] is [TypeError(type(node))], by the name of the class;
    [TypeErrorArguments takes given] is the [TypeError] of a call that
    passes [given] positional arguments to a function that takes
    [takes]. *)
Inductive Exn : Type :=
| ParseError (node : Node)
| TypeError (cls : string)
| TypeErrorArguments (takes given : nat)
| AssertionError (message : string) (found : list string).

(** [_comment_buffer] *)
Definition Buffer : Type := list Node.

Inductive Outcome (A : Type) : Type :=
| Ok (a : A) (buffer : Buffer)
| Raise (e : Exn)
| OutOfFuel.

Arguments Raise {A} e.
Arguments OutOfFuel {A}.

Definition M (A : Type) : Type := Buffer -> Outcome A.

Definition ret {A} (a : A) : M A := fun buffer => Ok a buffer.

Definition bind {A B} (m : M A) (k : A -> M B) : M B :=
  fun buffer =>
    match m buffer with
    | Ok a buffer' => k a buffer'
    | Raise e => Raise e
    | OutOfFuel => OutOfFuel
    end.

Definition raise {A} (e : Exn) : M A := fun _ => Raise e.

Definition out_of_fuel {A} : M A := fun _ => OutOfFuel.

Notation "x <- m ;; k" := (bind m (fun x => k))
  (at level 61, m at next level, right associativity).
Notation "m ;;; k" := (bind m (fun _ => k))
  (at level 61, right associativity).

(** [for x in xs: yield from body(x)] *)
Fixpoint for_each {A B} (body : A -> M (list B)) (xs : list A) : M (list B) :=
  match xs with
  | [] => ret []
  | x :: rest =>
      ys <- body x ;;
      zs <- for_each body rest ;;
      ret (ys ++ zs)
  end.

(** [bool | int], the type of the two alignment options. *)
Inductive BoolOrInt : Type :=
| PyBool (b : bool)
| PyInt (n : Z).

(** [if x:] *)
Definition truthy (x : BoolOrInt) : bool :=
  match x with
  | PyBool b => b
  | PyInt n => negb (n =? 0)%Z
  end.

(** [x is True] *)
Definition is_True (x : BoolOrInt) : bool :=
  match x with
  | PyBool true => true
  | _ => false
  end.

Definition int_value (x : BoolOrInt) : Z :=
  match x with
  | PyBool b => if b then 1%Z else 0%Z
  | PyInt n => n
  end.

Record TalonFormatter : Type := mkTalonFormatter {
  indent_size : Z;
  align_match_context : BoolOrInt;
  align_short_commands : BoolOrInt
}.

(* ------------------------------------------------------------------ *)
(** ** [TalonFormatter]: the handlers

    [create_tables] is [doc_printer]'s; [self] holds the three options.
    Inside [Methods] the three dispatching methods are variables, as they
    are reached through [self] in the source; they are tied together by
    [format], [format_block] and [format_block_match] below. *)

Section Translator.

Variable create_tables : list Doc -> list Doc.
Variable self : TalonFormatter.

Section Methods.

Variable format : Node -> M Doc.
Variable format_block : Node -> M (list Doc).
Variable format_block_match : Node -> bool -> bool -> M (list Doc).

(** *** Comments met inline *)

(** [self._comment_buffer.append(child)] *)
Definition append_comment (child : Node) : M unit :=
  fun buffer => Ok tt (buffer ++ [child]).

(** [store_comments] with the body of the loop that consumes it: every
    comment is appended to the buffer, every child of type [node_type] is
    handed to [body], any other child raises [TypeError]. *)
Fixpoint store_comments {B} (node_type : Node -> bool)
  (body : Node -> M (list B)) (children : list Node) : M (list B) :=
  match children with
  | [] => ret []
  | child :: rest =>
      if isinstance_TalonComment child then
        append_comment child ;;;
        store_comments node_type body rest
      else if node_type child then
        ys <- body child ;;
        zs <- store_comments node_type body rest ;;
        ret (ys ++ zs)
      else raise (TypeError (class_name child))
  end.

(** [tuple(self.store_comments(children, node_type=node_type))] *)
Definition stored (node_type : Node -> bool) (children : list Node)
  : M (list Node) :=
  store_comments node_type (fun child => ret [child]) children.

(** [get_comments]: the buffer is yielded, then cleared. *)
Definition get_comments : M (list Node) :=
  fun buffer => Ok buffer [].

(** [get_formatted_comments]; formatting a comment leaves the buffer
    alone, so clearing it before or after is the same. *)
Definition get_formatted_comments : M (list Doc) :=
  comments <- get_comments ;;
  for_each (fun comment => d <- format comment ;; ret [d]) comments.

Definition found (rest : list Node) : list string :=
  map (fun node => type_name (info node)) rest.

Definition assert_only_comments (children : list Node) : M unit :=
  rest <- stored isinstance_TalonComment children ;;
  if (length rest =? 0)%nat then ret tt
  else raise (AssertionError "There should be no non-comment nodes"
                             (found rest)).

Definition get_node_with_type (children : list Node)
  (node_type : Node -> bool) : M Node :=
  rest <- stored node_type children ;;
  match rest with
  | [node] => ret node
  | _ => raise (AssertionError "There should be only one non-comment child"
                               (found rest))
  end.

Definition get_node (children : list Node) : M Node :=
  get_node_with_type children isinstance_Node.

(** [format_children]; a node is not an [Iterable]. *)
Definition format_children (children : list Node) : M (list Doc) :=
  store_comments isinstance_Node
    (fun child => d <- format child ;; ret [d]) children.

(** *** Source files *)

(** [clear_short_command_buffer] *)
Definition clear_short_command_buffer (short_command_buffer : list Doc)
  : list Doc :=
  match short_command_buffer with
  | [] => []
  | _ => create_tables short_command_buffer
  end.

(** The loop over [node.children] and the two flushes after it.  The
    arguments are the generator's locals: [in_header], [comment_buffer]
    and [short_command_buffer]. *)
Fixpoint source_file_loop (children : list Node) (in_header : bool)
  (comment_buffer short_command_buffer : list Doc) : M (list Doc) :=
  match children with
  | [] =>
      let separator :=
        if in_header then Text "-" :: comment_buffer else [] in
      let tables :=
        if is_True (align_short_commands self)
        then clear_short_command_buffer short_command_buffer else [] in
      ret (separator ++ tables)
  | child :: rest =>
      if in_header && isinstance_TalonComment child then
        d <- format child ;;
        source_file_loop rest in_header (comment_buffer ++ [d])
          short_command_buffer
      else if isinstance_TalonContext child then
        if in_header then
          lines <- format_block child ;;
          more <- source_file_loop rest in_header [] short_command_buffer ;;
          ret (comment_buffer ++ lines ++ more)
        else raise (AssertionError EmptyString [])
      else
        let ends_header := in_header && isinstance_body_only child in
        let separator :=
          if ends_header then Text "-" :: comment_buffer else [] in
        let in_header' := if ends_header then false else in_header in
        let comment_buffer' := if ends_header then [] else comment_buffer in
        if is_True (align_short_commands self) then
          if isinstance_TalonCommand child && is_short_command child then
            lines <- format_block child ;;
            more <- source_file_loop rest in_header' comment_buffer'
                      (short_command_buffer ++ lines) ;;
            ret (separator ++ more)
          else
            lines <- format_block child ;;
            more <- source_file_loop rest in_header' comment_buffer' [] ;;
            ret (separator
                 ++ clear_short_command_buffer short_command_buffer
                 ++ lines ++ more)
        else
          lines <- format_block child ;;
          more <- source_file_loop rest in_header' comment_buffer'
                    short_command_buffer ;;
          ret (separator ++ lines ++ more)
  end.

Definition format_block_TalonSourceFile (children : list Node)
  : M (list Doc) :=
  source_file_loop children true [] [].

(** *** Context header *)

Definition format_block_TalonContext (children : list Node) : M (list Doc) :=
  for_each
    (fun child =>
       lines <- format_block child ;;
       comments <- get_formatted_comments ;;
       ret (comments ++ lines))
    children.

Fixpoint format_block_match_TalonAnd (children : list Node)
  (under_and under_not : bool) : M (list Doc) :=
  match children with
  | [] => ret []
  | child :: rest =>
      if isinstance_TalonComment child then
        lines <- format_block child ;;
        more <- format_block_match_TalonAnd rest under_and under_not ;;
        ret (lines ++ more)
      else
        lines <- format_block_match child under_and under_not ;;
        more <- format_block_match_TalonAnd rest true under_not ;;
        ret (lines ++ more)
  end.

Fixpoint format_block_match_TalonNot (children : list Node)
  (under_and under_not : bool) : M (list Doc) :=
  match children with
  | [] => ret []
  | child :: rest =>
      if isinstance_TalonComment child then
        lines <- format_block child ;;
        more <- format_block_match_TalonNot rest under_and under_not ;;
        ret (lines ++ more)
      else
        lines <- format_block_match child under_and under_not ;;
        more <- format_block_match_TalonNot rest under_and true ;;
        ret (lines ++ more)
  end.

Definition format_block_match_TalonOr (children : list Node)
  (under_and under_not : bool) : M (list Doc) :=
  for_each
    (fun child =>
       if isinstance_TalonComment child then format_block child
       else
         lines <- format_block_match child under_and under_not ;;
         comments <- get_formatted_comments ;;
         ret (comments ++ lines))
    children.

Definition format_match_keywords (under_and under_not : bool) : list Doc :=
  (if under_and then [Text "and"; Space] else [])
  ++ (if under_not then [Text "not"; Space] else []).

Definition format_match_alternatives (key pattern : Doc) : list Doc :=
  [key </> Text ":" <//> pattern]
  ++ (if truthy (align_match_context self) then
        if is_True (align_match_context self) then
          [row [key </> Text ":"; pattern] "match" []]
        else
          [row [key </> Text ":"; pattern] "match"
               [int_value (align_match_context self)]]
      else []).

Definition format_block_match_TalonMatch (children : list Node)
  (key pattern : Node) (under_and under_not : bool) : M (list Doc) :=
  assert_only_comments children ;;;
  let match_keywords := format_match_keywords under_and under_not in
  k <- format key ;;
  let key := cat (match_keywords ++ [k]) in
  pattern <- format pattern ;;
  ret [alt (format_match_alternatives key pattern)].

(** *** Tag includes, settings, commands *)

Definition format_block_TalonIncludeTag (children : list Node) (tag : Node)
  : M (list Doc) :=
  assert_only_comments children ;;;
  comments <- get_formatted_comments ;;
  t <- format tag ;;
  ret (comments ++ [Text "tag():" <//> t]).

Definition format_block_TalonSettings (children : list Node)
  : M (list Doc) :=
  block <- get_node_with_type children isinstance_TalonBlock ;;
  comments <- get_comments ;;
  let block := block_with_comments comments block in
  b <- format block ;;
  ret [Text "settings():" <//> nest (indent_size self) [Line; b]].

Definition format_short_command (rule script : Doc) : Doc :=
  if truthy (align_short_commands self) then
    if is_True (align_short_commands self) then
      row [rule </> Text ":"; script] "command" []
    else
      row [rule </> Text ":"; script] "command"
          [int_value (align_short_commands self)]
  else rule </> Text ":" <//> script.

Definition format_block_TalonCommand (children : list Node)
  (rule script : Node) : M (list Doc) :=
  rule <- format rule ;;
  comments <- get_formatted_comments ;;
  let block := block_with_comments children script in
  script <- format block ;;
  let alt1 :=
    cat [rule </> Text ":"; nest (indent_size self) [Line; script; Line]] in
  let alt2 :=
    if (length (children_of block) =? 1)%nat
    then format_short_command rule script
    else Fail in
  ret (comments ++ [Alt [alt1; alt2]]).

(** *** Statements *)

(** The loop drains the buffer before each line of a child.  The child
    is run to its end and its lines are then taken in turn, which is the
    source's order of effects for a child that yields one line, as the
    statements and comments of a block do; between the lines of a child
    that yields several, the source runs the child on. *)
Definition format_block_TalonBlock (children : list Node) : M (list Doc) :=
  for_each
    (fun child =>
       lines <- format_block child ;;
       for_each
         (fun line =>
            comments <- get_formatted_comments ;;
            ret (comments ++ [line]))
         lines)
    children.

Definition format_block_TalonAssignment (children : list Node)
  (left right : Node) : M (list Doc) :=
  assert_only_comments children ;;;
  l <- format left ;;
  r <- format right ;;
  ret [l <//> Text "=" <//> r].

Definition format_block_TalonExpression (children : list Node)
  (expression : Node) : M (list Doc) :=
  assert_only_comments children ;;;
  e <- format expression ;;
  ret [e].

(** *** The three dispatching methods

    Each is the [singledispatchmethod] with its registered handlers; the
    last cases are the body of the undecorated function.

    [format_block_match] is the call [self.format_block_match(node,
    under_and, under_not)], the flags passed by position as the handlers
    of [TalonAnd], [TalonNot] and [TalonOr] pass them.  The registered
    handlers take them so.  The undecorated function takes them by
    keyword only: for a node of any other class, an error node too, the
    call itself raises [TypeError], with [self] and the node as the two
    positional arguments taken and the flags making four.  The one call
    with the flags by keyword, in the undecorated [format_block], is made
    for the four registered classes, where the two ways of calling agree;
    the body of the undecorated function is
    [format_block_match_undecorated]. *)

Definition format_dispatch (node : Node) : M Doc :=
  match node with
  (* expressions *)
  | TalonAction _ children action_name arguments =>
      assert_only_comments children ;;;
      name <- format action_name ;;
      args <- format arguments ;;
      ret (name </> parens [args])
  | TalonArgumentList _ children =>
      docs <- format_children children ;;
      ret (join (Text "," </> Space) docs)
  | TalonBinaryOperator _ children lhs operator rhs =>
      assert_only_comments children ;;;
      l <- format lhs ;;
      o <- format operator ;;
      r <- format rhs ;;
      ret (l <//> o <//> r)
  | TalonIdentifier i => ret (Words (text i) (Some true))
  | TalonKeyAction _ children arguments =>
      assert_only_comments children ;;;
      args <- format arguments ;;
      ret (Text "key" </> parens [args])
  | TalonOperator i => ret (Words (text i) (Some true))
  | TalonParenthesizedExpression _ children =>
      child <- get_node children ;;
      d <- format child ;;
      ret (parens [d])
  | TalonRegexEscapeSequence _ children =>
      match children with
      | [] => ret (braces [Empty])
      | _ => docs <- format_children children ;; ret (braces docs)
      end
  | TalonSleepAction _ children arguments =>
      assert_only_comments children ;;;
      args <- format arguments ;;
      ret (Text "sleep" </> parens [args])
  | TalonVariable _ children variable_name =>
      assert_only_comments children ;;;
      format variable_name
  (* numbers *)
  | TalonFloat i => ret (Words (strip (text i)) (Some true))
  | TalonInteger i => ret (Words (strip (text i)) (Some true))
  | TalonNumber _ children =>
      child <- get_node children ;;
      format child
  (* strings *)
  | TalonImplicitString i => ret (Words (strip (text i)) (Some true))
  | TalonInterpolation _ children =>
      child <- get_node children ;;
      format child
  | TalonString _ children =>
      docs <- format_children children ;;
      ret (double_quote docs)
  | TalonStringContent i => ret (Words (text i) None)
  | TalonStringEscapeSequence i => ret (Words (text i) None)
  (* rules *)
  | TalonCapture _ children capture_name =>
      assert_only_comments children ;;;
      name <- format capture_name ;;
      ret (angles [name])
  | TalonChoice _ children =>
      docs <- format_children children ;;
      ret (join (Space </> Text "|" </> Space) docs)
  | TalonEndAnchor _ => ret (Text "$")
  | TalonList _ children list_name =>
      assert_only_comments children ;;;
      name <- format list_name ;;
      ret (braces [name])
  | TalonOptional _ children =>
      child <- get_node children ;;
      d <- format child ;;
      ret (brackets [d])
  | TalonParenthesizedRule _ children =>
      child <- get_node children ;;
      d <- format child ;;
      ret (parens [d])
  | TalonRepeat _ children =>
      child <- get_node children ;;
      d <- format child ;;
      ret (d </> Text "*")
  | TalonRepeat1 _ children =>
      child <- get_node children ;;
      d <- format child ;;
      ret (d </> Text "+")
  | TalonRule _ children =>
      docs <- format_children children ;;
      ret (cat docs)
  | TalonSeq _ children =>
      docs <- format_children children ;;
      ret (join Space docs)
  | TalonStartAnchor _ => ret (Text "^")
  | TalonWord i => ret (Words (text i) None)
  (* comments *)
  | TalonComment i =>
      ret (Text "#" </> Words (lstrip_hash (text i)) (Some false))
  | TalonDocstring i =>
      ret (Text "###" </> Words (lstrip_hash (text i)) (Some false))
  (* the undecorated [format] *)
  | TalonSourceFile _ _ | TalonContext _ _ | TalonIncludeTag _ _ _
  | TalonSettings _ _ | TalonCommand _ _ _ _ | TalonBlock _ _
  | TalonAssignment _ _ _ _ | TalonExpression _ _ _ =>
      lines <- format_block node ;;
      ret (join Line lines)
  | TalonError _ _ => raise (ParseError node)
  | TalonAnd _ _ | TalonNot _ _ | TalonOr _ _ | TalonMatch _ _ _ _ =>
      raise (TypeError (class_name node))
  end.

Definition format_block_dispatch (node : Node) : M (list Doc) :=
  match node with
  | TalonSourceFile _ children => format_block_TalonSourceFile children
  | TalonContext _ children => format_block_TalonContext children
  | TalonIncludeTag _ children tag => format_block_TalonIncludeTag children tag
  | TalonSettings _ children => format_block_TalonSettings children
  | TalonCommand _ children rule script =>
      format_block_TalonCommand children rule script
  | TalonBlock _ children => format_block_TalonBlock children
  | TalonAssignment _ children lhs rhs =>
      format_block_TalonAssignment children lhs rhs
  | TalonExpression _ children expression =>
      format_block_TalonExpression children expression
  (* the undecorated [format_block] *)
  | TalonComment _ | TalonDocstring _ => d <- format node ;; ret [d]
  | TalonAnd _ _ | TalonNot _ _ | TalonMatch _ _ _ _ | TalonOr _ _ =>
      format_block_match node false false
  | TalonError _ _ => raise (ParseError node)
  | _ => raise (TypeError (class_name node))
  end.

Definition format_block_match_dispatch (node : Node)
  (under_and under_not : bool) : M (list Doc) :=
  match node with
  | TalonAnd _ children =>
      format_block_match_TalonAnd children under_and under_not
  | TalonNot _ children =>
      format_block_match_TalonNot children under_and under_not
  | TalonOr _ children =>
      format_block_match_TalonOr children under_and under_not
  | TalonMatch _ children key pattern =>
      format_block_match_TalonMatch children key pattern under_and under_not
  (* the undecorated [format_block_match], its flags keyword-only *)
  | _ => raise (TypeErrorArguments 2 4)
  end.

(** The body of the undecorated [format_block_match], for a call with the
    flags by keyword. *)
Definition format_block_match_undecorated (node : Node) : M (list Doc) :=
  match node with
  | TalonError _ _ => raise (ParseError node)
  | _ => raise (TypeError (class_name node))
  end.

End Methods.

(** *** Tying the methods together *)

Fixpoint format (fuel : nat) (node : Node) : M Doc :=
  match fuel with
  | O => out_of_fuel
  | S fuel' =>
      format_dispatch (format fuel') (format_block fuel') node
  end
with format_block (fuel : nat) (node : Node) : M (list Doc) :=
  match fuel with
  | O => out_of_fuel
  | S fuel' =>
      format_block_dispatch (format fuel') (format_block fuel')
        (format_block_match fuel') node
  end
with format_block_match (fuel : nat) (node : Node)
  (under_and under_not : bool) : M (list Doc) :=
  match fuel with
  | O => out_of_fuel
  | S fuel' =>
      format_block_match_dispatch (format fuel') (format_block fuel')
        (format_block_match fuel') node under_and under_not
  end.

End Translator.

Arguments store_comments {B} node_type body children _.

(* ------------------------------------------------------------------ *)
(** ** Notions the properties are stated with *)

(** The comments among the children of a node, and the others. *)
Definition comments_in (children : list Node) : list Node :=
  filter isinstance_TalonComment children.

Definition non_comments (children : list Node) : list Node :=
  filter (fun child => negb (isinstance_TalonComment child)) children.

(** A short command as the glossary words it: one surface child in the
    rule, one statement in the script, comments left out of both counts. *)
Definition short_command_by_tally (node : Node) : bool :=
  match node with
  | TalonCommand _ _ rule script =>
      (length (non_comments (children_of rule)) =? 1)%nat
      && (length (non_comments (children_of script)) =? 1)%nat
  | _ => false
  end.

(** The expanded layout of a command, [alt1] in the source. *)
Definition expanded_layout (self : TalonFormatter) (rule script : Doc) : Doc :=
  cat [rule </> Text ":"; nest (indent_size self) [Line; script; Line]].

(** The nodes whose handler asks for its one non-comment child, with the
    children it searches and the type it asks for: [get_node] for the
    wrappers, [get_node_with_type(..., node_type=TalonBlock)] for
    settings. *)
Definition sole_child_request (node : Node)
  : option (list Node * (Node -> bool)) :=
  match node with
  | TalonParenthesizedExpression _ children
  | TalonNumber _ children
  | TalonInterpolation _ children
  | TalonOptional _ children
  | TalonParenthesizedRule _ children
  | TalonRepeat _ children
  | TalonRepeat1 _ children => Some (children, isinstance_Node)
  | TalonSettings _ children => Some (children, isinstance_TalonBlock)
  | _ => None
  end.

(** Every child is a comment or has the type asked for, as the signature
    [Iterable[Union[NodeVar, TalonComment]]] of [store_comments] says. *)
Definition well_typed_children (node_type : Node -> bool)
  (children : list Node) : Prop :=
  forall child, In child children ->
    isinstance_TalonComment child = true \/ node_type child = true.

(** The first child that [store_comments] refuses, if there is one: a
    child that is neither a comment nor of the type asked for. *)
Definition first_refused (node_type : Node -> bool) (children : list Node)
  : option Node :=
  find (fun child =>
          negb (isinstance_TalonComment child) && negb (node_type child))
    children.


(** A table builder that leaves the rows as they are. *)
Definition keep_rows (rows : list Doc) : list Doc := rows.

(* ------------------------------------------------------------------ *)
(** ** Sample trees *)

Module Sample.

Definition at_line (n : Z) : Point := mkPoint n 0.

Definition leaf (text kind : string) (n : Z) : Info :=
  mkInfo text kind (at_line n) (at_line n).

Definition identifier (name : string) : Node :=
  TalonIdentifier (leaf name "identifier" 0).

Definition comment (text : string) (n : Z) : Node :=
  TalonComment (leaf text "comment" n).

(** [name()] as a statement, with [children] next to the action. *)
Definition call (children : list Node) (name : string) : Node :=
  TalonExpression (leaf name "expression" 0) children
    (TalonAction (leaf name "action" 0) [] (identifier name)
       (TalonArgumentList (leaf "()" "argument_list" 0) [])).

Definition command (children : list Node) (word : string)
  (statements : list Node) : Node :=
  TalonCommand (leaf word "command" 0) children
    (TalonRule (leaf word "rule" 0) [TalonWord (leaf word "word" 0)])
    (TalonBlock (leaf word "block" 0) statements).

Definition match_ (children : list Node) (key pattern : string) (n : Z)
  : Node :=
  TalonMatch (leaf key "match" n) children (identifier key)
    (TalonImplicitString (leaf pattern "implicit_string" n)).

Definition source_file (children : list Node) : Node :=
  TalonSourceFile (leaf "file" "source_file" 0) children.

Definition context (children : list Node) : Node :=
  TalonContext (leaf "context" "context" 0) children.

Definition options (align_short_commands : BoolOrInt) : TalonFormatter :=
  mkTalonFormatter 4 (PyBool false) align_short_commands.

(** [foo: bar()] *)
Definition foo_bar : Node := command [] "foo" [call [] "bar"].

(** [foo:] / [    # note] / [    bar()] *)
Definition foo_note_bar : Node :=
  command [] "foo" [comment "# note" 1; call [] "bar"].

(** [not app: x] *)
Definition not_app : Node :=
  TalonNot (leaf "not" "not" 0) [match_ [] "app" "x" 0].

(** [app: x] / [# c1] / [and os: y] with the comment [# c2] inside the
    second match. *)
Definition c1 : Node := comment "# c1" 1.
Definition c2 : Node := comment "# c2" 2.
Definition and_group : Node :=
  TalonAnd (leaf "and" "and" 0)
    [match_ [] "app" "x" 0; c1; match_ [c2] "os" "y" 2].

(** [bar()] with a syntax error next to the action. *)
Definition broken_call : Node :=
  call [TalonError (leaf "?" "ERROR" 0) []] "bar".

(** The no-break space U+00A0 and the em space U+2003, in UTF-8. *)
Definition no_break_space : string :=
  String (ascii_of_nat 194) (String (ascii_of_nat 160) EmptyString).
Definition em_space : string :=
  String (ascii_of_nat 226)
    (String (ascii_of_nat 128) (String (ascii_of_nat 131) EmptyString)).

End Sample.

(** The comment lines of an output, by the text after the [#]. *)
Definition comment_text (d : Doc) : option string :=
  match d with
  | Cat [Text "#"; Words s (Some false)] => Some s
  | _ => None
  end.

Fixpoint comment_texts (lines : list Doc) : list string :=
  match lines with
  | [] => []
  | d :: rest =>
      match comment_text d with
      | Some s => s :: comment_texts rest
      | None => comment_texts rest
      end
  end.

(* ------------------------------------------------------------------ *)
(** ** The loop of the source-file handler, in two phases *)

Section HeaderAndBody.

Variable create_tables : list Doc -> list Doc.
Variable self : TalonFormatter.
Variable format : Node -> M Doc.
Variable format_block : Node -> M (list Doc).

(** The children before the first body-only node, and the rest. *)
Fixpoint header_children (children : list Node) : list Node :=
  match children with
  | [] => []
  | child :: rest =>
      if isinstance_body_only child then [] else child :: header_children rest
  end.

Fixpoint body_children (children : list Node) : list Node :=
  match children with
  | [] => []
  | child :: rest =>
      if isinstance_body_only child then children else body_children rest
  end.

(** The header: comments are held back, a context is preceded by the
    comments held back so far, any other child gives its lines.  The
    result is the lines and the comments still held back. *)
Fixpoint header_lines (children : list Node) (comment_buffer : list Doc)
  : M (list Doc * list Doc) :=
  match children with
  | [] => ret ([], comment_buffer)
  | child :: rest =>
      if isinstance_TalonComment child then
        d <- format child ;;
        header_lines rest (comment_buffer ++ [d])
      else if isinstance_TalonContext child then
        lines <- format_block child ;;
        more <- header_lines rest [] ;;
        ret (comment_buffer ++ lines ++ fst more, snd more)
      else
        lines <- format_block child ;;
        more <- header_lines rest comment_buffer ;;
        ret (lines ++ fst more, snd more)
  end.

(** The body: every child gives its lines, short commands going through
    the table buffer when the option is [True]; a context is refused. *)
Fixpoint body_lines (children : list Node) (short_command_buffer : list Doc)
  : M (list Doc) :=
  match children with
  | [] =>
      ret (if is_True (align_short_commands self)
           then clear_short_command_buffer create_tables short_command_buffer
           else [])
  | child :: rest =>
      if isinstance_TalonContext child then
        raise (AssertionError EmptyString [])
      else if is_True (align_short_commands self) then
        if isinstance_TalonCommand child && is_short_command child then
          lines <- format_block child ;;
          body_lines rest (short_command_buffer ++ lines)
        else
          lines <- format_block child ;;
          more <- body_lines rest [] ;;
          ret (clear_short_command_buffer create_tables short_command_buffer
               ++ lines ++ more)
      else
        lines <- format_block child ;;
        more <- body_lines rest short_command_buffer ;;
        ret (lines ++ more)
  end.

End HeaderAndBody.

(* ------------------------------------------------------------------ *)
(** ** [talonfmt/extra.py]: the equivalence checks

    The functions below raise [AssertionError] or return [None]; they do
    not touch the translator, so their outcome is a [Raised]. *)

Inductive Raised (A : Type) : Type :=
| Returns (a : A)
| Raises (e : Exn).

Arguments Raises {A} e.

(** [assert condition] *)
Definition assert (condition : bool) : Raised unit :=
  if condition then Returns tt else Raises (AssertionError EmptyString []).

(** The bytes after the whitespace character that [l] starts with, if
    it starts with one. *)
Definition after_whitespace (l : list ascii) : option (list ascii) :=
  match l with
  | [] => None
  | a :: l1 =>
      if is_whitespace a then Some l1
      else
        match l1 with
        | [] => None
        | b :: l2 =>
            if is_whitespace2 a b then Some l2
            else
              match l2 with
              | [] => None
              | c :: l3 => if is_whitespace3 a b c then Some l3 else None
              end
        end
  end.

(** [re.sub(r"\s+", " ", text)], scanning the bytes of [text] from the
    start: a whitespace character is dropped, and a space is put for the
    first of a run; [in_run] says that the character before was
    whitespace.  The cases are those of [after_whitespace]. *)
Fixpoint collapse_list (in_run : bool) (l : list ascii) : list ascii :=
  let space := if in_run then [] else [" "%char] in
  match l with
  | [] => []
  | a :: l1 =>
      if is_whitespace a then space ++ collapse_list true l1
      else
        match l1 with
        | [] => a :: collapse_list false l1
        | b :: l2 =>
            if is_whitespace2 a b then space ++ collapse_list true l2
            else
              match l2 with
              | [] => a :: collapse_list false l1
              | c :: l3 =>
                  if is_whitespace3 a b c
                  then space ++ collapse_list true l3
                  else a :: collapse_list false l1
              end
        end
  end.

Definition _collapse_whitespace (text : string) : string :=
  string_of_list_ascii (collapse_list false (list_ascii_of_string text)).

Definition _TalonComment_assert_equivalent (self other : Node)
  : Raised unit :=
  match assert (isinstance_TalonComment other) with
  | Raises e => Raises e
  | Returns _ =>
      assert (String.eqb (_collapse_whitespace (text (info self)))
                         (_collapse_whitespace (text (info other))))
  end.

Definition isinstance_TalonSettings (node : Node) : bool :=
  match node with TalonSettings _ _ => true | _ => false end.

Definition isinstance_TalonImplicitString (node : Node) : bool :=
  match node with TalonImplicitString _ => true | _ => false end.

Definition _TalonImplicitString_assert_equivalent (self other : Node)
  : Raised unit :=
  match assert (isinstance_TalonImplicitString other) with
  | Raises e => Raises e
  | Returns _ =>
      assert (String.eqb (strip (text (info self)))
                         (strip (text (info other))))
  end.

(* ------------------------------------------------------------------ *)
(** ** Further notions *)

(** The line a comment is formatted to. *)
Definition comment_line (comment : Node) : Doc :=
  Text "#" </> Words (lstrip_hash (text (info comment))) (Some false).

(** [n] times the character [#]. *)
Fixpoint hashes (n : nat) : string :=
  match n with
  | O => EmptyString
  | S n' => String "#"%char (hashes n')
  end.

Definition starts_with_hash (s : string) : bool :=
  match s with
  | String c _ => Ascii.eqb "#"%char c
  | EmptyString => false
  end.

(** The children a source file has by the grammar: comments, a context,
    tag includes naming an identifier, settings and commands. *)
Definition top_level (child : Node) : bool :=
  match child with
  | TalonComment _ | TalonContext _ _ | TalonSettings _ _
  | TalonCommand _ _ _ _ => true
  | TalonIncludeTag _ _ (TalonIdentifier _) => true
  | _ => false
  end.

(** The classes [format_block_match] has a registered handler for. *)
Definition handles_match (node : Node) : bool :=
  match node with
  | TalonAnd _ _ | TalonNot _ _ | TalonOr _ _ | TalonMatch _ _ _ _ => true
  | _ => false
  end.

(** [self] with other alignment options. *)
Definition with_alignment (self : TalonFormatter)
  (align_match_context align_short_commands : BoolOrInt) : TalonFormatter :=
  mkTalonFormatter (indent_size self) align_match_context
    align_short_commands.

(* ------------------------------------------------------------------ *)
(** ** Fuel and termination: the notions *)

(** [steady r r']: [r'] is [r], unless [r] ran out of fuel. *)
Definition steady {A} (r r' : Outcome A) : Prop := r = OutOfFuel \/ r = r'.

(** The depth of a tree. *)
Fixpoint height (node : Node) : nat :=
  match node with
  | TalonSourceFile _ c | TalonContext _ c | TalonSettings _ c
  | TalonBlock _ c | TalonAnd _ c | TalonNot _ c | TalonOr _ c
  | TalonError _ c | TalonArgumentList _ c
  | TalonParenthesizedExpression _ c | TalonRegexEscapeSequence _ c
  | TalonNumber _ c | TalonInterpolation _ c | TalonString _ c
  | TalonChoice _ c | TalonOptional _ c | TalonParenthesizedRule _ c
  | TalonRepeat _ c | TalonRepeat1 _ c | TalonRule _ c | TalonSeq _ c =>
      S (list_max (map height c))
  | TalonIncludeTag _ c a | TalonExpression _ c a | TalonKeyAction _ c a
  | TalonSleepAction _ c a | TalonVariable _ c a | TalonCapture _ c a
  | TalonList _ c a =>
      S (Nat.max (list_max (map height c)) (height a))
  | TalonCommand _ c a b | TalonAssignment _ c a b | TalonMatch _ c a b
  | TalonAction _ c a b =>
      S (Nat.max (list_max (map height c)) (Nat.max (height a) (height b)))
  | TalonBinaryOperator _ c a b d =>
      S (Nat.max (list_max (map height c))
           (Nat.max (height a) (Nat.max (height b) (height d))))
  | _ => 0
  end.

(** The buffer holds comments only, as [store_comments] fills it. *)
Definition only_comments (buffer : list Node) : Prop :=
  Forall (fun node => isinstance_TalonComment node = true) buffer.

(** [runs m Q]: from a buffer of comments, [m] does not run out of fuel;
    when it returns, the value satisfies [Q] and the buffer still holds
    comments only. *)
Definition runs {A} (m : M A) (Q : A -> Prop) : Prop :=
  forall buffer,
    only_comments buffer ->
    match m buffer with
    | Ok a buffer' => Q a /\ only_comments buffer'
    | Raise _ => True
    | OutOfFuel => False
    end.

Definition anything {A} (a : A) : Prop := True.

(** With enough fuel every method returns or raises. *)
Definition terminates (create_tables : list Doc -> list Doc)
  (self : TalonFormatter) (fuel : nat) (node : Node) : Prop :=
  runs (format create_tables self fuel node) anything
  /\ runs (format_block create_tables self fuel node) anything
  /\ forall under_and under_not,
       runs (format_block_match create_tables self fuel node
               under_and under_not) anything.

(* ------------------------------------------------------------------ *)
(** ** Comments of a tree and comments of a document *)

(** The named fields of a node. *)
Definition fields_of (node : Node) : list Node :=
  match node with
  | TalonIncludeTag _ _ a | TalonExpression _ _ a | TalonKeyAction _ _ a
  | TalonSleepAction _ _ a | TalonVariable _ _ a | TalonCapture _ _ a
  | TalonList _ _ a => [a]
  | TalonCommand _ _ a b | TalonAssignment _ _ a b | TalonMatch _ _ a b
  | TalonAction _ _ a b => [a; b]
  | TalonBinaryOperator _ _ a b d => [a; b; d]
  | _ => []
  end.

Definition subnodes (node : Node) : list Node :=
  children_of node ++ fields_of node.

(** [inside c node]: [c] is [node] or lies below it. *)
Inductive inside (c : Node) : Node -> Prop :=
| inside_here : inside c c
| inside_sub (node m : Node) :
    In m (subnodes node) -> inside c m -> inside c node.

(** What a handler reads of its node, in the order it reads it: of a
    command the rule, the comments and the children of the script (the
    script is a block by its type, and only its children are read); of
    any other node the children and then the fields. *)
Definition visited (node : Node) : list Node :=
  match node with
  | TalonCommand _ children rule script =>
      rule :: children ++ children_of script
  | _ => subnodes node
  end.

Inductive reached (c : Node) : Node -> Prop :=
| reached_here : reached c c
| reached_sub (node m : Node) :
    In m (visited node) -> reached c m -> reached c node.

(** Every command in the tree has a block for its script, as the type
    of the field says. *)
Fixpoint scripts_are_blocks (node : Node) : bool :=
  match node with
  | TalonCommand _ c a b =>
      isinstance_TalonBlock b && forallb scripts_are_blocks c
      && scripts_are_blocks a && scripts_are_blocks b
  | TalonSourceFile _ c | TalonContext _ c | TalonSettings _ c
  | TalonBlock _ c | TalonAnd _ c | TalonNot _ c | TalonOr _ c
  | TalonError _ c | TalonArgumentList _ c
  | TalonParenthesizedExpression _ c | TalonRegexEscapeSequence _ c
  | TalonNumber _ c | TalonInterpolation _ c | TalonString _ c
  | TalonChoice _ c | TalonOptional _ c | TalonParenthesizedRule _ c
  | TalonRepeat _ c | TalonRepeat1 _ c | TalonRule _ c | TalonSeq _ c =>
      forallb scripts_are_blocks c
  | TalonIncludeTag _ c a | TalonExpression _ c a | TalonKeyAction _ c a
  | TalonSleepAction _ c a | TalonVariable _ c a | TalonCapture _ c a
  | TalonList _ c a =>
      forallb scripts_are_blocks c && scripts_are_blocks a
  | TalonAssignment _ c a b | TalonMatch _ c a b | TalonAction _ c a b =>
      forallb scripts_are_blocks c && scripts_are_blocks a
      && scripts_are_blocks b
  | TalonBinaryOperator _ c a b d =>
      forallb scripts_are_blocks c && scripts_are_blocks a
      && scripts_are_blocks b && scripts_are_blocks d
  | _ => true
  end.

(** [shown x d]: the document [x] is a part of [d], and of every
    alternative of a choice on the way that is not [Fail]. *)
Inductive shown (x : Doc) : Doc -> Prop :=
| shown_here : shown x x
| shown_Cat (docs : list Doc) (d : Doc) :
    In d docs -> shown x d -> shown x (Cat docs)
| shown_Nest (indent : Z) (docs : list Doc) (d : Doc) :
    In d docs -> shown x d -> shown x (Nest indent docs)
| shown_Row (cells : list Doc) (kind : string) (widths : list Z) (d : Doc) :
    In d cells -> shown x d -> shown x (Row cells kind widths)
| shown_Alt (alternatives : list Doc) :
    (forall d, In d alternatives -> d = Fail \/ shown x d) ->
    (exists d, In d alternatives /\ d <> Fail) ->
    shown x (Alt alternatives).

(** The document [d] shows the line of the comment [c]. *)
Definition doc_shows (c : Node) (d : Doc) : Prop :=
  shown (comment_line c) d.

(** A line of [lines] shows the comment [c]. *)
Definition line_shows (c : Node) (lines : list Doc) : Prop :=
  exists l, In l lines /\ doc_shows c l.

(** [create_tables] keeps what its rows show. *)
Definition keeps_rows (create_tables : list Doc -> list Doc) : Prop :=
  forall rows l x,
    In l rows -> shown x l ->
    exists l', In l' (create_tables rows) /\ shown x l'.

(** [owed nodes earlier c]: the comment [c] is still to be put out,
    because it can be reached from one of [nodes] or because of
    [earlier]. *)
Definition owed (nodes : list Node) (earlier : Node -> Prop) (c : Node)
  : Prop :=
  (exists m, In m nodes /\ reached c m) \/ earlier c.

Definition nothing (c : Node) : Prop := False.

(** [carries m owes pays]: run from a buffer of comments, [m] leaves a
    buffer of comments, and every comment it owes or finds in the buffer
    is paid by its value or left in the buffer. *)
Definition carries {A} (m : M A) (owes : Node -> Prop)
  (pays : Node -> A -> Prop) : Prop :=
  forall buffer a buffer',
    only_comments buffer ->
    m buffer = Ok a buffer' ->
    only_comments buffer'
    /\ forall c,
         isinstance_TalonComment c = true ->
         owes c \/ In c buffer ->
         pays c a \/ In c buffer'.

(* ------------------------------------------------------------------ *)
(** ** Reasoning about [M] *)

Lemma bind_Ok_inv {A B} (m : M A) (k : A -> M B) buffer b buffer' :
  bind m k buffer = Ok b buffer' ->
  exists a buffer1, m buffer = Ok a buffer1 /\ k a buffer1 = Ok b buffer'.
Proof.
  unfold bind. destruct (m buffer) as [a buffer1| |]; try discriminate.
  intros H. exists a, buffer1. split; [reflexivity | exact H].
Qed.

Lemma bind_Ok {A B} (m : M A) (k : A -> M B) buffer a buffer1 :
  m buffer = Ok a buffer1 -> bind m k buffer = k a buffer1.
Proof. unfold bind. intros ->. reflexivity. Qed.

Lemma bind_Raise {A B} (m : M A) (k : A -> M B) buffer e :
  m buffer = Raise e -> bind m k buffer = Raise e.
Proof. unfold bind. intros ->. reflexivity. Qed.

Lemma ret_Ok_inv {A} (a b : A) buffer buffer' :
  ret a buffer = Ok b buffer' -> a = b /\ buffer = buffer'.
Proof. unfold ret. intros H. inversion H. split; reflexivity. Qed.

Lemma bind_assoc {A B C} (m : M A) (k : A -> M B) (k' : B -> M C) buffer :
  bind (bind m k) k' buffer = bind m (fun a => bind (k a) k') buffer.
Proof. unfold bind. destruct (m buffer); reflexivity. Qed.

Lemma bind_ext {A B} (m : M A) (k k' : A -> M B) buffer :
  (forall a b, k a b = k' a b) -> bind m k buffer = bind m k' buffer.
Proof. intros H. unfold bind. destruct (m buffer); auto. Qed.

Lemma bind_ext_l {A B} (m m' : M A) (k : A -> M B) buffer :
  (forall b, m b = m' b) -> bind m k buffer = bind m' k buffer.
Proof. intros H. unfold bind. rewrite H. reflexivity. Qed.

Lemma bind_ret_l {A B} (a : A) (k : A -> M B) buffer :
  bind (ret a) k buffer = k a buffer.
Proof. reflexivity. Qed.

(** Take apart a hypothesis [m buffer = Ok _ _] made of binds. *)
Ltac invert_binds H :=
  repeat match type of H with
  | bind _ _ _ = Ok _ _ =>
      let a := fresh "a" in
      let b := fresh "buffer" in
      let H1 := fresh "Hstep" in
      apply bind_Ok_inv in H; destruct H as (a & b & H1 & H)
  end.

Lemma length_comments_non_comments (children : list Node) :
  (length (comments_in children) + length (non_comments children)
   = length children)%nat.
Proof.
  unfold comments_in, non_comments.
  induction children as [|child rest IH]; simpl; [reflexivity|].
  destruct (isinstance_TalonComment child); simpl; lia.
Qed.

(* ------------------------------------------------------------------ *)
(** ** Fuel: more of it changes no outcome *)


Lemma steady_refl {A} (r : Outcome A) : steady r r.
Proof. right. reflexivity. Qed.

Lemma steady_trans {A} (r1 r2 r3 : Outcome A) :
  steady r1 r2 -> steady r2 r3 -> steady r1 r3.
Proof.
  intros [H1|H1] [H2|H2]; subst; unfold steady; auto.
Qed.

Lemma steady_bind {A B} (m m' : M A) (k k' : A -> M B) buffer :
  steady (m buffer) (m' buffer) ->
  (forall a b, steady (k a b) (k' a b)) ->
  steady (bind m k buffer) (bind m' k' buffer).
Proof.
  unfold bind. intros [H|H] Hk; rewrite H.
  - left. reflexivity.
  - destruct (m' buffer); [apply Hk | apply steady_refl | apply steady_refl].
Qed.

Lemma for_each_steady {A B} (body body' : A -> M (list B)) :
  (forall x b, steady (body x b) (body' x b)) ->
  forall xs buffer, steady (for_each body xs buffer) (for_each body' xs buffer).
Proof.
  intros Hbody. induction xs as [|x rest IH]; intros buffer; simpl.
  - apply steady_refl.
  - apply steady_bind; [apply Hbody|]. intros ys b.
    apply steady_bind; [apply IH|]. intros. apply steady_refl.
Qed.

Lemma store_comments_steady {B} node_type (body body' : Node -> M (list B)) :
  (forall x b, steady (body x b) (body' x b)) ->
  forall children buffer,
    steady (store_comments node_type body children buffer)
           (store_comments node_type body' children buffer).
Proof.
  intros Hbody. induction children as [|child rest IH]; intros buffer; simpl.
  - apply steady_refl.
  - destruct (isinstance_TalonComment child).
    + apply steady_bind; [apply steady_refl|]. intros. apply IH.
    + destruct (node_type child); [|apply steady_refl].
      apply steady_bind; [apply Hbody|]. intros ys b.
      apply steady_bind; [apply IH|]. intros. apply steady_refl.
Qed.

Section SteadyHandlers.

Variable create_tables : list Doc -> list Doc.
Variable self : TalonFormatter.
Variables f f' : Node -> M Doc.
Variables fb fb' : Node -> M (list Doc).
Variables fbm fbm' : Node -> bool -> bool -> M (list Doc).
Hypothesis Hf : forall node b, steady (f node b) (f' node b).
Hypothesis Hfb : forall node b, steady (fb node b) (fb' node b).
Hypothesis Hfbm :
  forall node ua un b, steady (fbm node ua un b) (fbm' node ua un b).

Ltac steady_step :=
  first
    [ apply steady_refl
    | apply Hf | apply Hfb | apply Hfbm
    | apply steady_bind; [|intros]
    | apply for_each_steady; intros
    | apply store_comments_steady; intros
    | match goal with
      | |- steady ((if ?c then _ else _) _) _ => destruct c
      | |- steady (match ?x with [] => _ | _ :: _ => _ end _) _ => destruct x
      end ].

Ltac steady_tac := repeat steady_step.

Lemma get_formatted_comments_steady buffer :
  steady (get_formatted_comments f buffer) (get_formatted_comments f' buffer).
Proof. unfold get_formatted_comments. steady_tac. Qed.

Lemma format_children_steady children buffer :
  steady (format_children f children buffer)
         (format_children f' children buffer).
Proof. unfold format_children. steady_tac. Qed.

Lemma source_file_loop_steady :
  forall children in_header cb scb buffer,
    steady (source_file_loop create_tables self f fb children in_header cb scb
              buffer)
           (source_file_loop create_tables self f' fb' children in_header cb
              scb buffer).
Proof.
  induction children as [|child rest IH]; intros in_header cb scb buffer;
    simpl.
  - apply steady_refl.
  - destruct (in_header && isinstance_TalonComment child).
    + apply steady_bind; [apply Hf|]. intros. apply IH.
    + destruct (isinstance_TalonContext child).
      * destruct in_header; [|apply steady_refl].
        apply steady_bind; [apply Hfb|]. intros.
        apply steady_bind; [apply IH|]. intros. apply steady_refl.
      * destruct (is_True (align_short_commands self)).
        { destruct (isinstance_TalonCommand child && is_short_command child);
            (apply steady_bind; [apply Hfb|]; intros;
             apply steady_bind; [apply IH|]; intros; apply steady_refl). }
        { apply steady_bind; [apply Hfb|]. intros.
          apply steady_bind; [apply IH|]. intros. apply steady_refl. }
Qed.

Lemma format_block_match_TalonAnd_steady :
  forall children ua un buffer,
    steady (format_block_match_TalonAnd fb fbm children ua un buffer)
           (format_block_match_TalonAnd fb' fbm' children ua un buffer).
Proof.
  induction children as [|child rest IH]; intros ua un buffer; simpl.
  - apply steady_refl.
  - destruct (isinstance_TalonComment child).
    + apply steady_bind; [apply Hfb|]. intros.
      apply steady_bind; [apply IH|]. intros. apply steady_refl.
    + apply steady_bind; [apply Hfbm|]. intros.
      apply steady_bind; [apply IH|]. intros. apply steady_refl.
Qed.

Lemma format_block_match_TalonNot_steady :
  forall children ua un buffer,
    steady (format_block_match_TalonNot fb fbm children ua un buffer)
           (format_block_match_TalonNot fb' fbm' children ua un buffer).
Proof.
  induction children as [|child rest IH]; intros ua un buffer; simpl.
  - apply steady_refl.
  - destruct (isinstance_TalonComment child).
    + apply steady_bind; [apply Hfb|]. intros.
      apply steady_bind; [apply IH|]. intros. apply steady_refl.
    + apply steady_bind; [apply Hfbm|]. intros.
      apply steady_bind; [apply IH|]. intros. apply steady_refl.
Qed.

Lemma format_dispatch_steady node buffer :
  steady (format_dispatch f fb node buffer)
         (format_dispatch f' fb' node buffer).
Proof.
  destruct node; simpl; unfold format_children; steady_tac.
Qed.

Lemma format_block_dispatch_steady node buffer :
  steady (format_block_dispatch create_tables self f fb fbm node buffer)
         (format_block_dispatch create_tables self f' fb' fbm' node buffer).
Proof.
  destruct node; simpl;
    unfold format_block_TalonSourceFile, format_block_TalonContext,
      format_block_TalonIncludeTag, format_block_TalonSettings,
      format_block_TalonCommand, format_block_TalonBlock,
      format_block_TalonAssignment, format_block_TalonExpression,
      get_formatted_comments;
    try apply source_file_loop_steady; steady_tac.
Qed.

Lemma format_block_match_dispatch_steady node ua un buffer :
  steady (format_block_match_dispatch self f fb fbm node ua un buffer)
         (format_block_match_dispatch self f' fb' fbm' node ua un buffer).
Proof.
  destruct node; simpl;
    unfold format_block_match_TalonOr, format_block_match_TalonMatch,
      get_formatted_comments;
    try apply format_block_match_TalonAnd_steady;
    try apply format_block_match_TalonNot_steady; steady_tac.
Qed.

End SteadyHandlers.

Lemma one_more_fuel create_tables self :
  forall fuel,
    (forall node b,
        steady (format create_tables self fuel node b)
               (format create_tables self (S fuel) node b))
    /\ (forall node b,
           steady (format_block create_tables self fuel node b)
                  (format_block create_tables self (S fuel) node b))
    /\ (forall node ua un b,
           steady (format_block_match create_tables self fuel node ua un b)
                  (format_block_match create_tables self (S fuel) node ua un
                     b)).
Proof.
  induction fuel as [|fuel (IHf & IHb & IHm)].
  - repeat split; intros; left; reflexivity.
  - repeat split; intros.
    + apply format_dispatch_steady; assumption.
    + apply format_block_dispatch_steady; assumption.
    + apply format_block_match_dispatch_steady; assumption.
Qed.

(** An outcome other than [OutOfFuel] is the outcome for any larger
    fuel. *)
Lemma more_fuel create_tables self :
  forall extra fuel,
    (forall node b,
        steady (format create_tables self fuel node b)
               (format create_tables self (extra + fuel) node b))
    /\ (forall node b,
           steady (format_block create_tables self fuel node b)
                  (format_block create_tables self (extra + fuel) node b))
    /\ (forall node ua un b,
           steady (format_block_match create_tables self fuel node ua un b)
                  (format_block_match create_tables self (extra + fuel) node
                     ua un b)).
Proof.
  induction extra as [|extra IH]; intros fuel.
  - repeat split; intros; apply steady_refl.
  - destruct (IH fuel) as (IHf & IHb & IHm).
    destruct (one_more_fuel create_tables self (extra + fuel))
      as (Hf & Hb & Hm).
    repeat split; intros; simpl plus;
      (eapply steady_trans; [|first [apply Hf | apply Hb | apply Hm]]);
      first [apply IHf | apply IHb | apply IHm].
Qed.

(* ------------------------------------------------------------------ *)
(** ** Fuel: enough of it gives an outcome *)

Lemma runs_ret {A} (a : A) (Q : A -> Prop) : Q a -> runs (ret a) Q.
Proof. intros HQ buffer Hb. simpl. split; assumption. Qed.

Lemma runs_raise {A} (e : Exn) (Q : A -> Prop) : runs (raise e) Q.
Proof. intros buffer Hb. exact I. Qed.

Lemma runs_bind {A B} (m : M A) (k : A -> M B) (Q : A -> Prop)
  (R : B -> Prop) :
  runs m Q -> (forall a, Q a -> runs (k a) R) -> runs (bind m k) R.
Proof.
  intros Hm Hk buffer Hb. unfold bind. specialize (Hm buffer Hb).
  destruct (m buffer) as [a b'| |]; try exact Hm.
  destruct Hm as [HQ Hb']. apply (Hk a HQ b' Hb').
Qed.

Lemma runs_weaken {A} (m : M A) (Q R : A -> Prop) :
  runs m Q -> (forall a, Q a -> R a) -> runs m R.
Proof.
  intros Hm HQR buffer Hb. specialize (Hm buffer Hb).
  destruct (m buffer); try exact Hm. destruct Hm. split; auto.
Qed.

Lemma runs_for_each {A B} (body : A -> M (list B)) (xs : list A) :
  (forall x, In x xs -> runs (body x) anything) ->
  runs (for_each body xs) anything.
Proof.
  induction xs as [|x rest IH]; intros Hbody; simpl.
  - apply runs_ret. exact I.
  - eapply runs_bind; [apply Hbody; left; reflexivity|]. intros ys _.
    eapply runs_bind; [apply IH; intros; apply Hbody; right; assumption|].
    intros zs _. apply runs_ret. exact I.
Qed.

Lemma runs_store_comments {B} node_type (body : Node -> M (list B))
  (children : list Node) :
  (forall child, In child children -> runs (body child) anything) ->
  runs (store_comments node_type body children) anything.
Proof.
  induction children as [|child rest IH]; intros Hbody; simpl.
  - apply runs_ret. exact I.
  - destruct (isinstance_TalonComment child) eqn:Hcomment.
    + eapply runs_bind with (Q := anything).
      * intros buffer Hb. simpl. split; [exact I|].
        apply Forall_app. split; [assumption|]. constructor; [assumption|constructor].
      * intros _ _. apply IH. intros. apply Hbody. right. assumption.
    + destruct (node_type child); [|apply runs_raise].
      eapply runs_bind; [apply Hbody; left; reflexivity|]. intros ys _.
      eapply runs_bind; [apply IH; intros; apply Hbody; right; assumption|].
      intros zs _. apply runs_ret. exact I.
Qed.

Lemma runs_stored node_type (children : list Node) :
  runs (stored node_type children)
       (fun rest => forall node, In node rest -> In node children).
Proof.
  unfold stored.
  induction children as [|child rest IH]; simpl.
  - apply runs_ret. intros node [].
  - destruct (isinstance_TalonComment child) eqn:Hcomment.
    + eapply runs_bind with (Q := anything).
      * intros buffer Hb. simpl. split; [exact I|].
        apply Forall_app. split; [assumption|]. constructor; [assumption|constructor].
      * intros _ _. eapply runs_weaken; [apply IH|].
        intros a Ha node Hin. right. apply Ha. assumption.
    + destruct (node_type child); [|apply runs_raise].
      eapply runs_bind; [apply runs_ret with (Q := fun ys => ys = [child]); reflexivity|].
      intros ys ->.
      eapply runs_bind; [apply IH|]. intros zs Hzs.
      apply runs_ret. intros node [<-|Hin]; [left; reflexivity|].
      right. apply Hzs. assumption.
Qed.

Lemma runs_assert_only_comments (children : list Node) :
  runs (assert_only_comments children) anything.
Proof.
  unfold assert_only_comments.
  eapply runs_bind; [apply runs_stored|]. intros rest _.
  destruct (length rest =? 0)%nat; [apply runs_ret; exact I | apply runs_raise].
Qed.

Lemma runs_get_node_with_type (children : list Node) node_type :
  runs (get_node_with_type children node_type)
       (fun node => In node children).
Proof.
  unfold get_node_with_type.
  eapply runs_bind; [apply runs_stored|]. intros rest Hrest.
  destruct rest as [|node [|]]; try apply runs_raise.
  apply runs_ret. apply Hrest. left. reflexivity.
Qed.

Lemma runs_get_comments : runs get_comments only_comments.
Proof.
  intros buffer Hb. simpl. split; [assumption | constructor].
Qed.

Lemma comment_inv (node : Node) :
  isinstance_TalonComment node = true -> exists i, node = TalonComment i.
Proof. destruct node; simpl; try discriminate. intros _. eexists. reflexivity. Qed.

Lemma runs_get_formatted_comments (format : Node -> M Doc) :
  (forall i, runs (format (TalonComment i)) anything) ->
  runs (get_formatted_comments format) anything.
Proof.
  intros Hformat. unfold get_formatted_comments.
  eapply runs_bind; [apply runs_get_comments|]. intros comments Hcomments.
  apply runs_for_each. intros c Hin.
  assert (Hc : isinstance_TalonComment c = true).
  { unfold only_comments in Hcomments. rewrite Forall_forall in Hcomments.
    apply Hcomments. assumption. }
  destruct (comment_inv c Hc) as [i ->].
  eapply runs_bind; [apply Hformat|]. intros d _. apply runs_ret. exact I.
Qed.

Lemma height_child (children : list Node) (child : Node) :
  In child children -> height child <= list_max (map height children).
Proof.
  induction children as [|c rest IH]; intros Hin; [destruct Hin|].
  simpl. destruct Hin as [<-|Hin]; [lia|]. specialize (IH Hin). lia.
Qed.

Section RunsHandlers.

Variable create_tables : list Doc -> list Doc.
Variable self : TalonFormatter.
Variable f : Node -> M Doc.
Variable fb : Node -> M (list Doc).
Variable fbm : Node -> bool -> bool -> M (list Doc).
Variable H : nat.
Hypothesis Hf : forall c, height c < H -> runs (f c) anything.
Hypothesis Hfb : forall c, height c < H -> runs (fb c) anything.
Hypothesis Hfbm :
  forall c ua un, height c < H -> runs (fbm c ua un) anything.
Hypothesis Hcomment : forall i, runs (f (TalonComment i)) anything.
Hypothesis Hdocstring : forall i, runs (f (TalonDocstring i)) anything.

Ltac height_tac :=
  cbv beta in *;
  match goal with
  | Hin : In ?c ?cs |- height ?c < _ =>
      pose proof (height_child cs c Hin); simpl in *; lia
  | |- height _ < _ => simpl in *; lia
  end.

Ltac runs_step :=
  match goal with
  | |- runs (ret _) _ => apply runs_ret; exact I
  | |- runs (raise _) _ => apply runs_raise
  | |- runs (assert_only_comments _) _ => apply runs_assert_only_comments
  | |- runs (get_node _) _ => apply runs_get_node_with_type
  | |- runs (get_node_with_type _ _) _ => apply runs_get_node_with_type
  | |- runs (get_formatted_comments _) _ =>
      apply runs_get_formatted_comments; exact Hcomment
  | |- runs get_comments _ => apply runs_get_comments
  | |- runs (f _) _ => apply Hf; height_tac
  | |- runs (fb _) _ => apply Hfb; height_tac
  | |- runs (fbm _ _ _) _ => apply Hfbm; height_tac
  | |- runs (for_each _ _) _ => apply runs_for_each; intros
  | |- runs (store_comments _ _ _) _ => apply runs_store_comments; intros
  | |- runs (format_children _ _) _ =>
      unfold format_children; apply runs_store_comments; intros
  | |- runs (bind _ _) _ => eapply runs_bind; [|intros]
  | |- runs (if ?c then _ else _) _ => destruct c eqn:?
  end.

Ltac runs_tac := repeat runs_step.

Lemma format_dispatch_runs (node : Node) :
  height node <= H ->
  runs (fb node) anything ->
  runs (format_dispatch f fb node) anything.
Proof.
  intros Hn Hself.
  destruct node; simpl; try (eapply runs_bind; [exact Hself|intros]);
    try (destruct children); runs_tac.
Qed.

Lemma source_file_loop_runs :
  forall children in_header cb scb,
    (forall c, In c children -> height c < H) ->
    runs (source_file_loop create_tables self f fb children in_header cb scb)
         anything.
Proof.
  induction children as [|child rest IH]; intros in_header cb scb Hchildren;
    simpl.
  - apply runs_ret. exact I.
  - assert (Hchild : height child < H) by (apply Hchildren; left; reflexivity).
    assert (Hrest : forall c, In c rest -> height c < H)
      by (intros; apply Hchildren; right; assumption).
    destruct (in_header && isinstance_TalonComment child).
    + eapply runs_bind; [apply Hf; assumption|]. intros. apply IH. assumption.
    + destruct (isinstance_TalonContext child).
      * destruct in_header; [|apply runs_raise].
        eapply runs_bind; [apply Hfb; assumption|]. intros.
        eapply runs_bind; [apply IH; assumption|]. intros.
        apply runs_ret. exact I.
      * destruct (is_True (align_short_commands self)).
        { destruct (isinstance_TalonCommand child && is_short_command child);
            (eapply runs_bind; [apply Hfb; assumption|]; intros;
             eapply runs_bind; [apply IH; assumption|]; intros;
             apply runs_ret; exact I). }
        { eapply runs_bind; [apply Hfb; assumption|]. intros.
          eapply runs_bind; [apply IH; assumption|]. intros.
          apply runs_ret. exact I. }
Qed.

Lemma format_block_match_TalonAnd_runs :
  forall children ua un,
    (forall c, In c children -> height c < H) ->
    runs (format_block_match_TalonAnd fb fbm children ua un) anything.
Proof.
  induction children as [|child rest IH]; intros ua un Hchildren; simpl.
  - apply runs_ret. exact I.
  - assert (Hchild : height child < H) by (apply Hchildren; left; reflexivity).
    assert (Hrest : forall c, In c rest -> height c < H)
      by (intros; apply Hchildren; right; assumption).
    destruct (isinstance_TalonComment child).
    + eapply runs_bind; [apply Hfb; assumption|]. intros.
      eapply runs_bind; [apply IH; assumption|]. intros.
      apply runs_ret. exact I.
    + eapply runs_bind; [apply Hfbm; assumption|]. intros.
      eapply runs_bind; [apply IH; assumption|]. intros.
      apply runs_ret. exact I.
Qed.

Lemma format_block_match_TalonNot_runs :
  forall children ua un,
    (forall c, In c children -> height c < H) ->
    runs (format_block_match_TalonNot fb fbm children ua un) anything.
Proof.
  induction children as [|child rest IH]; intros ua un Hchildren; simpl.
  - apply runs_ret. exact I.
  - assert (Hchild : height child < H) by (apply Hchildren; left; reflexivity).
    assert (Hrest : forall c, In c rest -> height c < H)
      by (intros; apply Hchildren; right; assumption).
    destruct (isinstance_TalonComment child).
    + eapply runs_bind; [apply Hfb; assumption|]. intros.
      eapply runs_bind; [apply IH; assumption|]. intros.
      apply runs_ret. exact I.
    + eapply runs_bind; [apply Hfbm; assumption|]. intros.
      eapply runs_bind; [apply IH; assumption|]. intros.
      apply runs_ret. exact I.
Qed.

Lemma children_below (node : Node) :
  height node <= H ->
  forall c, In c (children_of node) -> height c < H.
Proof.
  intros Hn c Hin.
  destruct node; simpl in Hin; try (destruct Hin);
    pose proof (height_child _ _ Hin); simpl in Hn; lia.
Qed.

Lemma format_block_match_dispatch_runs (node : Node) ua un :
  height node <= H ->
  runs (format_block_match_dispatch self f fb fbm node ua un) anything.
Proof.
  intros Hn.
  destruct node; simpl; try apply runs_raise.
  - apply format_block_match_TalonAnd_runs.
    apply (children_below (TalonAnd i children) Hn).
  - apply format_block_match_TalonNot_runs.
    apply (children_below (TalonNot i children) Hn).
  - unfold format_block_match_TalonOr. runs_tac.
  - unfold format_block_match_TalonMatch. runs_tac.
Qed.

Hypothesis Hblock :
  forall i xs,
    (forall x, In x xs -> height x < H) ->
    runs (f (TalonBlock i xs)) anything.

Lemma only_comments_below (comments : list Node) :
  0 < H ->
  only_comments comments -> forall x, In x comments -> height x < H.
Proof.
  intros HH Hc x Hin. unfold only_comments in Hc.
  rewrite Forall_forall in Hc. specialize (Hc x Hin).
  destruct (comment_inv x Hc) as [i ->]. simpl. exact HH.
Qed.

Lemma format_block_dispatch_runs (node : Node) :
  height node <= H ->
  (forall ua un, runs (fbm node ua un) anything) ->
  runs (format_block_dispatch create_tables self f fb fbm node) anything.
Proof.
  intros Hn Hself.
  destruct node; simpl; try apply runs_raise; try apply Hself.
  - apply source_file_loop_runs.
    apply (children_below (TalonSourceFile i children) Hn).
  - unfold format_block_TalonContext. runs_tac.
  - unfold format_block_TalonIncludeTag. runs_tac.
  - unfold format_block_TalonSettings.
    eapply runs_bind; [apply runs_get_node_with_type|]. intros block Hin.
    eapply runs_bind; [apply runs_get_comments|]. intros comments Hcomments.
    eapply runs_bind; [|intros; apply runs_ret; exact I].
    unfold block_with_comments. apply Hblock.
    intros x Hx. apply in_app_or in Hx. destruct Hx as [Hx|Hx].
    + apply (@only_comments_below comments); [simpl in Hn; lia|assumption..].
    + pose proof (height_child _ _ Hin).
      assert (Hb : height block <= H) by (simpl in Hn; lia).
      pose proof (children_below block Hb x Hx). lia.
  - unfold format_block_TalonCommand.
    eapply runs_bind; [apply Hf; height_tac|]. intros rule _.
    eapply runs_bind;
      [apply runs_get_formatted_comments; exact Hcomment|]. intros comments _.
    eapply runs_bind; [|intros; apply runs_ret; exact I].
    unfold block_with_comments. apply Hblock.
    intros x Hx. apply in_app_or in Hx. destruct Hx as [Hx|Hx].
    + pose proof (height_child _ _ Hx). simpl in Hn. lia.
    + assert (Hb : height node2 <= H) by (simpl in Hn; lia).
      pose proof (children_below node2 Hb x Hx). lia.
  - unfold format_block_TalonBlock. runs_tac.
  - unfold format_block_TalonAssignment. runs_tac.
  - unfold format_block_TalonExpression. runs_tac.
  - eapply runs_bind; [apply Hcomment|]. intros. apply runs_ret. exact I.
  - eapply runs_bind; [apply Hdocstring|]. intros. apply runs_ret. exact I.
Qed.

End RunsHandlers.
Lemma format_comment_runs create_tables self fuel i :
  runs (format create_tables self (S fuel) (TalonComment i)) anything.
Proof. apply runs_ret. exact I. Qed.

Lemma format_docstring_runs create_tables self fuel i :
  runs (format create_tables self (S fuel) (TalonDocstring i)) anything.
Proof. apply runs_ret. exact I. Qed.

Lemma terminates_one_level create_tables self (H : nat) :
  (forall c, height c < H ->
     forall K, 4 * H + 1 <= K -> terminates create_tables self K c) ->
  forall node, height node <= H ->
    forall G, 4 * H + 5 <= G -> terminates create_tables self G node.
Proof.
  intros IH node Hn.
  assert (Hf : forall K, 4 * H + 1 <= K -> forall c, height c < H ->
                 runs (format create_tables self K c) anything)
    by (intros K HK c Hc; apply (IH c Hc K HK)).
  assert (Hfb : forall K, 4 * H + 1 <= K -> forall c, height c < H ->
                  runs (format_block create_tables self K c) anything)
    by (intros K HK c Hc; apply (IH c Hc K HK)).
  assert (Hfbm : forall K, 4 * H + 1 <= K -> forall c ua un, height c < H ->
                   runs (format_block_match create_tables self K c ua un)
                        anything)
    by (intros K HK c ua un Hc; apply (IH c Hc K HK)).
  assert (Hc : forall K, 1 <= K -> forall i,
                 runs (format create_tables self K (TalonComment i)) anything)
    by (intros [|K] HK i; [lia | apply format_comment_runs]).
  assert (Hd : forall K, 1 <= K -> forall i,
                 runs (format create_tables self K (TalonDocstring i))
                      anything)
    by (intros [|K] HK i; [lia | apply format_docstring_runs]).
  assert (Hblock : forall K, 4 * H + 3 <= K -> forall i xs,
                     (forall x, In x xs -> height x < H) ->
                     runs (format create_tables self K (TalonBlock i xs))
                          anything).
  { intros [|[|K]] HK i xs Hxs; try lia.
    cbn [format format_dispatch].
    eapply runs_bind; [|intros; apply runs_ret; exact I].
    cbn [format_block format_block_dispatch]. unfold format_block_TalonBlock.
    apply runs_for_each. intros c Hin.
    eapply runs_bind; [apply Hfb; [lia | apply Hxs; assumption]|].
    intros lines _. apply runs_for_each. intros l _.
    eapply runs_bind;
      [apply runs_get_formatted_comments; apply Hc; lia|].
    intros. apply runs_ret. exact I. }
  assert (A : forall K, 4 * H + 2 <= K -> forall ua un,
                runs (format_block_match create_tables self K node ua un)
                     anything).
  { intros [|K] HK ua un; [lia|].
    cbn [format_block_match].
    apply format_block_match_dispatch_runs with (H := H);
      try assumption; try (apply Hf; lia); try (apply Hfb; lia);
      try (intros; apply Hfbm; [lia | assumption]); apply Hc; lia. }
  assert (B : forall K, 4 * H + 4 <= K ->
                runs (format_block create_tables self K node) anything).
  { intros [|K] HK; [lia|].
    cbn [format_block].
    apply format_block_dispatch_runs with (H := H);
      try assumption; try (apply Hf; lia); try (apply Hfb; lia);
      try (apply Hc; lia); try (apply Hd; lia);
      try (apply Hblock; lia); try (apply A; lia);
      try (intros; apply Hfbm; [lia | assumption]). }
  intros [|G] HG; [lia|].
  split; [|split].
  - cbn [format].
    apply format_dispatch_runs with (H := H);
      try assumption; try (apply Hf; lia); try (apply Hc; lia).
    apply B. lia.
  - apply B. lia.
  - apply A. lia.
Qed.

(** Enough fuel: with [4 * height node + 5] of it or more, formatting a
    node from a buffer of comments returns or raises, and the buffer still
    holds only comments. *)
Lemma enough_fuel create_tables self :
  forall (h : nat) node,
    height node <= h ->
    forall fuel, 4 * h + 5 <= fuel -> terminates create_tables self fuel node.
Proof.
  induction h as [|h IH]; intros node Hn fuel Hfuel.
  - apply terminates_one_level with (H := 0); try assumption.
    intros c Hc. lia.
  - apply terminates_one_level with (H := S h); try assumption.
    intros c Hc K HK. apply IH; lia.
Qed.

Lemma runs_not_out_of_fuel {A} (m : M A) (Q : A -> Prop) buffer :
  runs m Q -> only_comments buffer -> m buffer <> OutOfFuel.
Proof.
  intros Hm Hb Hout. specialize (Hm buffer Hb). rewrite Hout in Hm. exact Hm.
Qed.

(** From [4 * height node + 5] on, the outcome no longer depends on the
    fuel. *)
Lemma outcome_settled create_tables self node buffer :
  only_comments buffer ->
  forall fuel fuel',
    4 * height node + 5 <= fuel -> fuel <= fuel' ->
    format create_tables self fuel node buffer
    = format create_tables self fuel' node buffer
    /\ format_block create_tables self fuel node buffer
       = format_block create_tables self fuel' node buffer.
Proof.
  intros Hb fuel fuel' Hfuel Hle.
  replace fuel' with ((fuel' - fuel) + fuel) by lia.
  destruct (more_fuel create_tables self (fuel' - fuel) fuel)
    as (Hf & Hfb & _).
  destruct (enough_fuel create_tables self (h := height node) node
              (le_n _) Hfuel) as (Tf & Tfb & _).
  split.
  - destruct (Hf node buffer) as [Hout|Heq]; [|exact Heq].
    exfalso. exact (runs_not_out_of_fuel Tf Hb Hout).
  - destruct (Hfb node buffer) as [Hout|Heq]; [|exact Heq].
    exfalso. exact (runs_not_out_of_fuel Tfb Hb Hout).
Qed.

(* ------------------------------------------------------------------ *)
(** ** Short commands *)

(** C2, as the code has it.  [is_short_command] holds exactly when the
    comments attached to the command and the children of its script --
    comments and statements alike -- are one in all; the rule is not
    looked at.  The method of [extra.py] computes the same. *)
Theorem is_short_command_counts_comments :
  forall (i : Info) (children : list Node) (rule script : Node),
    let node := TalonCommand i children rule script in
    (is_short_command node = true <->
     (length children
      + length (comments_in (children_of script))
      + length (non_comments (children_of script)) = 1)%nat)
    /\ _TalonCommandDeclaration_is_short node = is_short_command node.
Proof.
  intros i children rule script node. split; [|reflexivity].
  unfold node, is_short_command. simpl.
  rewrite Nat.eqb_eq.
  pose proof (length_comments_non_comments (children_of script)). lia.
Qed.

(** C2 as stated fails: a command with one word in its rule and one
    statement under a comment is short by the tally that leaves comments
    out, and [is_short_command] says it is not. *)
Lemma is_short_command_not_by_tally :
  short_command_by_tally Sample.foo_note_bar = true
  /\ is_short_command Sample.foo_note_bar = false.
Proof. split; reflexivity. Qed.

Lemma format_short_command_not_Fail (self : TalonFormatter) (rule script : Doc) :
  format_short_command self rule script <> Fail.
Proof.
  unfold format_short_command, row, dslash.
  destruct (truthy _); [destruct (is_True _)|]; discriminate.
Qed.

(** C3, as the code has it.  When a command is formatted, its last line is
    the choice between the expanded layout and a second alternative; the
    second alternative is the short layout exactly when the comments of
    the command and the children of its script, comments included, are one
    in all, and is [Fail] otherwise. *)
Theorem command_short_layout_when_one_child :
  forall create_tables self fuel i children rule script buffer lines buffer',
    format_block create_tables self (S fuel)
      (TalonCommand i children rule script) buffer = Ok lines buffer' ->
    exists comments rule_doc script_doc buffer1 buffer2 alt2,
      format create_tables self fuel rule buffer = Ok rule_doc buffer1
      /\ get_formatted_comments (format create_tables self fuel) buffer1
         = Ok comments buffer2
      /\ format create_tables self fuel
           (block_with_comments children script) buffer2
         = Ok script_doc buffer'
      /\ lines = comments ++ [Alt [expanded_layout self rule_doc script_doc;
                                  alt2]]
      /\ ((length children + length (children_of script) = 1)%nat ->
          alt2 = format_short_command self rule_doc script_doc
          /\ alt2 <> Fail)
      /\ ((length children + length (children_of script) <> 1)%nat ->
          alt2 = Fail).
Proof.
  intros ct self fuel i children rule script buffer lines buffer' H.
  simpl in H. unfold format_block_TalonCommand in H.
  invert_binds H.
  apply ret_Ok_inv in H. destruct H as [<- <-].
  exists a0, a, a1, buffer0, buffer1.
  eexists. split; [eassumption|]. split; [eassumption|].
  split; [eassumption|]. split; [reflexivity|].
  simpl. rewrite length_app. split.
  - intros Hone. apply Nat.eqb_eq in Hone. rewrite Hone.
    split; [reflexivity | apply format_short_command_not_Fail].
  - intros Hmany. apply Nat.eqb_neq in Hmany. rewrite Hmany. reflexivity.
Qed.

Lemma command_short_layout_witness :
  exists lines buffer',
    format_block keep_rows (Sample.options (PyBool false)) 6
      Sample.foo_bar [] = Ok lines buffer'
    /\ exists comments rule_doc script_doc buffer1 buffer2 alt2,
         format keep_rows (Sample.options (PyBool false)) 5
           (TalonRule (Sample.leaf "foo" "rule" 0)
              [TalonWord (Sample.leaf "foo" "word" 0)]) []
         = Ok rule_doc buffer1
         /\ get_formatted_comments
              (format keep_rows (Sample.options (PyBool false)) 5) buffer1
            = Ok comments buffer2
         /\ format keep_rows (Sample.options (PyBool false)) 5
              (block_with_comments []
                 (TalonBlock (Sample.leaf "foo" "block" 0)
                    [Sample.call [] "bar"])) buffer2
            = Ok script_doc buffer'
         /\ lines = comments
                    ++ [Alt [expanded_layout (Sample.options (PyBool false))
                               rule_doc script_doc; alt2]]
         /\ ((0 + 1 = 1)%nat ->
             alt2 = format_short_command (Sample.options (PyBool false))
                      rule_doc script_doc
             /\ alt2 <> Fail)
         /\ ((0 + 1 <> 1)%nat -> alt2 = Fail).
Proof.
  eexists. eexists. split.
  - vm_compute. reflexivity.
  - apply (command_short_layout_when_one_child keep_rows
             (Sample.options (PyBool false)) 5
             (Sample.leaf "foo" "command" 0) []
             (TalonRule (Sample.leaf "foo" "rule" 0)
                [TalonWord (Sample.leaf "foo" "word" 0)])
             (TalonBlock (Sample.leaf "foo" "block" 0)
                [Sample.call [] "bar"]) []).
    vm_compute. reflexivity.
Defined.

(** C3 as stated fails: the script of this command holds one statement
    once its comment is left out, and the second alternative is [Fail]. *)
Lemma command_with_comment_has_no_short_layout :
  length (non_comments (script_children Sample.foo_note_bar)) = 1%nat
  /\ exists alt1,
       format_block keep_rows (Sample.options (PyBool false)) 8
         Sample.foo_note_bar [] = Ok [Alt [alt1; Fail]] [].
Proof.
  split; [reflexivity|]. eexists. vm_compute. reflexivity.
Qed.

(* ------------------------------------------------------------------ *)
(** ** [block_with_comments] *)

(** C10.  For a block and a sequence of comments, the result is a block
    whose children are the comments followed by the children of the
    block, and whose text, type name and positions are those of the
    block; the method of [extra.py] returns the same.  The block given is
    a value and stays what it was: the function is pure, and nothing in
    the source assigns to a node. *)
Theorem block_with_comments_prepends :
  forall (i : Info) (children comments : list Node),
    let block := TalonBlock i children in
    let result := block_with_comments comments block in
    result = TalonBlock i (comments ++ children)
    /\ children_of result = comments ++ children_of block
    /\ text (info result) = text (info block)
    /\ type_name (info result) = type_name (info block)
    /\ start_position (info result) = start_position (info block)
    /\ end_position (info result) = end_position (info block)
    /\ isinstance_TalonBlock result = true
    /\ _TalonBlock_with_comments block comments = result.
Proof.
  intros i children comments block result.
  unfold result, block, block_with_comments, _TalonBlock_with_comments.
  destruct i as [t k s e]. simpl. repeat split; reflexivity.
Qed.

(* ------------------------------------------------------------------ *)
(** ** Match keywords under [not] *)

Lemma bind_ret_app_nil {A} (m : M (list A)) buffer :
  bind m (fun lines => bind (ret []) (fun more => ret (lines ++ more))) buffer
  = m buffer.
Proof.
  unfold bind, ret. destruct (m buffer); try reflexivity.
  rewrite app_nil_r. reflexivity.
Qed.

(** C4, what the code does.  The handler of [TalonNot] sets [under_not]
    after it has rendered a child, not before: the one match under a
    [not] is rendered with the flags the [not] itself was given, so at the
    top of a context its line carries no ["not "].  The sample is
    [not app: x]; its line starts with the key [app]. *)
Theorem not_renders_its_match_with_the_flags_it_was_given :
  (forall create_tables self fuel i im children key pattern
          under_and under_not buffer,
      format_block_match create_tables self (S (S fuel))
        (TalonNot i [TalonMatch im children key pattern])
        under_and under_not buffer
      = format_block_match create_tables self (S fuel)
          (TalonMatch im children key pattern) under_and under_not buffer)
  /\ format_block keep_rows (Sample.options (PyBool false)) 4
       Sample.not_app []
     = Ok [Alt [cat [Words "app" (Some true)] </> Text ":"
                <//> Words "x" (Some true)]] [].
Proof.
  split.
  - intros. cbn [format_block_match format_block_match_dispatch
                 format_block_match_TalonNot isinstance_TalonComment].
    apply bind_ret_app_nil.
  - vm_compute. reflexivity.
Qed.

(** The second non-comment child of a [not] is the first to be rendered
    with [under_not] set. *)
Lemma not_sets_under_not_after_the_first_child :
  forall format_block format_block_match i children key pattern
         rest under_and under_not buffer,
    format_block_match_TalonNot format_block format_block_match
      (TalonMatch i children key pattern :: rest) under_and under_not buffer
    = (lines <- format_block_match (TalonMatch i children key pattern)
                  under_and under_not ;;
       more <- format_block_match_TalonNot format_block format_block_match
                 rest under_and true ;;
       ret (lines ++ more)) buffer.
Proof. reflexivity. Qed.

(* ------------------------------------------------------------------ *)
(** ** Syntax errors *)

(** Handed an error node, [format] and [format_block] raise [ParseError]
    with that node, and so does the body of the undecorated
    [format_block_match].  The handlers of [TalonAnd], [TalonNot] and
    [TalonOr] do not get there: they pass the flags by position, and for
    an error node among the children the call raises [TypeError]. *)
Lemma dispatch_on_error :
  forall create_tables self fuel i children under_and under_not buffer,
    let node := TalonError i children in
    format create_tables self (S fuel) node buffer = Raise (ParseError node)
    /\ format_block create_tables self (S fuel) node buffer
       = Raise (ParseError node)
    /\ format_block_match_undecorated node buffer = Raise (ParseError node)
    /\ format_block_match create_tables self (S fuel) node
         under_and under_not buffer = Raise (TypeErrorArguments 2 4).
Proof. intros. repeat split; reflexivity. Qed.

(** C7, what the code does.  An error node among the children a handler
    expects to be comments only is met by [store_comments], which raises
    [TypeError] for it, not [ParseError]: so does a statement with an
    error node next to its expression, and so does the source file
    [foo: bar()] that holds such a statement. *)
Theorem error_among_comments_raises_TypeError :
  (forall create_tables self fuel i ie error_children children expression
          buffer,
      format_block create_tables self (S fuel)
        (TalonExpression i (TalonError ie error_children :: children)
           expression) buffer
      = Raise (TypeError "TalonError"))
  /\ format keep_rows (Sample.options (PyBool false)) 8
       (Sample.source_file [Sample.command [] "foo" [Sample.broken_call]]) []
     = Raise (TypeError "TalonError").
Proof.
  split.
  - intros. reflexivity.
  - vm_compute. reflexivity.
Qed.

(* ------------------------------------------------------------------ *)
(** ** The header/body separator *)

Section SeparatorProofs.

Variable create_tables : list Doc -> list Doc.
Variable self : TalonFormatter.
Variable format : Node -> M Doc.
Variable format_block : Node -> M (list Doc).

Local Abbreviation loop :=
  (source_file_loop create_tables self format format_block).
Local Abbreviation header := (header_lines format format_block).
Local Abbreviation body := (body_lines create_tables self format_block).

Lemma body_only_is_no_comment (child : Node) :
  isinstance_body_only child = true ->
  isinstance_TalonComment child = false
  /\ isinstance_TalonContext child = false.
Proof. destruct child; simpl; intros H; try discriminate; split; reflexivity. Qed.

Lemma body_only_short_command (child : Node) :
  isinstance_body_only child = false ->
  isinstance_TalonCommand child = false.
Proof. destruct child; simpl; intros H; try discriminate; reflexivity. Qed.

(** Once the header is over, the loop is the body phase. *)
Lemma source_file_loop_in_body :
  forall children comment_buffer short_command_buffer buffer,
    loop children false comment_buffer short_command_buffer buffer
    = body children short_command_buffer buffer.
Proof.
  induction children as [|child rest IH]; intros cb scb buffer.
  - reflexivity.
  - simpl. destruct (isinstance_TalonContext child); [reflexivity|].
    destruct (is_True (align_short_commands self)).
    + destruct (isinstance_TalonCommand child && is_short_command child).
      * unfold bind. destruct (format_block child buffer); try reflexivity.
        rewrite IH. destruct (body_lines _ _ _ _ _ _); reflexivity.
      * unfold bind. destruct (format_block child buffer); try reflexivity.
        rewrite IH. reflexivity.
    + unfold bind. destruct (format_block child buffer); try reflexivity.
      rewrite IH. reflexivity.
Qed.

(** In the header, the loop is the header phase, then the separator and
    the comments held back, then the body phase. *)
Lemma source_file_loop_in_header :
  forall children comment_buffer buffer,
    loop children true comment_buffer [] buffer
    = (before <- header (header_children children) comment_buffer ;;
       after <- body (body_children children) [] ;;
       ret (fst before ++ Text "-" :: snd before ++ after)) buffer.
Proof.
  induction children as [|child rest IH]; intros cb buffer.
  - simpl. unfold bind, ret. simpl.
    destruct (is_True (align_short_commands self)); reflexivity.
  - simpl. destruct (isinstance_body_only child) eqn:Hbody.
    + destruct (body_only_is_no_comment child Hbody) as [Hcomment Hcontext].
      rewrite Hcomment, Hcontext. simpl. rewrite Hcontext.
      destruct (is_True (align_short_commands self)).
      * destruct (isinstance_TalonCommand child && is_short_command child).
        { unfold bind, ret.
          destruct (format_block child buffer); try reflexivity.
          rewrite source_file_loop_in_body.
          destruct (body_lines _ _ _ _ _ _); reflexivity. }
        { unfold bind, ret.
          destruct (format_block child buffer); try reflexivity.
          rewrite source_file_loop_in_body.
          destruct (body_lines _ _ _ _ _ _); reflexivity. }
      * unfold bind, ret.
        destruct (format_block child buffer); try reflexivity.
        rewrite source_file_loop_in_body.
        destruct (body_lines _ _ _ _ _ _); reflexivity.
    + simpl. destruct (isinstance_TalonComment child).
      * rewrite bind_assoc. apply bind_ext. intros d b. apply IH.
      * assert (Hrest :
          forall (prefix lines : list Doc) held b,
            (more <- source_file_loop create_tables self format format_block
                       rest true held [] ;;
             ret (prefix ++ lines ++ more)) b
            = (more <- header_lines format format_block
                         (header_children rest) held ;;
               after <- body_lines create_tables self format_block
                          (body_children rest) [] ;;
               ret (((prefix ++ lines ++ fst more)
                     ++ Text "-" :: snd more ++ after))) b).
        { intros prefix lines held b. unfold bind at 1. rewrite IH.
          unfold bind, ret.
          destruct (header_lines _ _ _ _ _); try reflexivity.
          destruct (body_lines _ _ _ _ _ _); try reflexivity.
          rewrite <- !app_assoc. reflexivity. }
        destruct (isinstance_TalonContext child).
        { rewrite bind_assoc. apply bind_ext. intros lines b.
          rewrite bind_assoc. rewrite Hrest. apply bind_ext.
          intros more b'. reflexivity. }
        { rewrite (body_only_short_command child Hbody). simpl.
          assert (Hgoal :
            (lines <- format_block child ;;
             more <- source_file_loop create_tables self format format_block
                       rest true cb [] ;;
             ret (lines ++ more)) buffer
            = (before <- (lines <- format_block child ;;
                          more <- header_lines format format_block
                                    (header_children rest) cb ;;
                          ret (lines ++ fst more, snd more)) ;;
               after <- body_lines create_tables self format_block
                          (body_children rest) [] ;;
               ret (fst before ++ Text "-" :: snd before ++ after)) buffer).
          { rewrite bind_assoc. apply bind_ext. intros lines b.
            rewrite bind_assoc. rewrite (Hrest [] lines). apply bind_ext.
            intros more b'. reflexivity. }
          destruct (is_True (align_short_commands self)); exact Hgoal. }
Qed.

(** Neither phase makes a line of its own: a line of the header is a
    comment that was held back, the formatted comment of a child or a line
    of a child; a line of the body is a line of a child or comes out of
    [create_tables]. *)
Lemma header_lines_from_children :
  forall children comment_buffer buffer lines pending buffer',
    header children comment_buffer buffer = Ok (lines, pending) buffer' ->
    forall d, In d (lines ++ pending) ->
      In d comment_buffer
      \/ exists child b1 b2,
           In child children
           /\ (format child b1 = Ok d b2
               \/ exists ls, format_block child b1 = Ok ls b2 /\ In d ls).
Proof.
  induction children as [|child rest IH];
    intros cb buffer lines pending buffer' Hrun d Hd.
  - apply ret_Ok_inv in Hrun. destruct Hrun as [Heq _].
    inversion Heq; subst. left. exact Hd.
  - assert (Hlift :
      forall held b ls pend b'',
        header rest held b = Ok (ls, pend) b'' ->
        In d (ls ++ pend) ->
        In d held
        \/ exists child0 b1 b2,
             In child0 (child :: rest)
             /\ (format child0 b1 = Ok d b2
                 \/ exists ls0,
                      format_block child0 b1 = Ok ls0 b2 /\ In d ls0)).
    { intros held b ls pend b'' Hrest Hin.
      destruct (IH _ _ _ _ _ Hrest d Hin)
        as [Hheld | (c & b1 & b2 & Hc & Hfrom)]; [left; exact Hheld|].
      right. exists c, b1, b2. split; [right; exact Hc | exact Hfrom]. }
    simpl in Hrun. destruct (isinstance_TalonComment child).
    + invert_binds Hrun.
      destruct (Hlift _ _ _ _ _ Hrun Hd) as [Hheld | Hfrom];
        [|right; exact Hfrom].
      apply in_app_or in Hheld. destruct Hheld as [Hcb | [<- | []]].
      * left. exact Hcb.
      * right. exists child, buffer, buffer0.
        split; [left; reflexivity | left; exact Hstep].
    + destruct (isinstance_TalonContext child).
      * invert_binds Hrun. apply ret_Ok_inv in Hrun.
        destruct Hrun as [Heq <-]. inversion Heq; subst; clear Heq.
        destruct a0 as [more pend]. simpl in Hd.
        rewrite <- !app_assoc in Hd.
        apply in_app_or in Hd. destruct Hd as [Hcb | Hd];
          [left; exact Hcb|].
        apply in_app_or in Hd. destruct Hd as [Hline | Hd].
        { right. exists child, buffer, buffer0.
          split; [left; reflexivity|]. right. exists a. split; assumption. }
        { destruct (Hlift _ _ _ _ _ Hstep0 Hd) as [[] | Hfrom].
          right. exact Hfrom. }
      * invert_binds Hrun. apply ret_Ok_inv in Hrun.
        destruct Hrun as [Heq <-]. inversion Heq; subst; clear Heq.
        destruct a0 as [more pend]. simpl in Hd.
        rewrite <- !app_assoc in Hd.
        apply in_app_or in Hd. destruct Hd as [Hline | Hd].
        { right. exists child, buffer, buffer0.
          split; [left; reflexivity|]. right. exists a. split; assumption. }
        { exact (Hlift _ _ _ _ _ Hstep0 Hd). }
Qed.

Lemma body_lines_from_children :
  forall children short_command_buffer buffer lines buffer',
    body children short_command_buffer buffer = Ok lines buffer' ->
    forall d, In d lines ->
      (exists child b1 b2 ls,
          In child children /\ format_block child b1 = Ok ls b2 /\ In d ls)
      \/ exists rows, In d (create_tables rows).
Proof.
  induction children as [|child rest IH];
    intros scb buffer lines buffer' Hrun d Hd.
  - apply ret_Ok_inv in Hrun. destruct Hrun as [<- _].
    destruct (is_True (align_short_commands self)); [|destruct Hd].
    destruct scb; [destruct Hd|]. right. eexists. exact Hd.
  - assert (Hlift :
      forall held b ls b'',
        body rest held b = Ok ls b'' ->
        In d ls ->
        (exists child0 b1 b2 ls0,
            In child0 (child :: rest)
            /\ format_block child0 b1 = Ok ls0 b2 /\ In d ls0)
        \/ exists rows, In d (create_tables rows)).
    { intros held b ls b'' Hrest Hin.
      destruct (IH _ _ _ _ Hrest d Hin)
        as [(c & b1 & b2 & ls0 & Hc & Hfrom) | Htable];
        [|right; exact Htable].
      left. exists c, b1, b2, ls0. split; [right; exact Hc | exact Hfrom]. }
    simpl in Hrun. destruct (isinstance_TalonContext child); [discriminate|].
    destruct (is_True (align_short_commands self)).
    + destruct (isinstance_TalonCommand child && is_short_command child).
      * invert_binds Hrun. exact (Hlift _ _ _ _ Hrun Hd).
      * invert_binds Hrun. apply ret_Ok_inv in Hrun. destruct Hrun as [<- <-].
        apply in_app_or in Hd. destruct Hd as [Htable | Hd].
        { destruct scb; [destruct Htable|]. right. eexists. exact Htable. }
        apply in_app_or in Hd. destruct Hd as [Hline | Hd].
        { left. exists child, buffer, buffer0, a.
          split; [left; reflexivity | split; assumption]. }
        { exact (Hlift _ _ _ _ Hstep0 Hd). }
    + invert_binds Hrun. apply ret_Ok_inv in Hrun. destruct Hrun as [<- <-].
      apply in_app_or in Hd. destruct Hd as [Hline | Hd].
      { left. exists child, buffer, buffer0, a.
        split; [left; reflexivity | split; assumption]. }
      { exact (Hlift _ _ _ _ Hstep0 Hd). }
Qed.

End SeparatorProofs.

Lemma header_body_children (children : list Node) :
  children = header_children children ++ body_children children
  /\ forallb (fun child => negb (isinstance_body_only child))
       (header_children children) = true
  /\ match body_children children with
     | [] => True
     | first :: _ => isinstance_body_only first = true
     end.
Proof.
  induction children as [|child rest (IH1 & IH2 & IH3)]; simpl.
  - repeat split.
  - destruct (isinstance_body_only child) eqn:Hbody; simpl.
    + repeat split. exact Hbody.
    + rewrite Hbody. simpl. repeat split; try assumption.
      f_equal. exact IH1.
Qed.

(** C1, as the code has it.  The lines of a source file are: the lines of
    the children before the first body-only node (comments held back, put
    out before a context); the separator; the comments still held back;
    the lines of the first body-only node and of the children after it.
    Neither phase makes a line of its own -- each of their lines is a line
    or the formatted comment of a child, or comes out of [create_tables]
    -- so the handler puts out one separator, and the comments held back
    stand between it and the first body-only node, or after it, at the
    end, when there is no such node.  For a file that holds only a command
    the lines are the separator and then the lines of the command, through
    [create_tables] when short commands are aligned. *)
Theorem separator_between_header_and_body :
  (forall create_tables self fuel i children buffer,
      format_block create_tables self (S fuel) (TalonSourceFile i children)
        buffer
      = (before <- header_lines (format create_tables self fuel)
                     (format_block create_tables self fuel)
                     (header_children children) [] ;;
         after <- body_lines create_tables self
                    (format_block create_tables self fuel)
                    (body_children children) [] ;;
         ret (fst before ++ Text "-" :: snd before ++ after)) buffer)
  /\ (forall children : list Node,
         children = header_children children ++ body_children children
         /\ forallb (fun child => negb (isinstance_body_only child))
              (header_children children) = true
         /\ match body_children children with
            | [] => True
            | first :: _ => isinstance_body_only first = true
            end)
  /\ (forall create_tables self fuel i ic children rule script buffer,
         let command := TalonCommand ic children rule script in
         format_block create_tables self (S fuel)
           (TalonSourceFile i [command]) buffer
         = (lines <- format_block create_tables self fuel command ;;
            ret (Text "-"
                 :: (if is_True (align_short_commands self)
                        && is_short_command command
                     then clear_short_command_buffer create_tables lines
                     else lines))) buffer)
  /\ (forall format format_block children buffer lines pending buffer',
         header_lines format format_block children [] buffer
         = Ok (lines, pending) buffer' ->
         forall d, In d (lines ++ pending) ->
           exists child b1 b2,
             In child children
             /\ (format child b1 = Ok d b2
                 \/ exists ls, format_block child b1 = Ok ls b2 /\ In d ls))
  /\ (forall create_tables self format_block children buffer lines buffer',
         body_lines create_tables self format_block children [] buffer
         = Ok lines buffer' ->
         forall d, In d lines ->
           (exists child b1 b2 ls,
               In child children
               /\ format_block child b1 = Ok ls b2 /\ In d ls)
           \/ exists rows, In d (create_tables rows)).
Proof.
  split; [|split; [|split; [|split]]].
  - intros. apply source_file_loop_in_header.
  - apply header_body_children.
  - intros ct self fuel i ic children rule script buffer command.
    cbn [format_block format_block_dispatch format_block_TalonSourceFile
         source_file_loop isinstance_TalonComment isinstance_TalonContext
         isinstance_body_only isinstance_TalonCommand command andb].
    fold command.
    destruct (is_True (align_short_commands self)); simpl.
    + destruct (is_short_command command); simpl.
      * apply bind_ext. intros lines b. reflexivity.
      * apply bind_ext. intros lines b. unfold bind, ret.
        rewrite app_nil_r. reflexivity.
    + apply bind_ext. intros lines b. unfold bind, ret.
      rewrite app_nil_r. reflexivity.
  - intros format format_block children buffer lines pending buffer' Hrun d Hd.
    destruct (header_lines_from_children _ _ _ _ _ Hrun d Hd)
      as [[] | Hfrom].
    exact Hfrom.
  - intros ct self format_block children buffer lines buffer' Hrun d Hd.
    exact (body_lines_from_children _ _ _ _ _ _ Hrun d Hd).
Qed.

(** C1 as stated fails: a file of one comment has no body-only node, and
    its separator is the first line, the comment the last. *)
Lemma separator_not_last_before_held_comments :
  body_children [Sample.comment "# note" 0] = []
  /\ exists lines,
       format_block keep_rows (Sample.options (PyBool false)) 4
         (Sample.source_file [Sample.comment "# note" 0]) [] = Ok lines []
       /\ hd Empty lines = Text "-"
       /\ last lines Empty <> Text "-".
Proof.
  split; [reflexivity|]. eexists. split; [vm_compute; reflexivity|].
  split; [reflexivity | discriminate].
Qed.

(* ------------------------------------------------------------------ *)
(** ** Alignment of short commands by a column number *)

Section NoTables.

Variable self : TalonFormatter.
Hypothesis not_True : is_True (align_short_commands self) = false.
Variables create_tables1 create_tables2 : list Doc -> list Doc.



End NoTables.





(* ------------------------------------------------------------------ *)
(** ** The assertion on the one non-comment child *)

Lemma stored_well_typed (node_type : Node -> bool) :
  forall children buffer,
    well_typed_children node_type children ->
    stored node_type children buffer
    = Ok (non_comments children) (buffer ++ comments_in children).
Proof.
  unfold stored.
  induction children as [|child rest IH]; intros buffer Htyped.
  - simpl. unfold ret. rewrite app_nil_r. reflexivity.
  - assert (Hrest : well_typed_children node_type rest)
      by (intros c Hc; apply Htyped; right; exact Hc).
    simpl. unfold comments_in, non_comments. simpl.
    destruct (isinstance_TalonComment child) eqn:Hcomment; simpl.
    + unfold bind, append_comment. rewrite (IH _ Hrest).
      unfold comments_in. rewrite <- app_assoc. reflexivity.
    + destruct (Htyped child (or_introl eq_refl)) as [Habs | Htype].
      * rewrite Hcomment in Habs. discriminate.
      * rewrite Htype. unfold bind, ret. rewrite (IH _ Hrest). reflexivity.
Qed.

(** What [stored] comes to: [TypeError] for the first child it refuses,
    and without one the children that are not comments, the comments
    appended to the buffer. *)
Lemma stored_outcome (node_type : Node -> bool) :
  forall children buffer,
    stored node_type children buffer
    = match first_refused node_type children with
      | Some child => Raise (TypeError (class_name child))
      | None => Ok (non_comments children) (buffer ++ comments_in children)
      end.
Proof.
  unfold stored, first_refused, non_comments, comments_in.
  induction children as [|child rest IH]; intros buffer.
  - simpl. unfold ret. rewrite app_nil_r. reflexivity.
  - cbn [store_comments find filter].
    destruct (isinstance_TalonComment child) eqn:Hcomment; cbn [negb andb].
    + unfold bind at 1, append_comment. rewrite IH.
      destruct (find _ rest); [reflexivity|].
      rewrite <- app_assoc. reflexivity.
    + destruct (node_type child); cbn [negb]; [|reflexivity].
      unfold bind, ret. rewrite IH.
      destruct (find _ rest); reflexivity.
Qed.

Lemma any_node_is_taken (children : list Node) :
  first_refused isinstance_Node children = None.
Proof.
  unfold first_refused.
  induction children as [|child rest IH]; [reflexivity|].
  cbn [find]. unfold isinstance_Node at 1. cbn [negb].
  rewrite andb_false_r. exact IH.
Qed.

(** C8, as the code has it.  Take a node whose handler asks for its one
    non-comment child -- a parenthesized expression or rule, a number,
    an interpolation, an optional, a repeat, or a settings node, which
    asks for a block -- with no such child, or with more than one.
    Formatting it raises the assertion failure, with the kinds of the
    non-comment children in their order, when no child is refused; and
    [TypeError] with the class of the first child refused when there is
    one.  Only a settings node can have one: a child that is neither a
    comment nor a block. *)
Theorem sole_child_assertion :
  forall create_tables self fuel node children node_type buffer,
    sole_child_request node = Some (children, node_type) ->
    length (non_comments children) <> 1%nat ->
    format create_tables self (S (S fuel)) node buffer
    = match first_refused node_type children with
      | Some child => Raise (TypeError (class_name child))
      | None =>
          Raise (AssertionError "There should be only one non-comment child"
                   (map (fun child => type_name (info child))
                      (non_comments children)))
      end
    /\ (isinstance_TalonSettings node = false ->
        first_refused node_type children = None).
Proof.
  intros ct self fuel node children node_type buffer Hreq Hcount.
  assert (Hget :
            get_node_with_type children node_type buffer
            = match first_refused node_type children with
              | Some child => Raise (TypeError (class_name child))
              | None =>
                  Raise (AssertionError
                           "There should be only one non-comment child"
                           (map (fun child => type_name (info child))
                              (non_comments children)))
              end).
  { unfold get_node_with_type, bind. rewrite stored_outcome.
    destruct (first_refused node_type children); [reflexivity|].
    destruct (non_comments children) as [|a [|b rest]]; try reflexivity.
    simpl in Hcount. contradiction. }
  split.
  - destruct (first_refused node_type children);
      destruct node; simpl in Hreq; try discriminate;
      inversion Hreq; subst; clear Hreq;
      cbn [format format_dispatch format_block format_block_dispatch
           format_block_TalonSettings get_node];
      first
        [ apply bind_Raise; exact Hget
        | do 2 apply bind_Raise; exact Hget ].
  - intros Hnode.
    destruct node; simpl in Hreq; try discriminate;
      inversion Hreq; subst; clear Hreq;
      first [ apply any_node_is_taken | discriminate ].
Qed.

Lemma sole_child_assertion_witness :
  format keep_rows (Sample.options (PyBool false)) 2
    (TalonParenthesizedExpression (Sample.leaf "(a 1)" "expression" 0)
       [Sample.identifier "a";
        Sample.comment "# note" 0;
        TalonInteger (Sample.leaf "1" "integer" 0)]) []
  = Raise (AssertionError "There should be only one non-comment child"
             ["identifier"; "integer"])
  /\ format keep_rows (Sample.options (PyBool false)) 2
       (TalonParenthesizedExpression (Sample.leaf "()" "expression" 0)
          [Sample.comment "# note" 0]) []
     = Raise (AssertionError "There should be only one non-comment child"
                []).
Proof.
  split.
  - apply (@sole_child_assertion keep_rows (Sample.options (PyBool false)) 0
             (TalonParenthesizedExpression
                (Sample.leaf "(a 1)" "expression" 0)
                [Sample.identifier "a";
                 Sample.comment "# note" 0;
                 TalonInteger (Sample.leaf "1" "integer" 0)])
             [Sample.identifier "a";
              Sample.comment "# note" 0;
              TalonInteger (Sample.leaf "1" "integer" 0)]
             isinstance_Node []);
      [reflexivity | simpl; lia].
  - apply (@sole_child_assertion keep_rows (Sample.options (PyBool false)) 0
             (TalonParenthesizedExpression
                (Sample.leaf "()" "expression" 0)
                [Sample.comment "# note" 0])
             [Sample.comment "# note" 0]
             isinstance_Node []);
      [reflexivity | simpl; lia].
Defined.

(** C8, where the claim fails.  A settings node with two statements and
    no block has two non-comment children, and formatting it raises no
    assertion failure: the first statement is refused with
    [TypeError]. *)
Lemma settings_without_block_raises_TypeError :
  sole_child_request
    (TalonSettings (Sample.leaf "settings" "settings" 0)
       [Sample.call [] "a"; Sample.call [] "b"])
  = Some ([Sample.call [] "a"; Sample.call [] "b"], isinstance_TalonBlock)
  /\ length (non_comments [Sample.call [] "a"; Sample.call [] "b"]) = 2%nat
  /\ format keep_rows (Sample.options (PyBool false)) 2
       (TalonSettings (Sample.leaf "settings" "settings" 0)
          [Sample.call [] "a"; Sample.call [] "b"]) []
     = Raise (TypeError "TalonExpression").
Proof. repeat split; reflexivity. Qed.

(* ------------------------------------------------------------------ *)
(** ** The order of comments *)

(** C9, what the code does.  The handlers of [TalonAnd] and [TalonNot] do
    not drain the comment buffer after a child, as the handler of
    [TalonOr] does.  In the group [app: x] / [# c1] / [and os: y], with
    the comment [# c2] inside the second match, [# c2] is held back until
    the context handler puts it out above the whole group, so it comes
    out before [# c1], which stands before it in the file.  No comment is
    lost and the buffer ends empty. *)
Theorem and_group_puts_inner_comment_first :
  (line (start_position (info Sample.c1))
   < line (start_position (info Sample.c2)))%Z
  /\ exists lines,
       format_block keep_rows (Sample.options (PyBool false)) 8
         (Sample.source_file [Sample.context [Sample.and_group]]) []
       = Ok lines []
       /\ comment_texts lines = [" c2"; " c1"].
Proof.
  split; [reflexivity|].
  eexists. split; vm_compute; reflexivity.
Qed.

(* ------------------------------------------------------------------ *)
(** ** The comment buffer: what it holds and when it is empty *)

Lemma keeps_only_comments create_tables self fuel node buffer :
  only_comments buffer ->
  (forall d b', format create_tables self fuel node buffer = Ok d b' ->
                only_comments b')
  /\ (forall ls b', format_block create_tables self fuel node buffer
                    = Ok ls b' -> only_comments b')
  /\ (forall ua un ls b',
         format_block_match create_tables self fuel node ua un buffer
         = Ok ls b' -> only_comments b').
Proof.
  intros Hb.
  destruct (more_fuel create_tables self (4 * height node + 5) fuel)
    as (Sf & Sfb & Sfbm).
  destruct (enough_fuel create_tables self (h := height node) node (le_n _)
              (fuel := 4 * height node + 5 + fuel)) as (Tf & Tfb & Tfbm);
    [lia|].
  split; [|split].
  - intros d b' Hrun. specialize (Tf buffer Hb).
    destruct (Sf node buffer) as [Hout | Heq];
      [rewrite Hrun in Hout; discriminate|].
    rewrite <- Heq, Hrun in Tf. apply Tf.
  - intros ls b' Hrun. specialize (Tfb buffer Hb).
    destruct (Sfb node buffer) as [Hout | Heq];
      [rewrite Hrun in Hout; discriminate|].
    rewrite <- Heq, Hrun in Tfb. apply Tfb.
  - intros ua un ls b' Hrun. specialize (Tfbm ua un buffer Hb).
    destruct (Sfbm node ua un buffer) as [Hout | Heq];
      [rewrite Hrun in Hout; discriminate|].
    rewrite <- Heq, Hrun in Tfbm. apply Tfbm.
Qed.

Lemma format_comments_in_turn create_tables self fuel :
  forall comments buffer,
    only_comments comments ->
    for_each (fun comment =>
                d <- format create_tables self (S fuel) comment ;; ret [d])
      comments buffer
    = Ok (map comment_line comments) buffer.
Proof.
  set (body := fun comment =>
                 d <- format create_tables self (S fuel) comment ;; ret [d]).
  induction comments as [|c rest IH]; intros buffer Hc; [reflexivity|].
  inversion Hc as [|? ? Hhead Hrest]; subst.
  destruct (comment_inv c Hhead) as [i ->].
  cbn [for_each map].
  assert (Hc1 : body (TalonComment i) buffer
                = Ok [comment_line (TalonComment i)] buffer) by reflexivity.
  rewrite (bind_Ok _ _ _ Hc1). unfold bind. rewrite (IH buffer Hrest).
  reflexivity.
Qed.

Lemma get_formatted_comments_Ok create_tables self fuel buffer comments b' :
  only_comments buffer ->
  get_formatted_comments (format create_tables self fuel) buffer
  = Ok comments b' ->
  comments = map comment_line buffer /\ b' = [].
Proof.
  intros Hb Hrun. destruct fuel as [|fuel].
  - destruct buffer as [|c rest]; [inversion Hrun; split; reflexivity|].
    discriminate.
  - unfold get_formatted_comments in Hrun.
    apply bind_Ok_inv in Hrun. destruct Hrun as (cs & b1 & Hget & Hrun).
    unfold get_comments in Hget. inversion Hget; subst; clear Hget.
    rewrite (format_comments_in_turn create_tables self fuel [] Hb) in Hrun.
    inversion Hrun. split; reflexivity.
Qed.

(** Formatting that yields no line from an empty buffer leaves it
    empty: every handler that stores a comment yields a line after it. *)
Lemma no_line_no_comment create_tables self :
  forall fuel,
    (forall node b',
        format_block create_tables self fuel node [] = Ok [] b' -> b' = [])
    /\ (forall node ua un b',
           format_block_match create_tables self fuel node ua un []
           = Ok [] b' -> b' = []).
Proof.
  induction fuel as [|fuel (IHb & IHm)]; [split; intros; discriminate|].
  assert (Hdrain : forall b cms b2,
             get_formatted_comments (format create_tables self fuel) b
             = Ok cms b2 -> b = [] -> cms = [] /\ b2 = []).
  { intros b cms b2 Hrun ->.
    destruct (get_formatted_comments_Ok create_tables self fuel
                (buffer := []) (Forall_nil _) Hrun) as [-> ->].
    split; reflexivity. }
  assert (Hand : forall children ua un b',
             format_block_match_TalonAnd
               (format_block create_tables self fuel)
               (format_block_match create_tables self fuel)
               children ua un [] = Ok [] b' -> b' = []).
  { induction children as [|child rest IHc]; intros ua un b' Hrun.
    - inversion Hrun. reflexivity.
    - simpl in Hrun. destruct (isinstance_TalonComment child);
        invert_binds Hrun; apply ret_Ok_inv in Hrun;
        destruct Hrun as [Hnil <-];
        apply app_eq_nil in Hnil; destruct Hnil as [-> ->].
      + apply IHb in Hstep. subst. eapply IHc. eassumption.
      + apply IHm in Hstep. subst. eapply IHc. eassumption. }
  assert (Hnot : forall children ua un b',
             format_block_match_TalonNot
               (format_block create_tables self fuel)
               (format_block_match create_tables self fuel)
               children ua un [] = Ok [] b' -> b' = []).
  { induction children as [|child rest IHc]; intros ua un b' Hrun.
    - inversion Hrun. reflexivity.
    - simpl in Hrun. destruct (isinstance_TalonComment child);
        invert_binds Hrun; apply ret_Ok_inv in Hrun;
        destruct Hrun as [Hnil <-];
        apply app_eq_nil in Hnil; destruct Hnil as [-> ->].
      + apply IHb in Hstep. subst. eapply IHc. eassumption.
      + apply IHm in Hstep. subst. eapply IHc. eassumption. }
  assert (Hor : forall children ua un b',
             format_block_match_TalonOr
               (format create_tables self fuel)
               (format_block create_tables self fuel)
               (format_block_match create_tables self fuel)
               children ua un [] = Ok [] b' -> b' = []).
  { unfold format_block_match_TalonOr.
    induction children as [|child rest IHc]; intros ua un b' Hrun.
    - inversion Hrun. reflexivity.
    - simpl in Hrun. invert_binds Hrun. apply ret_Ok_inv in Hrun.
      destruct Hrun as [Hnil <-].
      apply app_eq_nil in Hnil. destruct Hnil as [-> ->].
      destruct (isinstance_TalonComment child).
      + apply IHb in Hstep. subst. eapply IHc. eassumption.
      + apply bind_Ok_inv in Hstep.
        destruct Hstep as (ls & b1 & Hchild & Hstep).
        apply bind_Ok_inv in Hstep.
        destruct Hstep as (cms & b2 & Hcms & Hstep).
        apply ret_Ok_inv in Hstep. destruct Hstep as [Hnil <-].
        apply app_eq_nil in Hnil. destruct Hnil as [-> ->].
        apply IHm in Hchild. subst.
        destruct (Hdrain _ _ _ Hcms eq_refl) as [_ ->].
        eapply IHc. eassumption. }
  split.
  - intros node b' Hrun. cbn [format_block] in Hrun.
    destruct node; simpl in Hrun; try discriminate.
    + (* source file *)
      unfold format_block_TalonSourceFile in Hrun.
      rewrite source_file_loop_in_header in Hrun.
      invert_binds Hrun. apply ret_Ok_inv in Hrun. destruct Hrun as [Hnil _].
      apply app_eq_nil in Hnil. destruct Hnil as [_ Hnil]. discriminate.
    + (* context *)
      unfold format_block_TalonContext in Hrun.
      revert b' Hrun.
      induction children as [|child rest IHc]; intros b' Hrun.
      * inversion Hrun. reflexivity.
      * simpl in Hrun. invert_binds Hrun. apply ret_Ok_inv in Hrun.
        destruct Hrun as [Hnil <-].
        apply app_eq_nil in Hnil. destruct Hnil as [-> ->].
        apply bind_Ok_inv in Hstep.
        destruct Hstep as (ls & b1 & Hchild & Hstep).
        apply bind_Ok_inv in Hstep.
        destruct Hstep as (cms & b2 & Hcms & Hstep).
        apply ret_Ok_inv in Hstep. destruct Hstep as [Hnil <-].
        apply app_eq_nil in Hnil. destruct Hnil as [-> ->].
        apply IHb in Hchild. subst.
        destruct (Hdrain _ _ _ Hcms eq_refl) as [_ ->].
        apply IHc. assumption.
    + (* tag include *)
      unfold format_block_TalonIncludeTag in Hrun. invert_binds Hrun.
      apply ret_Ok_inv in Hrun. destruct Hrun as [Hnil _].
      apply app_eq_nil in Hnil. destruct Hnil as [_ Hnil]. discriminate.
    + (* settings *)
      unfold format_block_TalonSettings in Hrun. invert_binds Hrun.
      apply ret_Ok_inv in Hrun. destruct Hrun as [Hnil _]. discriminate.
    + (* command *)
      unfold format_block_TalonCommand in Hrun. invert_binds Hrun.
      apply ret_Ok_inv in Hrun. destruct Hrun as [Hnil _].
      apply app_eq_nil in Hnil. destruct Hnil as [_ Hnil]. discriminate.
    + (* block *)
      unfold format_block_TalonBlock in Hrun.
      revert b' Hrun.
      induction children as [|child rest IHc]; intros b' Hrun.
      * inversion Hrun. reflexivity.
      * simpl in Hrun. invert_binds Hrun. apply ret_Ok_inv in Hrun.
        destruct Hrun as [Hnil <-].
        apply app_eq_nil in Hnil. destruct Hnil as [-> ->].
        apply bind_Ok_inv in Hstep.
        destruct Hstep as (ls & b1 & Hchild & Hstep).
        destruct ls as [|l ls].
        { apply IHb in Hchild. subst. inversion Hstep. subst.
          apply IHc. assumption. }
        { cbn [for_each] in Hstep. apply bind_Ok_inv in Hstep.
          destruct Hstep as (first & b2 & Hfirst & Hstep).
          apply bind_Ok_inv in Hstep.
          destruct Hstep as (others & b3 & _ & Hstep).
          apply ret_Ok_inv in Hstep. destruct Hstep as [Hnil _].
          apply app_eq_nil in Hnil. destruct Hnil as [-> _].
          apply bind_Ok_inv in Hfirst.
          destruct Hfirst as (cms & b4 & _ & Hfirst).
          apply ret_Ok_inv in Hfirst. destruct Hfirst as [Hnil _].
          apply app_eq_nil in Hnil. destruct Hnil as [_ Hnil].
          discriminate. }
    + (* assignment *)
      unfold format_block_TalonAssignment in Hrun. invert_binds Hrun.
      apply ret_Ok_inv in Hrun. destruct Hrun as [Hnil _]. discriminate.
    + (* expression *)
      unfold format_block_TalonExpression in Hrun. invert_binds Hrun.
      apply ret_Ok_inv in Hrun. destruct Hrun as [Hnil _]. discriminate.
    + invert_binds Hrun. apply ret_Ok_inv in Hrun.
      destruct Hrun as [Hnil _]. discriminate.
    + invert_binds Hrun. apply ret_Ok_inv in Hrun.
      destruct Hrun as [Hnil _]. discriminate.
    + eapply IHm. eassumption.
    + eapply IHm. eassumption.
    + eapply IHm. eassumption.
    + eapply IHm. eassumption.
  - intros node ua un b' Hrun. cbn [format_block_match] in Hrun.
    destruct node; simpl in Hrun; try discriminate.
    + eapply Hand. eassumption.
    + eapply Hnot. eassumption.
    + eapply Hor. eassumption.
    + unfold format_block_match_TalonMatch in Hrun. invert_binds Hrun.
      apply ret_Ok_inv in Hrun. destruct Hrun as [Hnil _]. discriminate.
Qed.

Lemma lines_drain create_tables self fuel :
  forall lines buffer out b',
    only_comments buffer ->
    lines <> [] ->
    for_each
      (fun line =>
         comments <- get_formatted_comments (format create_tables self fuel) ;;
         ret (comments ++ [line]))
      lines buffer = Ok out b' ->
    b' = [].
Proof.
  induction lines as [|l rest IH]; intros buffer out b' Hb Hne Hrun;
    [contradiction|].
  cbn [for_each] in Hrun.
  apply bind_Ok_inv in Hrun. destruct Hrun as (first & b1 & Hfirst & Hrun).
  apply bind_Ok_inv in Hrun. destruct Hrun as (others & b2 & Hrest & Hrun).
  apply ret_Ok_inv in Hrun. destruct Hrun as [_ <-].
  apply bind_Ok_inv in Hfirst. destruct Hfirst as (cms & b3 & Hcms & Hfirst).
  apply ret_Ok_inv in Hfirst. destruct Hfirst as [_ <-].
  destruct (get_formatted_comments_Ok _ _ _ Hb Hcms) as [_ ->].
  destruct rest as [|l' rest'].
  - inversion Hrest. reflexivity.
  - eapply IH; [| |exact Hrest]; [constructor | discriminate].
Qed.

(** The block handler, started with an empty buffer, ends with an empty
    buffer. *)
Lemma block_leaves_buffer_empty create_tables self fuel :
  forall children lines b',
    format_block_TalonBlock (format create_tables self fuel)
      (format_block create_tables self fuel) children [] = Ok lines b' ->
    b' = [].
Proof.
  unfold format_block_TalonBlock.
  induction children as [|child rest IH]; intros lines b' Hrun.
  - inversion Hrun. reflexivity.
  - cbn [for_each] in Hrun.
    apply bind_Ok_inv in Hrun. destruct Hrun as (ys & b1 & Hchild & Hrun).
    apply bind_Ok_inv in Hrun. destruct Hrun as (zs & b2 & Hrest & Hrun).
    apply ret_Ok_inv in Hrun. destruct Hrun as [_ <-].
    apply bind_Ok_inv in Hchild. destruct Hchild as (ls & b3 & Hfb & Hinner).
    assert (Hb1 : b1 = []).
    { destruct ls as [|l ls'].
      - destruct (no_line_no_comment create_tables self fuel) as [Hz _].
        apply Hz in Hfb. subst.
        apply ret_Ok_inv in Hinner. symmetry. apply Hinner.
      - eapply lines_drain; [| |exact Hinner]; [|discriminate].
        destruct (keeps_only_comments create_tables self fuel child
                    (buffer := []) (Forall_nil _)) as (_ & Hk & _).
        eapply Hk. exact Hfb. }
    subst. eapply IH. exact Hrest.
Qed.

Lemma format_built_block_leaves_buffer_empty create_tables self fuel :
  forall comments block doc b',
    format create_tables self fuel (block_with_comments comments block) []
    = Ok doc b' ->
    b' = [].
Proof.
  intros comments block doc b' Hrun.
  destruct fuel as [|[|fuel]]; try discriminate.
  unfold block_with_comments in Hrun.
  cbn [format format_dispatch] in Hrun.
  apply bind_Ok_inv in Hrun. destruct Hrun as (ls & b1 & Hblock & Hrun).
  apply ret_Ok_inv in Hrun. destruct Hrun as [_ <-].
  cbn [format_block format_block_dispatch] in Hblock.
  eapply block_leaves_buffer_empty. exact Hblock.
Qed.

Lemma command_and_settings_drain :
  forall create_tables self fuel node buffer lines b',
    only_comments buffer ->
    isinstance_TalonCommand node || isinstance_TalonSettings node = true ->
    format_block create_tables self fuel node buffer = Ok lines b' ->
    b' = [].
Proof.
  intros ct self fuel node buffer lines b' Hb Hkind Hrun.
  destruct fuel as [|fuel]; [discriminate|].
  destruct node; simpl in Hkind; try discriminate;
    cbn [format_block format_block_dispatch] in Hrun.
  - (* settings *)
    unfold format_block_TalonSettings in Hrun.
    apply bind_Ok_inv in Hrun. destruct Hrun as (block & b1 & Hget & Hrun).
    apply bind_Ok_inv in Hrun. destruct Hrun as (cms & b2 & Hcms & Hrun).
    apply bind_Ok_inv in Hrun. destruct Hrun as (doc & b3 & Hdoc & Hrun).
    apply ret_Ok_inv in Hrun. destruct Hrun as [_ <-].
    unfold get_comments in Hcms. inversion Hcms; subst; clear Hcms.
    eapply format_built_block_leaves_buffer_empty. exact Hdoc.
  - (* command *)
    unfold format_block_TalonCommand in Hrun.
    apply bind_Ok_inv in Hrun. destruct Hrun as (rule & b1 & Hrule & Hrun).
    apply bind_Ok_inv in Hrun. destruct Hrun as (cms & b2 & Hcms & Hrun).
    apply bind_Ok_inv in Hrun. destruct Hrun as (doc & b3 & Hdoc & Hrun).
    apply ret_Ok_inv in Hrun. destruct Hrun as [_ <-].
    destruct (keeps_only_comments ct self fuel node1 Hb) as (Hk & _ & _).
    destruct (get_formatted_comments_Ok _ _ _ (Hk _ _ Hrule) Hcms) as [_ ->].
    eapply format_built_block_leaves_buffer_empty. exact Hdoc.
Qed.


Lemma assert_only_comments_keeps children buffer b' :
  only_comments buffer ->
  assert_only_comments children buffer = Ok tt b' -> only_comments b'.
Proof.
  intros Hb Hrun. pose proof (runs_assert_only_comments children) as H.
  specialize (H buffer Hb). rewrite Hrun in H. apply H.
Qed.

Lemma context_drains create_tables self fuel :
  forall children buffer lines b',
    only_comments buffer ->
    children <> [] \/ buffer = [] ->
    format_block_TalonContext (format create_tables self fuel)
      (format_block create_tables self fuel) children buffer = Ok lines b' ->
    b' = [].
Proof.
  unfold format_block_TalonContext.
  induction children as [|child rest IH]; intros buffer lines b' Hb Hor Hrun.
  - destruct Hor as [Hne | ->]; [contradiction|].
    inversion Hrun. reflexivity.
  - cbn [for_each] in Hrun.
    apply bind_Ok_inv in Hrun. destruct Hrun as (ys & b1 & Hchild & Hrun).
    apply bind_Ok_inv in Hrun. destruct Hrun as (zs & b2 & Hrest & Hrun).
    apply ret_Ok_inv in Hrun. destruct Hrun as [_ <-].
    apply bind_Ok_inv in Hchild. destruct Hchild as (ls & b3 & Hfb & Hchild).
    apply bind_Ok_inv in Hchild. destruct Hchild as (cms & b4 & Hcms & Hchild).
    apply ret_Ok_inv in Hchild. destruct Hchild as [_ <-].
    destruct (keeps_only_comments create_tables self fuel child Hb)
      as (_ & Hk & _).
    destruct (get_formatted_comments_Ok _ _ _ (Hk _ _ Hfb) Hcms) as [_ ->].
    eapply IH; [constructor | right; reflexivity | exact Hrest].
Qed.

Lemma top_level_child_drains create_tables self fuel child lines b' :
  top_level child = true ->
  format_block create_tables self fuel child [] = Ok lines b' ->
  b' = [].
Proof.
  intros Htop Hrun.
  destruct child; simpl in Htop; try discriminate.
  - (* context *)
    destruct fuel as [|fuel]; [discriminate|].
    cbn [format_block format_block_dispatch] in Hrun.
    eapply context_drains; [constructor | right; reflexivity | exact Hrun].
  - (* tag include *)
    destruct child; try discriminate.
    destruct fuel as [|fuel]; [discriminate|].
    cbn [format_block format_block_dispatch] in Hrun.
    unfold format_block_TalonIncludeTag in Hrun.
    apply bind_Ok_inv in Hrun. destruct Hrun as ([] & b1 & Hassert & Hrun).
    apply bind_Ok_inv in Hrun. destruct Hrun as (cms & b2 & Hcms & Hrun).
    apply bind_Ok_inv in Hrun. destruct Hrun as (t & b3 & Htag & Hrun).
    apply ret_Ok_inv in Hrun. destruct Hrun as [_ <-].
    pose proof (assert_only_comments_keeps children (buffer := [])
                  (Forall_nil _) Hassert) as Hb1.
    destruct (get_formatted_comments_Ok _ _ _ Hb1 Hcms) as [_ ->].
    destruct fuel as [|fuel]; [discriminate|].
    inversion Htag. reflexivity.
  - eapply command_and_settings_drain; [constructor | | exact Hrun].
    reflexivity.
  - eapply command_and_settings_drain; [constructor | | exact Hrun].
    reflexivity.
  - (* comment *)
    destruct fuel as [|[|fuel]]; try discriminate.
    inversion Hrun. reflexivity.
Qed.

Lemma source_file_loop_drains create_tables self fuel :
  forall children in_header cb scb lines b',
    forallb top_level children = true ->
    source_file_loop create_tables self (format create_tables self fuel)
      (format_block create_tables self fuel) children in_header cb scb []
    = Ok lines b' ->
    b' = [].
Proof.
  induction children as [|child rest IH];
    intros in_header cb scb lines b' Htop Hrun.
  - inversion Hrun. reflexivity.
  - simpl in Htop. apply andb_prop in Htop. destruct Htop as [Hchild Hrest].
    assert (Hfb : forall ls b1,
               format_block create_tables self fuel child [] = Ok ls b1 ->
               b1 = [])
      by (intros ls b1; apply top_level_child_drains; exact Hchild).
    cbn [source_file_loop] in Hrun.
    destruct (in_header && isinstance_TalonComment child) eqn:Hcomment.
    + apply bind_Ok_inv in Hrun. destruct Hrun as (d & b1 & Hd & Hrun).
      apply andb_prop in Hcomment. destruct Hcomment as [_ Hcomment].
      destruct (comment_inv child Hcomment) as [i ->].
      destruct fuel as [|fuel]; [discriminate|].
      inversion Hd; subst. eapply IH; eassumption.
    + destruct (isinstance_TalonContext child).
      * destruct in_header; [|discriminate].
        apply bind_Ok_inv in Hrun. destruct Hrun as (ls & b1 & Hls & Hrun).
        apply bind_Ok_inv in Hrun. destruct Hrun as (more & b2 & Hmore & Hrun).
        apply ret_Ok_inv in Hrun. destruct Hrun as [_ <-].
        apply Hfb in Hls. subst. eapply IH; eassumption.
      * destruct (is_True (align_short_commands self)).
        { destruct (isinstance_TalonCommand child && is_short_command child);
            apply bind_Ok_inv in Hrun;
            destruct Hrun as (ls & b1 & Hls & Hrun);
            apply bind_Ok_inv in Hrun;
            destruct Hrun as (more & b2 & Hmore & Hrun);
            apply ret_Ok_inv in Hrun; destruct Hrun as [_ <-];
            apply Hfb in Hls; subst; eapply IH; eassumption. }
        { apply bind_Ok_inv in Hrun. destruct Hrun as (ls & b1 & Hls & Hrun).
          apply bind_Ok_inv in Hrun.
          destruct Hrun as (more & b2 & Hmore & Hrun).
          apply ret_Ok_inv in Hrun. destruct Hrun as [_ <-].
          apply Hfb in Hls. subst. eapply IH; eassumption. }
Qed.

(** X3.  Formatting a command or a settings node, from a buffer that
    holds comments, leaves the comment buffer empty: the comments met
    are put out above the command or merged into the block. *)
Theorem command_and_settings_leave_buffer_empty :
  forall create_tables self fuel node buffer lines b',
    only_comments buffer ->
    isinstance_TalonCommand node || isinstance_TalonSettings node = true ->
    format_block create_tables self fuel node buffer = Ok lines b' ->
    b' = [].
Proof. exact command_and_settings_drain. Qed.

Lemma command_and_settings_witness :
  exists lines b',
    format_block keep_rows (Sample.options (PyBool false)) 8
      (Sample.command [Sample.c1] "foo" [Sample.call [Sample.c2] "bar"])
      [Sample.comment "# held" 0]
    = Ok lines b'
    /\ b' = [].
Proof.
  eexists. eexists. split; [vm_compute; reflexivity|].
  eapply (command_and_settings_leave_buffer_empty keep_rows
            (Sample.options (PyBool false)) 8
            (Sample.command [Sample.c1] "foo" [Sample.call [Sample.c2] "bar"])
            (buffer := [Sample.comment "# held" 0])).
  - repeat constructor.
  - reflexivity.
  - vm_compute. reflexivity.
Defined.

(** X4.  In a source file whose children are comments, a context, tag
    includes that name an identifier, settings and commands, the comment
    buffer is empty after every child and at the end: no comment met
    inline is left behind. *)
Theorem source_file_leaves_buffer_empty :
  forall create_tables self fuel i children lines b',
    forallb top_level children = true ->
    format_block create_tables self (S fuel) (TalonSourceFile i children) []
    = Ok lines b' ->
    b' = []
    /\ forall child ls b1,
         In child children ->
         format_block create_tables self fuel child [] = Ok ls b1 ->
         b1 = [].
Proof.
  intros ct self fuel i children lines b' Htop Hrun. split.
  - cbn [format_block format_block_dispatch] in Hrun.
    eapply source_file_loop_drains; eassumption.
  - intros child ls b1 Hin Hchild.
    rewrite forallb_forall in Htop.
    eapply top_level_child_drains; [apply Htop; exact Hin | exact Hchild].
Qed.

Lemma source_file_leaves_buffer_empty_witness :
  exists lines b',
    format_block keep_rows (Sample.options (PyBool true)) 9
      (Sample.source_file
         [Sample.c1;
          Sample.context [Sample.and_group];
          Sample.command [Sample.c2] "foo" [Sample.call [Sample.c1] "bar"]])
      [] = Ok lines b'
    /\ b' = []
    /\ forall child ls b1,
         In child
            [Sample.c1;
             Sample.context [Sample.and_group];
             Sample.command [Sample.c2] "foo"
               [Sample.call [Sample.c1] "bar"]] ->
         format_block keep_rows (Sample.options (PyBool true)) 8 child []
         = Ok ls b1 ->
         b1 = [].
Proof.
  eexists. eexists. split; [vm_compute; reflexivity|].
  eapply (source_file_leaves_buffer_empty keep_rows
            (Sample.options (PyBool true)) 8
            (Sample.leaf "file" "source_file" 0)).
  - reflexivity.
  - vm_compute. reflexivity.
Defined.

(* ------------------------------------------------------------------ *)
(** ** Further properties of the translator *)

(** X1.  Formatting terminates: on a tree of depth [h], from a buffer of
    comments, fuel [4 * h + 5] or more is never used up -- the three
    methods return or raise -- although two handlers format a block they
    have built themselves. *)
Theorem formatting_terminates :
  forall create_tables self node buffer fuel under_and under_not,
    only_comments buffer ->
    4 * height node + 5 <= fuel ->
    format create_tables self fuel node buffer <> OutOfFuel
    /\ format_block create_tables self fuel node buffer <> OutOfFuel
    /\ format_block_match create_tables self fuel node under_and under_not
         buffer <> OutOfFuel.
Proof.
  intros ct self node buffer fuel ua un Hb Hfuel.
  destruct (enough_fuel ct self (h := height node) node (le_n _) Hfuel)
    as (Tf & Tfb & Tfbm).
  split; [|split].
  - exact (runs_not_out_of_fuel Tf Hb).
  - exact (runs_not_out_of_fuel Tfb Hb).
  - exact (runs_not_out_of_fuel (Tfbm ua un) Hb).
Qed.

Lemma formatting_terminates_witness :
  format keep_rows (Sample.options (PyBool true)) 29
    (Sample.source_file [Sample.foo_note_bar]) [Sample.c1] <> OutOfFuel
  /\ format_block keep_rows (Sample.options (PyBool true)) 29
       (Sample.source_file [Sample.foo_note_bar]) [Sample.c1] <> OutOfFuel
  /\ format_block_match keep_rows (Sample.options (PyBool true)) 29
       (Sample.source_file [Sample.foo_note_bar]) false false [Sample.c1]
     <> OutOfFuel.
Proof.
  apply (formatting_terminates keep_rows (Sample.options (PyBool true))
           (Sample.source_file [Sample.foo_note_bar]) (buffer := [Sample.c1])
           (fuel := 29) false false).
  - repeat constructor.
  - vm_compute. lia.
Defined.

(** X2.  The comment buffer holds comment nodes only: whatever is
    formatted, from a buffer of comments, the buffer that is left holds
    comments only. *)
Theorem buffer_holds_only_comments :
  forall create_tables self fuel node buffer,
    only_comments buffer ->
    (forall d b', format create_tables self fuel node buffer = Ok d b' ->
                  only_comments b')
    /\ (forall ls b', format_block create_tables self fuel node buffer
                      = Ok ls b' -> only_comments b')
    /\ (forall ua un ls b',
           format_block_match create_tables self fuel node ua un buffer
           = Ok ls b' -> only_comments b').
Proof. exact keeps_only_comments. Qed.

Lemma buffer_holds_only_comments_witness :
  (forall d b',
      format keep_rows (Sample.options (PyBool false)) 3
        (Sample.call [Sample.c2] "bar") [Sample.c1] = Ok d b' ->
      only_comments b')
  /\ (forall ls b',
         format_block keep_rows (Sample.options (PyBool false)) 3
           (Sample.call [Sample.c2] "bar") [Sample.c1] = Ok ls b' ->
         only_comments b')
  /\ (forall ua un ls b',
         format_block_match keep_rows (Sample.options (PyBool false)) 3
           (Sample.call [Sample.c2] "bar") ua un [Sample.c1] = Ok ls b' ->
         only_comments b').
Proof.
  apply (buffer_holds_only_comments keep_rows
           (Sample.options (PyBool false)) 3 (Sample.call [Sample.c2] "bar")
           (buffer := [Sample.c1])).
  repeat constructor.
Defined.

(** X5.  [get_formatted_comments] puts out the buffered comments in the
    order they were stored, each as its comment line, and empties the
    buffer. *)
Theorem get_formatted_comments_first_in_first_out :
  forall create_tables self fuel buffer,
    only_comments buffer ->
    get_formatted_comments (format create_tables self (S fuel)) buffer
    = Ok (map comment_line buffer) [].
Proof.
  intros ct self fuel buffer Hb.
  unfold get_formatted_comments, get_comments.
  unfold bind at 1.
  apply (format_comments_in_turn ct self fuel [] Hb).
Qed.

Lemma get_formatted_comments_witness :
  get_formatted_comments
    (format keep_rows (Sample.options (PyBool false)) 1)
    [Sample.c1; Sample.c2]
  = Ok [comment_line Sample.c1; comment_line Sample.c2] [].
Proof.
  apply (get_formatted_comments_first_in_first_out keep_rows
           (Sample.options (PyBool false)) 0 (buffer := [Sample.c1; Sample.c2])).
  repeat constructor.
Defined.

Lemma stored_comments_only :
  forall children buffer,
    forallb isinstance_TalonComment children = true ->
    stored isinstance_TalonComment children buffer
    = Ok [] (buffer ++ children).
Proof.
  unfold stored.
  induction children as [|child rest IH]; intros buffer Hall; simpl.
  - unfold ret. rewrite app_nil_r. reflexivity.
  - simpl in Hall. apply andb_prop in Hall. destruct Hall as [Hc Hrest].
    rewrite Hc. unfold bind at 1. unfold append_comment.
    rewrite (IH _ Hrest). rewrite <- app_assoc. reflexivity.
Qed.

Lemma stored_first_other :
  forall pre x rest buffer,
    forallb isinstance_TalonComment pre = true ->
    isinstance_TalonComment x = false ->
    stored isinstance_TalonComment (pre ++ x :: rest) buffer
    = Raise (TypeError (class_name x)).
Proof.
  unfold stored.
  induction pre as [|child pre IH]; intros x rest buffer Hall Hx; simpl.
  - rewrite Hx. reflexivity.
  - simpl in Hall. apply andb_prop in Hall. destruct Hall as [Hc Hpre].
    rewrite Hc. unfold bind at 1. unfold append_comment.
    apply IH; assumption.
Qed.

Lemma split_at_first_other (children : list Node) :
  forallb isinstance_TalonComment children = true
  \/ exists pre x rest,
       children = pre ++ x :: rest
       /\ forallb isinstance_TalonComment pre = true
       /\ isinstance_TalonComment x = false.
Proof.
  induction children as [|child rest IH]; [left; reflexivity|].
  destruct (isinstance_TalonComment child) eqn:Hc.
  - destruct IH as [Hall | (pre & x & rest' & -> & Hpre & Hx)].
    + left. simpl. rewrite Hc. exact Hall.
    + right. exists (child :: pre), x, rest'. simpl. rewrite Hc.
      repeat split; assumption.
  - right. exists [], child, rest. repeat split. exact Hc.
Qed.

(** X6.  [assert_only_comments] stores the children when all of them are
    comments, raises [TypeError] for the first child that is not a
    comment, and never raises the assertion failure it is written for. *)
Theorem assert_only_comments_never_asserts :
  forall children buffer,
    (forallb isinstance_TalonComment children = true ->
     assert_only_comments children buffer = Ok tt (buffer ++ children))
    /\ (forall pre x rest,
           children = pre ++ x :: rest ->
           forallb isinstance_TalonComment pre = true ->
           isinstance_TalonComment x = false ->
           assert_only_comments children buffer
           = Raise (TypeError (class_name x)))
    /\ (forall message found,
           assert_only_comments children buffer
           <> Raise (AssertionError message found)).
Proof.
  intros children buffer.
  assert (Hall : forallb isinstance_TalonComment children = true ->
                 assert_only_comments children buffer
                 = Ok tt (buffer ++ children)).
  { intros H. unfold assert_only_comments, bind.
    rewrite (stored_comments_only children buffer H). reflexivity. }
  assert (Hother : forall pre x rest,
             children = pre ++ x :: rest ->
             forallb isinstance_TalonComment pre = true ->
             isinstance_TalonComment x = false ->
             assert_only_comments children buffer
             = Raise (TypeError (class_name x))).
  { intros pre x rest -> Hpre Hx. unfold assert_only_comments, bind.
    rewrite (stored_first_other pre x rest buffer Hpre Hx). reflexivity. }
  split; [exact Hall | split; [exact Hother|]].
  intros message found.
  destruct (split_at_first_other children)
    as [H | (pre & x & rest & Heq & Hpre & Hx)].
  - rewrite (Hall H). discriminate.
  - rewrite (Hother pre x rest Heq Hpre Hx). discriminate.
Qed.

(** X7.  [get_node] returns a node exactly when it is the one child that
    is not a comment, and then the comments among the children have been
    appended to the buffer in their order. *)
Theorem get_node_returns_the_sole_child :
  forall children buffer node b',
    get_node children buffer = Ok node b'
    <-> non_comments children = [node]
        /\ b' = buffer ++ comments_in children.
Proof.
  intros children buffer node b'.
  assert (Htyped : well_typed_children isinstance_Node children)
    by (intros c _; right; reflexivity).
  unfold get_node, get_node_with_type, bind.
  rewrite (stored_well_typed _ Htyped).
  destruct (non_comments children) as [|a [|b rest]]; split.
  - discriminate.
  - intros [H _]. discriminate.
  - intros H. inversion H. split; reflexivity.
  - intros [H ->]. inversion H. reflexivity.
  - discriminate.
  - intros [H _]. discriminate.
Qed.

Section AndFlags.

Variable format_block : Node -> M (list Doc).
Variable format_block_match : Node -> bool -> bool -> M (list Doc).

Lemma and_loop_under_and :
  forall children under_not buffer,
    format_block_match_TalonAnd format_block format_block_match children
      true under_not buffer
    = for_each
        (fun child =>
           if isinstance_TalonComment child then format_block child
           else format_block_match child true under_not)
        children buffer.
Proof.
  induction children as [|child rest IH]; intros un buffer; simpl;
    [reflexivity|].
  destruct (isinstance_TalonComment child);
    apply bind_ext; intros lines b; apply bind_ext_l; apply IH.
Qed.

Lemma and_loop_leading_comments :
  forall comments child rest under_and under_not buffer,
    forallb isinstance_TalonComment comments = true ->
    isinstance_TalonComment child = false ->
    format_block_match_TalonAnd format_block format_block_match
      (comments ++ child :: rest) under_and under_not buffer
    = (above <- for_each format_block comments ;;
       lines <- format_block_match child under_and under_not ;;
       more <- for_each
                 (fun later =>
                    if isinstance_TalonComment later then format_block later
                    else format_block_match later true under_not)
                 rest ;;
       ret (above ++ lines ++ more)) buffer.
Proof.
  induction comments as [|c cs IH];
    intros child rest ua un buffer Hall Hchild.
  - simpl. rewrite Hchild. rewrite bind_ret_l.
    apply bind_ext. intros lines b.
    apply bind_ext_l. apply and_loop_under_and.
  - simpl in Hall. apply andb_prop in Hall. destruct Hall as [Hc Hcs].
    simpl. rewrite Hc. rewrite !bind_assoc.
    apply bind_ext. intros ys b. rewrite bind_assoc. unfold bind at 1.
    rewrite (IH child rest ua un b Hcs Hchild).
    unfold bind, ret.
    destruct (for_each format_block cs b); try reflexivity.
    destruct (format_block_match child ua un buffer0); try reflexivity.
    destruct (for_each _ rest buffer1); try reflexivity.
    rewrite <- !app_assoc. reflexivity.
Qed.

End AndFlags.

(** X8.  In an [and] group the first child that is not a comment is
    rendered with the flags the group was given, and every later one
    with [under_and] set; the comments of the group come out in place
    and do not count as the first child. *)
Theorem and_sets_under_and_after_the_first_child :
  forall format_block format_block_match comments child rest
         under_and under_not buffer,
    forallb isinstance_TalonComment comments = true ->
    isinstance_TalonComment child = false ->
    format_block_match_TalonAnd format_block format_block_match
      (comments ++ child :: rest) under_and under_not buffer
    = (above <- for_each format_block comments ;;
       lines <- format_block_match child under_and under_not ;;
       more <- for_each
                 (fun later =>
                    if isinstance_TalonComment later then format_block later
                    else format_block_match later true under_not)
                 rest ;;
       ret (above ++ lines ++ more)) buffer.
Proof. exact and_loop_leading_comments. Qed.

Lemma and_sets_under_and_witness :
  format_block_match_TalonAnd
    (format_block keep_rows (Sample.options (PyBool false)) 3)
    (format_block_match keep_rows (Sample.options (PyBool false)) 3)
    ([Sample.c1] ++ Sample.match_ [] "app" "x" 0
                 :: [Sample.match_ [] "os" "y" 2])
    false false []
  = (above <- for_each
                (format_block keep_rows (Sample.options (PyBool false)) 3)
                [Sample.c1] ;;
     lines <- format_block_match keep_rows (Sample.options (PyBool false)) 3
                (Sample.match_ [] "app" "x" 0) false false ;;
     more <- for_each
               (fun later =>
                  if isinstance_TalonComment later
                  then format_block keep_rows
                         (Sample.options (PyBool false)) 3 later
                  else format_block_match keep_rows
                         (Sample.options (PyBool false)) 3 later true false)
               [Sample.match_ [] "os" "y" 2] ;;
     ret (above ++ lines ++ more)) [].
Proof.
  apply (and_sets_under_and_after_the_first_child
           (format_block keep_rows (Sample.options (PyBool false)) 3)
           (format_block_match keep_rows (Sample.options (PyBool false)) 3)
           [Sample.c1] (Sample.match_ [] "app" "x" 0)
           [Sample.match_ [] "os" "y" 2] false false []).
  - reflexivity.
  - reflexivity.
Defined.

Lemma list_ascii_of_hashes (n : nat) (rest : string) :
  list_ascii_of_string (hashes n ++ rest)%string
  = repeat "#"%char n ++ list_ascii_of_string rest.
Proof.
  induction n as [|n IH]; simpl; [reflexivity|]. rewrite IH. reflexivity.
Qed.

Lemma lstrip_hash_hashes (n : nat) (rest : string) :
  starts_with_hash rest = false ->
  lstrip_hash (hashes n ++ rest)%string = rest.
Proof.
  intros Hrest. unfold lstrip_hash. rewrite list_ascii_of_hashes.
  induction n as [|n IH]; simpl.
  - destruct rest as [|c rest']; [reflexivity|].
    simpl in *. rewrite Hrest. simpl.
    rewrite string_of_list_ascii_of_string. reflexivity.
  - exact IH.
Qed.

(** X9.  However many [#] a comment starts with, it is formatted to one
    [#] and the text after them, kept as it is; a docstring to [###] and
    the text after them. *)
Theorem leading_hashes_are_normalised :
  forall create_tables self fuel i n rest buffer,
    starts_with_hash rest = false ->
    text i = (hashes n ++ rest)%string ->
    format create_tables self (S fuel) (TalonComment i) buffer
    = Ok (Text "#" </> Words rest (Some false)) buffer
    /\ format create_tables self (S fuel) (TalonDocstring i) buffer
       = Ok (Text "###" </> Words rest (Some false)) buffer.
Proof.
  intros ct self fuel i n rest buffer Hrest Htext.
  cbn [format format_dispatch]. rewrite Htext.
  rewrite (lstrip_hash_hashes n rest Hrest). split; reflexivity.
Qed.

Lemma leading_hashes_witness :
  format keep_rows (Sample.options (PyBool false)) 1
    (TalonComment (Sample.leaf "## two" "comment" 0)) []
  = Ok (Text "#" </> Words " two" (Some false)) []
  /\ format keep_rows (Sample.options (PyBool false)) 1
       (TalonDocstring (Sample.leaf "## two" "comment" 0)) []
     = Ok (Text "###" </> Words " two" (Some false)) [].
Proof.
  apply (@leading_hashes_are_normalised keep_rows
           (Sample.options (PyBool false)) 0
           (Sample.leaf "## two" "comment" 0) 2 " two" []).
  - reflexivity.
  - reflexivity.
Defined.

(** X10.  The commands the source-file handler buffers for a table are
    the commands whose line offers the short layout: for a command that
    is formatted, [is_short_command] holds exactly when the second
    alternative of its line is not [Fail], and with
    [align_short_commands] set to [True] that alternative is then a row
    of kind ["command"] without minimum widths. *)
Theorem buffered_commands_offer_a_row :
  forall create_tables self fuel i children rule script buffer lines b',
    format_block create_tables self (S fuel)
      (TalonCommand i children rule script) buffer = Ok lines b' ->
    exists alt1 alt2,
      last lines Empty = Alt [alt1; alt2]
      /\ (is_short_command (TalonCommand i children rule script) = true
          <-> alt2 <> Fail)
      /\ (is_True (align_short_commands self) = true ->
          is_short_command (TalonCommand i children rule script) = true ->
          exists cells, alt2 = Row cells "command" []).
Proof.
  intros ct self fuel i children rule script buffer lines b' Hrun.
  cbn [format_block format_block_dispatch] in Hrun.
  unfold format_block_TalonCommand in Hrun.
  apply bind_Ok_inv in Hrun. destruct Hrun as (r & b1 & _ & Hrun).
  apply bind_Ok_inv in Hrun. destruct Hrun as (cms & b2 & _ & Hrun).
  apply bind_Ok_inv in Hrun. destruct Hrun as (s & b3 & _ & Hrun).
  apply ret_Ok_inv in Hrun. destruct Hrun as [<- _].
  eexists. eexists. split; [apply last_last|].
  unfold is_short_command. cbn [children_of script_children block_with_comments].
  rewrite length_app.
  destruct (length children + length (children_of script) =? 1)%nat.
  - split.
    + split; [intros _; apply format_short_command_not_Fail | reflexivity].
    + intros Htrue _. unfold format_short_command.
      destruct (align_short_commands self) as [[|]|z]; try discriminate.
      eexists. reflexivity.
  - split.
    + split; [discriminate | intros H; contradiction H; reflexivity].
    + intros _ Habs. discriminate.
Qed.

Lemma buffered_commands_witness :
  exists lines b',
    format_block keep_rows (Sample.options (PyBool true)) 6 Sample.foo_bar []
    = Ok lines b'
    /\ exists alt1 alt2,
         last lines Empty = Alt [alt1; alt2]
         /\ (is_short_command Sample.foo_bar = true <-> alt2 <> Fail)
         /\ (is_True (PyBool true) = true ->
             is_short_command Sample.foo_bar = true ->
             exists cells, alt2 = Row cells "command" []).
Proof.
  eexists. eexists. split; [vm_compute; reflexivity|].
  apply (@buffered_commands_offer_a_row keep_rows
           (Sample.options (PyBool true)) 5
           (Sample.leaf "foo" "command" 0) []
           (TalonRule (Sample.leaf "foo" "rule" 0)
              [TalonWord (Sample.leaf "foo" "word" 0)])
           (TalonBlock (Sample.leaf "foo" "block" 0) [Sample.call [] "bar"])
           [] _ []).
  vm_compute. reflexivity.
Defined.

Lemma body_lines_of_short_commands create_tables self format_block :
  is_True (align_short_commands self) = true ->
  forall children short_command_buffer buffer,
    forallb (fun child =>
               isinstance_TalonCommand child && is_short_command child)
      children = true ->
    body_lines create_tables self format_block children
      short_command_buffer buffer
    = (lines <- for_each format_block children ;;
       ret (clear_short_command_buffer create_tables
              (short_command_buffer ++ lines))) buffer.
Proof.
  intros Htrue.
  induction children as [|child rest IH]; intros scb buffer Hall.
  - simpl. rewrite Htrue. unfold bind, ret. rewrite app_nil_r. reflexivity.
  - simpl in Hall. apply andb_prop in Hall. destruct Hall as [Hchild Hrest].
    assert (Hcontext : isinstance_TalonContext child = false).
    { apply andb_prop in Hchild. destruct Hchild as [Hcmd _].
      destruct child; try discriminate; reflexivity. }
    simpl. rewrite Hcontext, Htrue, Hchild.
    rewrite bind_assoc. apply bind_ext. intros lines b.
    rewrite IH by assumption.
    rewrite bind_assoc. apply bind_ext. intros more b2.
    unfold bind, ret. rewrite app_assoc. reflexivity.
Qed.

(** X11.  With [align_short_commands] set to [True], a source file that
    holds short commands only puts out the separator and then what
    [create_tables] makes of the lines of all of them, handed over in
    one piece and in their order. *)
Theorem short_commands_share_one_table :
  forall create_tables self fuel i first rest buffer,
    is_True (align_short_commands self) = true ->
    forallb (fun child =>
               isinstance_TalonCommand child && is_short_command child)
      (first :: rest) = true ->
    format_block create_tables self (S fuel)
      (TalonSourceFile i (first :: rest)) buffer
    = (lines <- for_each (format_block create_tables self fuel)
                  (first :: rest) ;;
       ret (Text "-" :: clear_short_command_buffer create_tables lines))
        buffer.
Proof.
  intros ct self fuel i first rest buffer Htrue Hall.
  cbn [format_block format_block_dispatch].
  unfold format_block_TalonSourceFile.
  rewrite source_file_loop_in_header.
  assert (Hbody : isinstance_body_only first = true).
  { simpl in Hall. apply andb_prop in Hall. destruct Hall as [Hfirst _].
    apply andb_prop in Hfirst. destruct Hfirst as [Hcmd _].
    destruct first; try discriminate; reflexivity. }
  cbn [header_children body_children]. rewrite Hbody.
  cbn [header_lines]. rewrite bind_ret_l.
  unfold bind at 1.
  rewrite (body_lines_of_short_commands ct self _ Htrue _ _ _ Hall).
  unfold bind, ret.
  destruct (for_each _ (first :: rest) buffer); reflexivity.
Qed.

Lemma short_commands_share_one_table_witness :
  format_block keep_rows (Sample.options (PyBool true)) 7
    (TalonSourceFile (Sample.leaf "file" "source_file" 0)
       (Sample.foo_bar :: [Sample.command [] "baz" [Sample.call [] "qux"]]))
    []
  = (lines <- for_each
                (format_block keep_rows (Sample.options (PyBool true)) 6)
                (Sample.foo_bar
                 :: [Sample.command [] "baz" [Sample.call [] "qux"]]) ;;
     ret (Text "-" :: clear_short_command_buffer keep_rows lines)) [].
Proof.
  apply (short_commands_share_one_table keep_rows
           (Sample.options (PyBool true)) 6
           (Sample.leaf "file" "source_file" 0) Sample.foo_bar
           [Sample.command [] "baz" [Sample.call [] "qux"]] []).
  - reflexivity.
  - reflexivity.
Defined.

(** X12.  A context that comes after a body node is refused: when the
    first child of a source file is a tag include, a settings node or a
    command that is formatted, and the second is a context, formatting
    the file fails the assertion on [in_header]. *)
Theorem context_after_body_is_refused :
  forall create_tables self fuel i first ic context_children rest buffer
         lines b1,
    isinstance_body_only first = true ->
    format_block create_tables self fuel first buffer = Ok lines b1 ->
    format_block create_tables self (S fuel)
      (TalonSourceFile i (first :: TalonContext ic context_children :: rest))
      buffer
    = Raise (AssertionError EmptyString []).
Proof.
  intros ct self fuel i first ic cc rest buffer lines b1 Hbody Hfirst.
  destruct (body_only_is_no_comment first Hbody) as [Hcomment Hcontext].
  cbn [format_block format_block_dispatch].
  unfold format_block_TalonSourceFile.
  cbn [source_file_loop]. rewrite Hcomment, Hcontext, Hbody. simpl.
  destruct (is_True (align_short_commands self)).
  - destruct (isinstance_TalonCommand first && is_short_command first);
      unfold bind; rewrite Hfirst; reflexivity.
  - unfold bind. rewrite Hfirst. reflexivity.
Qed.

Lemma context_after_body_witness :
  format_block keep_rows (Sample.options (PyBool false)) 7
    (TalonSourceFile (Sample.leaf "file" "source_file" 0)
       (Sample.foo_bar
        :: TalonContext (Sample.leaf "context" "context" 0)
             [Sample.match_ [] "app" "x" 0]
        :: []))
    []
  = Raise (AssertionError EmptyString []).
Proof.
  eapply (@context_after_body_is_refused keep_rows
            (Sample.options (PyBool false)) 6
            (Sample.leaf "file" "source_file" 0) Sample.foo_bar
            (Sample.leaf "context" "context" 0)
            [Sample.match_ [] "app" "x" 0] [] []).
  - reflexivity.
  - vm_compute. reflexivity.
Defined.

Lemma store_comments_app {B} node_type (body : Node -> M (list B)) :
  forall pre rest buffer,
    store_comments node_type body (pre ++ rest) buffer
    = (ys <- store_comments node_type body pre ;;
       zs <- store_comments node_type body rest ;;
       ret (ys ++ zs)) buffer.
Proof.
  induction pre as [|child pre IH]; intros rest buffer; simpl.
  - rewrite bind_ret_l. unfold bind, ret.
    destruct (store_comments node_type body rest buffer); reflexivity.
  - destruct (isinstance_TalonComment child).
    + rewrite bind_assoc. apply bind_ext. intros [] b. apply IH.
    + destruct (node_type child); [|reflexivity].
      rewrite !bind_assoc. apply bind_ext. intros ys b.
      rewrite bind_assoc. unfold bind at 1. rewrite IH.
      unfold bind, ret.
      destruct (store_comments node_type body pre b); try reflexivity.
      destruct (store_comments node_type body rest buffer0); try reflexivity.
      rewrite app_assoc. reflexivity.
Qed.

(** X13.  An error node that a handler reaches through [format_children]
    or [get_node] does raise [ParseError] with that node: among the
    children of a rule, sequence, choice, argument list or string, once
    the children before it are formatted; and as the one non-comment
    child of a wrapper. *)
Theorem error_child_raises_ParseError :
  forall create_tables self fuel ie error_children,
    (forall pre rest buffer docs b1,
        format_children (format create_tables self (S fuel)) pre buffer
        = Ok docs b1 ->
        format_children (format create_tables self (S fuel))
          (pre ++ TalonError ie error_children :: rest) buffer
        = Raise (ParseError (TalonError ie error_children)))
    /\ (forall node children buffer,
           sole_child_request node = Some (children, isinstance_Node) ->
           non_comments children = [TalonError ie error_children] ->
           format create_tables self (S (S fuel)) node buffer
           = Raise (ParseError (TalonError ie error_children))).
Proof.
  intros ct self fuel ie ec. set (error := TalonError ie ec). split.
  - intros pre rest buffer docs b1 Hpre.
    unfold format_children in *. rewrite store_comments_app.
    unfold bind at 1. rewrite Hpre. reflexivity.
  - intros node children buffer Hreq Hsole.
    assert (Hget : get_node children buffer
                   = Ok error (buffer ++ comments_in children)).
    { assert (Htyped : well_typed_children isinstance_Node children)
        by (intros c _; right; reflexivity).
      unfold get_node, get_node_with_type, bind.
      rewrite (stored_well_typed _ Htyped). rewrite Hsole. reflexivity. }
    remember (S fuel) as fuel1 eqn:Hfuel1.
    destruct node; simpl in Hreq; try discriminate;
      injection Hreq; intros;
      try (exfalso;
           match goal with
           | Htype : isinstance_TalonBlock = isinstance_Node |- _ =>
               apply (f_equal (fun test => test error)) in Htype;
               discriminate
           end);
      subst children0; cbn [format format_dispatch];
      rewrite (bind_Ok _ _ _ Hget); subst fuel1; reflexivity.
Qed.

Section FalsyOptions.

Variable create_tables : list Doc -> list Doc.
Variables self self' : TalonFormatter.
Hypothesis same_indent : indent_size self = indent_size self'.
Hypothesis match_off : truthy (align_match_context self) = false.
Hypothesis match_off' : truthy (align_match_context self') = false.
Hypothesis short_off : truthy (align_short_commands self) = false.
Hypothesis short_off' : truthy (align_short_commands self') = false.

Lemma falsy_is_not_True (x : BoolOrInt) : truthy x = false -> is_True x = false.
Proof. destruct x as [[|]|n]; simpl; intros H; try discriminate; reflexivity. Qed.

Lemma format_short_command_off rule script :
  format_short_command self rule script
  = format_short_command self' rule script.
Proof.
  unfold format_short_command. rewrite short_off, short_off'. reflexivity.
Qed.

Lemma format_match_alternatives_off key pattern :
  format_match_alternatives self key pattern
  = format_match_alternatives self' key pattern.
Proof.
  unfold format_match_alternatives. rewrite match_off, match_off'.
  reflexivity.
Qed.

Lemma source_file_loop_off format format_block :
  forall children in_header cb scb buffer,
    source_file_loop create_tables self format format_block children
      in_header cb scb buffer
    = source_file_loop create_tables self' format format_block children
        in_header cb scb buffer.
Proof.
  pose proof (falsy_is_not_True _ short_off) as Hn.
  pose proof (falsy_is_not_True _ short_off') as Hn'.
  induction children as [|child rest IH]; intros in_header cb scb buffer;
    simpl; rewrite Hn, Hn'; [reflexivity|].
  destruct (in_header && isinstance_TalonComment child).
  - apply bind_ext. intros d b. apply IH.
  - destruct (isinstance_TalonContext child).
    + destruct in_header; [|reflexivity].
      apply bind_ext. intros lines b. apply bind_ext_l. apply IH.
    + apply bind_ext. intros lines b. apply bind_ext_l. apply IH.
Qed.

Lemma translator_off :
  forall fuel,
    format create_tables self fuel = format create_tables self' fuel
    /\ format_block create_tables self fuel
       = format_block create_tables self' fuel
    /\ format_block_match create_tables self fuel
       = format_block_match create_tables self' fuel.
Proof.
  induction fuel as [|fuel (IHf & IHb & IHm)].
  - repeat split; reflexivity.
  - repeat split.
    + extensionality node. simpl. rewrite IHf, IHb. reflexivity.
    + extensionality node. simpl. rewrite IHf, IHb, IHm.
      destruct node; try reflexivity; simpl.
      * extensionality buffer. apply source_file_loop_off.
      * unfold format_block_TalonSettings. rewrite same_indent. reflexivity.
      * unfold format_block_TalonCommand. rewrite same_indent.
        extensionality buffer.
        apply bind_ext. intros r b. apply bind_ext. intros cms b2.
        apply bind_ext. intros s b3.
        rewrite format_short_command_off. reflexivity.
    + extensionality node. simpl. rewrite IHf, IHb, IHm.
      destruct node; try reflexivity; simpl.
      unfold format_block_match_TalonMatch.
      extensionality ua. extensionality un. extensionality buffer.
      apply bind_ext. intros [] b. apply bind_ext. intros k b2.
      apply bind_ext. intros p b3.
      rewrite format_match_alternatives_off. reflexivity.
Qed.

End FalsyOptions.

(** X14.  An alignment option that is falsy -- [False] or the integer
    [0] -- switches alignment off, whichever of the two it is: two
    translators with the same indent whose options are all falsy format
    every tree to the same document. *)
Theorem falsy_options_format_alike :
  forall create_tables self self' fuel node buffer,
    indent_size self = indent_size self' ->
    truthy (align_match_context self) = false ->
    truthy (align_match_context self') = false ->
    truthy (align_short_commands self) = false ->
    truthy (align_short_commands self') = false ->
    format create_tables self fuel node buffer
    = format create_tables self' fuel node buffer.
Proof.
  intros ct self self' fuel node buffer Hi Hm Hm' Hs Hs'.
  destruct (translator_off ct self self' Hi Hm Hm' Hs Hs' fuel) as (Hf & _).
  rewrite Hf. reflexivity.
Qed.

Lemma falsy_options_witness :
  format keep_rows (mkTalonFormatter 4 (PyInt 0) (PyInt 0)) 9
    (Sample.source_file [Sample.context [Sample.and_group]; Sample.foo_bar])
    []
  = format keep_rows (mkTalonFormatter 4 (PyBool false) (PyBool false)) 9
      (Sample.source_file [Sample.context [Sample.and_group]; Sample.foo_bar])
      [].
Proof.
  apply (falsy_options_format_alike keep_rows
           (mkTalonFormatter 4 (PyInt 0) (PyInt 0))
           (mkTalonFormatter 4 (PyBool false) (PyBool false)) 9
           (Sample.source_file
              [Sample.context [Sample.and_group]; Sample.foo_bar]) []);
    reflexivity.
Defined.



(* ------------------------------------------------------------------ *)
(** ** The equivalence checks of [extra.py] *)

Lemma space_is_whitespace : is_whitespace " "%char = true.
Proof. reflexivity. Qed.

Lemma space_is_no_second_byte (a : ascii) :
  is_whitespace2 a " "%char = false.
Proof.
  unfold is_whitespace2. cbv zeta. change (nat_of_ascii " "%char) with 32%nat.
  destruct (nat_of_ascii a =? 194)%nat; reflexivity.
Qed.

Lemma space_is_no_middle_byte (a c : ascii) :
  is_whitespace3 a " "%char c = false.
Proof.
  unfold is_whitespace3. cbv zeta. change (nat_of_ascii " "%char) with 32%nat.
  destruct (nat_of_ascii a =? 225)%nat, (nat_of_ascii a =? 226)%nat,
    (nat_of_ascii a =? 227)%nat; reflexivity.
Qed.

Lemma space_is_no_third_byte (a b : ascii) :
  is_whitespace3 a b " "%char = false.
Proof.
  unfold is_whitespace3. cbv zeta. change (nat_of_ascii " "%char) with 32%nat.
  destruct (nat_of_ascii a =? 225)%nat, (nat_of_ascii a =? 226)%nat,
    (nat_of_ascii a =? 227)%nat, (nat_of_ascii b =? 154)%nat,
    (nat_of_ascii b =? 128)%nat, (nat_of_ascii b =? 129)%nat; reflexivity.
Qed.

(** One step of the scan. *)
Lemma collapse_list_step (in_run : bool) (a : ascii) (l1 : list ascii) :
  collapse_list in_run (a :: l1)
  = match after_whitespace (a :: l1) with
    | Some rest =>
        (if in_run then [] else [" "%char]) ++ collapse_list true rest
    | None => a :: collapse_list false l1
    end.
Proof.
  destruct l1 as [|b [|c l3]]; cbn [collapse_list after_whitespace].
  - destruct (is_whitespace a); reflexivity.
  - destruct (is_whitespace a); [reflexivity|].
    destruct (is_whitespace2 a b); reflexivity.
  - destruct (is_whitespace a); [reflexivity|].
    destruct (is_whitespace2 a b); [reflexivity|].
    destruct (is_whitespace3 a b c); reflexivity.
Qed.

Lemma after_whitespace_shorter (l rest : list ascii) :
  after_whitespace l = Some rest -> (length rest < length l)%nat.
Proof.
  destruct l as [|a [|b [|c l3]]]; cbn [after_whitespace]; intros H;
    try discriminate;
    repeat match type of H with
           | (if ?test then _ else _) = _ => destruct test
           end;
    try discriminate; inversion H; subst; simpl; lia.
Qed.

(** A character that is not whitespace is not turned into whitespace by
    what comes out behind it. *)
Lemma after_whitespace_None_stays (a : ascii) (l1 : list ascii) :
  after_whitespace (a :: l1) = None ->
  after_whitespace (a :: collapse_list false l1) = None.
Proof.
  intros H. destruct l1 as [|b l2]; [exact H|].
  cbn [after_whitespace] in H.
  destruct (is_whitespace a) eqn:Ha; [discriminate|].
  destruct (is_whitespace2 a b) eqn:Hab; [discriminate|].
  rewrite collapse_list_step.
  destruct (after_whitespace (b :: l2)) as [rest|].
  - cbn [app after_whitespace].
    rewrite Ha, space_is_no_second_byte.
    destruct (collapse_list true rest); [reflexivity|].
    rewrite space_is_no_middle_byte. reflexivity.
  - cbn [after_whitespace]. rewrite Ha, Hab.
    destruct l2 as [|c l3]; [reflexivity|].
    destruct (is_whitespace3 a b c) eqn:Habc; [discriminate|].
    rewrite collapse_list_step.
    destruct (after_whitespace (c :: l3)) as [rest|].
    + cbn [app]. rewrite space_is_no_third_byte. reflexivity.
    + rewrite Habc. reflexivity.
Qed.

Lemma collapse_list_twice (n : nat) :
  forall l,
    (length l <= n)%nat ->
    collapse_list false (collapse_list false l) = collapse_list false l
    /\ collapse_list true (collapse_list true l) = collapse_list true l.
Proof.
  induction n as [|n IH]; intros l Hlen.
  - destruct l; [split; reflexivity | simpl in Hlen; lia].
  - destruct l as [|a l1]; [split; reflexivity|].
    rewrite !(collapse_list_step _ a l1).
    destruct (after_whitespace (a :: l1)) as [rest|] eqn:Hw.
    + apply after_whitespace_shorter in Hw.
      destruct (IH rest ltac:(simpl in *; lia)) as [_ IHt].
      cbn [app]. split; [|exact IHt].
      rewrite collapse_list_step. cbn [after_whitespace].
      rewrite space_is_whitespace. cbn [app]. rewrite IHt. reflexivity.
    + destruct (IH l1 ltac:(simpl in *; lia)) as [IHf _].
      split; rewrite collapse_list_step;
        rewrite (after_whitespace_None_stays _ _ Hw), IHf; reflexivity.
Qed.

(** Whitespace of more than one byte is whitespace: a no-break space, a
    space and two em spaces are runs that collapse to one space each,
    and [strip] takes a no-break space and an em space off the ends. *)
Lemma whitespace_of_several_bytes :
  _collapse_whitespace
    ("a" ++ Sample.no_break_space ++ " b" ++ Sample.em_space
     ++ Sample.em_space ++ "c")
  = "a b c"
  /\ strip (Sample.no_break_space ++ " chrome" ++ Sample.em_space)
     = "chrome"
  /\ _TalonComment_assert_equivalent
       (Sample.comment ("# a" ++ Sample.no_break_space ++ "b") 1)
       (Sample.comment "# a b" 1)
     = Returns tt.
Proof. repeat split; reflexivity. Qed.

(** X16.  Collapsing whitespace twice is collapsing it once, whatever
    the whitespace characters of the text, of one byte or more. *)
Theorem collapse_whitespace_idempotent :
  forall text,
    _collapse_whitespace (_collapse_whitespace text)
    = _collapse_whitespace text.
Proof.
  intros text. unfold _collapse_whitespace.
  rewrite list_ascii_of_string_of_list_ascii.
  destruct (@collapse_list_twice _ _
              (le_n (length (list_ascii_of_string text)))) as [-> _].
  reflexivity.
Qed.

Lemma assert_returns (condition : bool) :
  assert condition = Returns tt <-> condition = true.
Proof. destruct condition; simpl; split; intros H; try discriminate; reflexivity. Qed.

Lemma comment_equivalent_iff (self other : Node) :
  _TalonComment_assert_equivalent self other = Returns tt
  <-> isinstance_TalonComment other = true
      /\ _collapse_whitespace (text (info self))
         = _collapse_whitespace (text (info other)).
Proof.
  unfold _TalonComment_assert_equivalent.
  destruct (isinstance_TalonComment other); simpl.
  - rewrite assert_returns, String.eqb_eq. tauto.
  - split; [discriminate | intros [H _]; discriminate].
Qed.

(** X17.  The check of comments is an equivalence on comments: a comment
    is equivalent to itself and to the comment with its whitespace
    collapsed, the check can be turned round, and it chains. *)
Theorem comment_equivalence :
  (forall i,
      _TalonComment_assert_equivalent (TalonComment i) (TalonComment i)
      = Returns tt)
  /\ (forall i k p q,
         _TalonComment_assert_equivalent (TalonComment i)
           (TalonComment (mkInfo (_collapse_whitespace (text i)) k p q))
         = Returns tt)
  /\ (forall i j,
         _TalonComment_assert_equivalent (TalonComment i) (TalonComment j)
         = Returns tt ->
         _TalonComment_assert_equivalent (TalonComment j) (TalonComment i)
         = Returns tt)
  /\ (forall a b c,
         _TalonComment_assert_equivalent a b = Returns tt ->
         _TalonComment_assert_equivalent b c = Returns tt ->
         _TalonComment_assert_equivalent a c = Returns tt).
Proof.
  split; [|split; [|split]].
  - intros i. apply comment_equivalent_iff. split; reflexivity.
  - intros i k p q. apply comment_equivalent_iff. split; [reflexivity|].
    simpl. symmetry. unfold _collapse_whitespace.
    rewrite list_ascii_of_string_of_list_ascii.
    destruct (@collapse_list_twice _ _
                (le_n (length (list_ascii_of_string (text i))))) as [-> _].
    reflexivity.
  - intros i j H. apply comment_equivalent_iff in H. destruct H as [_ H].
    apply comment_equivalent_iff. split; [reflexivity | symmetry; exact H].
  - intros a b c Hab Hbc.
    apply comment_equivalent_iff in Hab. destruct Hab as [_ Hab].
    apply comment_equivalent_iff in Hbc. destruct Hbc as [Hc Hbc].
    apply comment_equivalent_iff. split; [exact Hc|].
    rewrite Hab. exact Hbc.
Qed.

(** X18.  Two implicit strings that pass the check of [extra.py] are
    formatted to the same document: the formatter reads the text of an
    implicit string only after [strip]. *)
Theorem equivalent_implicit_strings_format_alike :
  forall create_tables self fuel i other buffer,
    _TalonImplicitString_assert_equivalent (TalonImplicitString i) other
    = Returns tt ->
    format create_tables self (S fuel) (TalonImplicitString i) buffer
    = format create_tables self (S fuel) other buffer.
Proof.
  intros ct self fuel i other buffer H.
  unfold _TalonImplicitString_assert_equivalent in H.
  destruct other; simpl in H; try discriminate.
  apply assert_returns in H. apply String.eqb_eq in H. simpl in H.
  cbn [format format_dispatch]. rewrite H. reflexivity.
Qed.

Lemma equivalent_implicit_strings_witness :
  format keep_rows (Sample.options (PyBool false)) 1
    (TalonImplicitString
       (Sample.leaf (Sample.no_break_space ++ " chrome ")
          "implicit_string" 0)) []
  = format keep_rows (Sample.options (PyBool false)) 1
      (TalonImplicitString (Sample.leaf "chrome" "implicit_string" 3)) [].
Proof.
  apply (@equivalent_implicit_strings_format_alike keep_rows
           (Sample.options (PyBool false)) 0
           (Sample.leaf (Sample.no_break_space ++ " chrome ")
              "implicit_string" 0)
           (TalonImplicitString (Sample.leaf "chrome" "implicit_string" 3))
           []).
  reflexivity.
Defined.

(* ------------------------------------------------------------------ *)
(** ** No comment is dropped *)

Lemma carries_ret {A} (a : A) (earlier : Node -> Prop)
  (pays : Node -> A -> Prop) :
  (forall c, isinstance_TalonComment c = true -> earlier c -> pays c a) ->
  carries (ret a) (owed [] earlier) pays.
Proof.
  intros Hpay buffer a' buffer' Hb Hrun.
  apply ret_Ok_inv in Hrun. destruct Hrun as [<- <-].
  split; [exact Hb|]. intros c Hc [[(m & [] & _) | He] | Hin].
  - left. apply Hpay; assumption.
  - right. exact Hin.
Qed.

Lemma carries_raise {A} (e : Exn) owes (pays : Node -> A -> Prop) :
  carries (raise e) owes pays.
Proof. intros buffer a buffer' _ Hrun. discriminate. Qed.

Lemma carries_weaken {A} (m : M A) (owes owes' : Node -> Prop)
  (pays pays' : Node -> A -> Prop) :
  carries m owes' pays' ->
  (forall c, isinstance_TalonComment c = true -> owes c -> owes' c) ->
  (forall c a, isinstance_TalonComment c = true -> pays' c a -> pays c a) ->
  carries m owes pays.
Proof.
  intros Hm Howes Hpays buffer a buffer' Hb Hrun.
  destruct (Hm buffer a buffer' Hb Hrun) as [Hb' Hall].
  split; [exact Hb'|]. intros c Hc [Ho | Hin].
  - destruct (Hall c Hc (or_introl (Howes c Hc Ho))) as [Hp | Hin'];
      [left; apply Hpays; assumption | right; exact Hin'].
  - destruct (Hall c Hc (or_intror Hin)) as [Hp | Hin'];
      [left; apply Hpays; assumption | right; exact Hin'].
Qed.

Lemma carries_weaken_owes {A} (m : M A) (owes owes' : Node -> Prop)
  (pays : Node -> A -> Prop) :
  carries m owes' pays ->
  (forall c, isinstance_TalonComment c = true -> owes c -> owes' c) ->
  carries m owes pays.
Proof.
  intros Hm Ho. eapply carries_weaken; [exact Hm | exact Ho | auto].
Qed.

(** The rule of sequencing: what [m] owes is [first], the rest is left
    to [k], with what the value of [m] pays. *)
Lemma carries_bind {A B} (m : M A) (k : A -> M B)
  (first rest : list Node) (earlier earlier1 earlier2 : Node -> Prop)
  (pays1 : Node -> A -> Prop) (pays : Node -> B -> Prop) :
  carries m (owed first earlier1) pays1 ->
  (forall a, carries (k a) (owed rest (fun c => earlier2 c \/ pays1 c a))
               pays) ->
  (forall c, earlier c -> earlier1 c \/ earlier2 c) ->
  carries (bind m k) (owed (first ++ rest) earlier) pays.
Proof.
  intros Hm Hk Hsplit buffer b buffer' Hb Hrun.
  apply bind_Ok_inv in Hrun. destruct Hrun as (a & b1 & Hma & Hka).
  destruct (Hm buffer a b1 Hb Hma) as [Hb1 Hall1].
  destruct (Hk a b1 b buffer' Hb1 Hka) as [Hb' Hall].
  split; [exact Hb'|]. intros c Hc Hc'.
  assert (Hmid : owed rest (fun c => earlier2 c \/ pays1 c a) c \/ In c b1).
  { assert (Hfirst : owed first earlier1 c \/ In c buffer ->
                     owed rest (fun c => earlier2 c \/ pays1 c a) c
                     \/ In c b1).
    { intros H. destruct (Hall1 c Hc H) as [Hp | Hin].
      - left. right. right. exact Hp.
      - right. exact Hin. }
    destruct Hc' as [[(x & Hx & Hr) | He] | Hin].
    - apply in_app_or in Hx. destruct Hx as [Hx | Hx].
      + apply Hfirst. left. left. exists x. split; assumption.
      + left. left. exists x. split; assumption.
    - destruct (Hsplit c He) as [H1 | H2].
      + apply Hfirst. left. right. exact H1.
      + left. right. left. exact H2.
    - apply Hfirst. right. exact Hin. }
  exact (Hall c Hc Hmid).
Qed.

Lemma carries_bind_app {A B} (m : M A) (k : A -> M B)
  (first rest : list Node) (earlier : Node -> Prop)
  (pays1 : Node -> A -> Prop) (pays : Node -> B -> Prop) :
  carries m (owed first nothing) pays1 ->
  (forall a, carries (k a) (owed rest (fun c => earlier c \/ pays1 c a))
               pays) ->
  carries (bind m k) (owed (first ++ rest) earlier) pays.
Proof.
  intros Hm Hk. eapply carries_bind; [exact Hm | exact Hk |].
  intros c He. right. exact He.
Qed.

Lemma carries_bind_one {A B} (m : M A) (k : A -> M B)
  (x : Node) (rest : list Node) (earlier : Node -> Prop)
  (pays1 : Node -> A -> Prop) (pays : Node -> B -> Prop) :
  carries m (owed [x] nothing) pays1 ->
  (forall a, carries (k a) (owed rest (fun c => earlier c \/ pays1 c a))
               pays) ->
  carries (bind m k) (owed (x :: rest) earlier) pays.
Proof. intros Hm Hk. exact (@carries_bind_app _ _ m k [x] _ _ _ _ Hm Hk). Qed.

Lemma carries_bind_none {A B} (m : M A) (k : A -> M B)
  (rest : list Node) (earlier : Node -> Prop)
  (pays1 : Node -> A -> Prop) (pays : Node -> B -> Prop) :
  carries m (owed [] nothing) pays1 ->
  (forall a, carries (k a) (owed rest (fun c => earlier c \/ pays1 c a))
               pays) ->
  carries (bind m k) (owed rest earlier) pays.
Proof. intros Hm Hk. exact (@carries_bind_app _ _ m k [] _ _ _ _ Hm Hk). Qed.

Lemma carries_bind_all {A B} (m : M A) (k : A -> M B)
  (nodes : list Node) (earlier : Node -> Prop)
  (pays1 : Node -> A -> Prop) (pays : Node -> B -> Prop) :
  carries m (owed nodes nothing) pays1 ->
  (forall a, carries (k a) (owed [] (fun c => earlier c \/ pays1 c a))
               pays) ->
  carries (bind m k) (owed nodes earlier) pays.
Proof.
  intros Hm Hk. rewrite <- (app_nil_r nodes).
  exact (@carries_bind_app _ _ m k nodes [] _ _ _ Hm Hk).
Qed.

Lemma carries_bind_last {A B} (m : M A) (k : A -> M B)
  (nodes : list Node) (earlier earlier1 earlier2 : Node -> Prop)
  (pays1 : Node -> A -> Prop) (pays : Node -> B -> Prop) :
  carries m (owed nodes earlier1) pays1 ->
  (forall a, carries (k a) (owed [] (fun c => earlier2 c \/ pays1 c a))
               pays) ->
  (forall c, earlier c -> earlier1 c \/ earlier2 c) ->
  carries (bind m k) (owed nodes earlier) pays.
Proof.
  intros Hm Hk Hsplit. rewrite <- (app_nil_r nodes).
  eapply carries_bind; [exact Hm | exact Hk | exact Hsplit].
Qed.

Lemma reached_comment (c : Node) (i : Info) :
  reached c (TalonComment i) -> c = TalonComment i.
Proof.
  intros H. inversion H as [|node m Hin _]; subst; [reflexivity|].
  destruct Hin.
Qed.

Lemma reached_below (c node : Node) :
  isinstance_TalonComment c = true ->
  isinstance_TalonComment node = false ->
  reached c node ->
  exists m, In m (visited node) /\ reached c m.
Proof.
  intros Hc Hnode H. inversion H as [|node' m Hin Hr]; subst.
  - rewrite Hc in Hnode. discriminate.
  - exists m. split; assumption.
Qed.

Lemma carries_at_visited {A} (m : M A) (node : Node)
  (pays : Node -> A -> Prop) :
  isinstance_TalonComment node = false ->
  carries m (owed (visited node) nothing) pays ->
  carries m (owed [node] nothing) pays.
Proof.
  intros Hnode Hm. eapply carries_weaken_owes; [exact Hm|].
  intros c Hc [(x & [<- | []] & Hr) | []].
  left. apply reached_below; assumption.
Qed.

Lemma only_comments_app (a b : list Node) :
  only_comments a -> only_comments b -> only_comments (a ++ b).
Proof. intros Ha Hb. apply Forall_app. split; assumption. Qed.

Lemma carries_for_each {A B} (body : A -> M (list B)) (xs : list A)
  (owes : A -> Node -> Prop) (shows : Node -> B -> Prop) :
  (forall x, In x xs ->
     carries (body x) (owes x)
       (fun c ys => exists y, In y ys /\ shows c y)) ->
  carries (for_each body xs)
    (fun c => exists x, In x xs /\ owes x c)
    (fun c ys => exists y, In y ys /\ shows c y).
Proof.
  induction xs as [|x rest IH]; intros Hbody buffer out buffer' Hb Hrun.
  - apply ret_Ok_inv in Hrun. destruct Hrun as [<- <-].
    split; [exact Hb|]. intros c Hc [(x & [] & _) | Hin]. right. exact Hin.
  - cbn [for_each] in Hrun.
    apply bind_Ok_inv in Hrun. destruct Hrun as (ys & b1 & Hx & Hrun).
    apply bind_Ok_inv in Hrun. destruct Hrun as (zs & b2 & Hrest & Hrun).
    apply ret_Ok_inv in Hrun. destruct Hrun as [<- <-].
    destruct (Hbody x (or_introl eq_refl) buffer ys b1 Hb Hx) as [Hb1 H1].
    destruct (IH (fun y Hy => Hbody y (or_intror Hy)) b1 zs b2 Hb1 Hrest)
      as [Hb2 H2].
    split; [exact Hb2|]. intros c Hc Hc'.
    assert (Hfirst : (exists y, In y ys /\ shows c y)
                     \/ (exists x', In x' rest /\ owes x' c) \/ In c b1).
    { destruct Hc' as [(x' & [<- | Hx'] & Ho) | Hin].
      - destruct (H1 c Hc (or_introl Ho)) as [Hp | Hin];
          [left; exact Hp | right; right; exact Hin].
      - right. left. exists x'. split; assumption.
      - destruct (H1 c Hc (or_intror Hin)) as [Hp | Hin'];
          [left; exact Hp | right; right; exact Hin']. }
    destruct Hfirst as [(y & Hy & Hs) | Hlater].
    + left. exists y. split; [apply in_or_app; left; exact Hy | exact Hs].
    + destruct (H2 c Hc Hlater) as [(y & Hy & Hs) | Hin].
      * left. exists y. split; [apply in_or_app; right; exact Hy | exact Hs].
      * right. exact Hin.
Qed.

Lemma carries_store_comments {B} node_type (body : Node -> M (list B))
  (children : list Node) (shows : Node -> B -> Prop) :
  (forall x, In x children -> node_type x = true ->
     carries (body x) (owed [x] nothing)
       (fun c ys => exists y, In y ys /\ shows c y)) ->
  carries (store_comments node_type body children)
    (owed children nothing)
    (fun c ys => exists y, In y ys /\ shows c y).
Proof.
  induction children as [|x rest IH]; intros Hbody buffer out buffer' Hb Hrun.
  - apply ret_Ok_inv in Hrun. destruct Hrun as [<- <-].
    split; [exact Hb|].
    intros c Hc [[(x & [] & _) | []] | Hin]. right. exact Hin.
  - cbn [store_comments] in Hrun.
    destruct (isinstance_TalonComment x) eqn:Hx.
    + apply bind_Ok_inv in Hrun. destruct Hrun as ([] & b1 & Hpush & Hrun).
      unfold append_comment in Hpush. inversion Hpush; subst; clear Hpush.
      assert (Hb1 : only_comments (buffer ++ [x])).
      { apply only_comments_app; [exact Hb|].
        constructor; [exact Hx | constructor]. }
      destruct (IH (fun y Hy => Hbody y (or_intror Hy)) _ _ _ Hb1 Hrun)
        as [Hb2 H2].
      split; [exact Hb2|]. intros c Hc Hc'.
      apply (H2 c Hc).
      destruct Hc' as [[(m & [<- | Hm] & Hr) | []] | Hin].
      * right. destruct (comment_inv x Hx) as [i ->].
        apply reached_comment in Hr. subst.
        apply in_or_app. right. left. reflexivity.
      * left. left. exists m. split; assumption.
      * right. apply in_or_app. left. exact Hin.
    + destruct (node_type x) eqn:Htype; [|discriminate].
      apply bind_Ok_inv in Hrun. destruct Hrun as (ys & b1 & Hys & Hrun).
      apply bind_Ok_inv in Hrun. destruct Hrun as (zs & b2 & Hzs & Hrun).
      apply ret_Ok_inv in Hrun. destruct Hrun as [<- <-].
      destruct (Hbody x (or_introl eq_refl) Htype buffer ys b1 Hb Hys)
        as [Hb1 H1].
      destruct (IH (fun y Hy => Hbody y (or_intror Hy)) b1 zs b2 Hb1 Hzs)
        as [Hb2 H2].
      split; [exact Hb2|]. intros c Hc Hc'.
      assert (Hfirst : (exists y, In y ys /\ shows c y)
                       \/ owed rest nothing c \/ In c b1).
      { destruct Hc' as [[(m & [<- | Hm] & Hr) | []] | Hin].
        - destruct (H1 c Hc (or_introl (or_introl
                     (ex_intro _ x (conj (or_introl eq_refl) Hr)))))
            as [Hp | Hin]; [left; exact Hp | right; right; exact Hin].
        - right. left. left. exists m. split; assumption.
        - destruct (H1 c Hc (or_intror Hin)) as [Hp | Hin'];
            [left; exact Hp | right; right; exact Hin']. }
      destruct Hfirst as [(y & Hy & Hs) | Hlater].
      * left. exists y. split; [apply in_or_app; left; exact Hy | exact Hs].
      * destruct (H2 c Hc Hlater) as [(y & Hy & Hs) | Hin].
        { left. exists y.
          split; [apply in_or_app; right; exact Hy | exact Hs]. }
        { right. exact Hin. }
Qed.

(** What [stored] hands over is reached from it, and has the type asked
    for. *)
Lemma carries_stored node_type (children : list Node) :
  carries (stored node_type children) (owed children nothing)
    (fun c rest => exists y, In y rest /\ reached c y /\ node_type y = true).
Proof.
  unfold stored.
  apply (carries_store_comments node_type (fun child => ret [child])
           children (fun c y => reached c y /\ node_type y = true)).
  intros x _ Htype buffer a buffer' Hb Hrun.
  apply ret_Ok_inv in Hrun. destruct Hrun as [<- <-].
  split; [exact Hb|]. intros c Hc [[(m & [<- | []] & Hr) | []] | Hin].
  - left. exists x. split; [left; reflexivity | split; assumption].
  - right. exact Hin.
Qed.

Lemma carries_assert_only_comments (children : list Node) :
  carries (assert_only_comments children) (owed children nothing)
    (fun _ _ => False).
Proof.
  intros buffer a buffer' Hb Hrun. unfold assert_only_comments in Hrun.
  apply bind_Ok_inv in Hrun. destruct Hrun as (rest & b1 & Hst & Hrun).
  destruct (@carries_stored _ children buffer rest b1 Hb Hst) as [Hb1 H1].
  destruct rest as [|x rest]; [|discriminate].
  apply ret_Ok_inv in Hrun. destruct Hrun as [_ <-].
  split; [exact Hb1|]. intros c Hc Hc'.
  destruct (H1 c Hc Hc') as [(y & [] & _) | Hin]. right. exact Hin.
Qed.

Lemma carries_get_node {B} (children : list Node) (node_type : Node -> bool)
  (k : Node -> M B) (rest : list Node) (earlier : Node -> Prop)
  (pays : Node -> B -> Prop) :
  (forall node, node_type node = true ->
     carries (k node) (owed (node :: rest) earlier) pays) ->
  carries (bind (get_node_with_type children node_type) k)
    (owed (children ++ rest) earlier) pays.
Proof.
  intros Hk buffer b buffer' Hb Hrun.
  apply bind_Ok_inv in Hrun. destruct Hrun as (node & b1 & Hget & Hrun).
  unfold get_node_with_type in Hget.
  apply bind_Ok_inv in Hget. destruct Hget as (found & b0 & Hst & Hget).
  destruct (@carries_stored _ children buffer found b0 Hb Hst) as [Hb0 H0].
  destruct found as [|x [|y more]]; try discriminate.
  apply ret_Ok_inv in Hget. destruct Hget as [-> ->].
  assert (Htype : node_type node = true).
  { (* the node is among what was stored *)
    clear - Hst. revert buffer b1 Hst.
    unfold stored.
    enough (H : forall children buffer found b1,
               store_comments node_type (fun child => ret [child]) children
                 buffer = Ok found b1 ->
               forall y, In y found -> node_type y = true).
    { intros buffer b1 Hst. apply (H _ _ _ _ Hst). left. reflexivity. }
    clear. induction children as [|x rest IH]; intros buffer found b1 Hrun.
    - apply ret_Ok_inv in Hrun. destruct Hrun as [<- _]. intros y [].
    - cbn [store_comments] in Hrun.
      destruct (isinstance_TalonComment x).
      + apply bind_Ok_inv in Hrun. destruct Hrun as (u & b2 & _ & Hrun).
        exact (IH _ _ _ Hrun).
      + destruct (node_type x) eqn:Hx; [|discriminate].
        apply bind_Ok_inv in Hrun. destruct Hrun as (ys & b2 & Hys & Hrun).
        apply bind_Ok_inv in Hrun. destruct Hrun as (zs & b3 & Hzs & Hrun).
        apply ret_Ok_inv in Hys. destruct Hys as [<- <-].
        apply ret_Ok_inv in Hrun. destruct Hrun as [<- _].
        intros y [<- | Hy]; [exact Hx | exact (IH _ _ _ Hzs y Hy)]. }
  destruct (Hk node Htype b1 b buffer' Hb0 Hrun) as [Hb' Hall].
  split; [exact Hb'|]. intros c Hc Hc'. apply (Hall c Hc).
  assert (Hfirst : owed children nothing c \/ In c buffer ->
                   owed (node :: rest) earlier c \/ In c b1).
  { intros H. destruct (H0 c Hc H) as [(y & [<- | []] & Hr & _) | Hin].
    - left. left. exists node. split; [left; reflexivity | exact Hr].
    - right. exact Hin. }
  destruct Hc' as [[(x & Hx & Hr) | He] | Hin].
  - apply in_app_or in Hx. destruct Hx as [Hx | Hx].
    + apply Hfirst. left. left. exists x. split; assumption.
    + left. left. exists x. split; [right; exact Hx | exact Hr].
  - left. right. exact He.
  - apply Hfirst. right. exact Hin.
Qed.

(** *** What a document shows *)

Lemma line_shows_nil (c : Node) : ~ line_shows c [].
Proof. intros (l & [] & _). Qed.

Lemma line_shows_cons (c : Node) (d : Doc) (lines : list Doc) :
  doc_shows c d \/ line_shows c lines -> line_shows c (d :: lines).
Proof.
  intros [H | (l & Hl & H)].
  - exists d. split; [left; reflexivity | exact H].
  - exists l. split; [right; exact Hl | exact H].
Qed.

Lemma line_shows_app (c : Node) (a b : list Doc) :
  line_shows c a \/ line_shows c b -> line_shows c (a ++ b).
Proof.
  intros [(l & Hl & H) | (l & Hl & H)]; exists l;
    (split; [apply in_or_app; auto | exact H]).
Qed.

Lemma Cat_shows (c : Node) (docs : list Doc) :
  line_shows c docs -> doc_shows c (Cat docs).
Proof. intros (l & Hl & H). eapply shown_Cat; [exact Hl | exact H]. Qed.

Lemma Nest_shows (c : Node) (indent : Z) (docs : list Doc) :
  line_shows c docs -> doc_shows c (Nest indent docs).
Proof. intros (l & Hl & H). eapply shown_Nest; [exact Hl | exact H]. Qed.

Lemma Row_shows (c : Node) (cells : list Doc) kind widths :
  line_shows c cells -> doc_shows c (Row cells kind widths).
Proof. intros (l & Hl & H). eapply shown_Row; [exact Hl | exact H]. Qed.

Lemma in_intersperse (sep d : Doc) (docs : list Doc) :
  In d docs -> In d (intersperse sep docs).
Proof.
  induction docs as [|x [|y rest] IH]; intros Hin; [destruct Hin | exact Hin |].
  cbn [intersperse]. destruct Hin as [<- | Hin]; [left; reflexivity|].
  right. right. exact (IH Hin).
Qed.

Lemma join_shows (c : Node) (sep : Doc) (docs : list Doc) :
  line_shows c docs -> doc_shows c (join sep docs).
Proof.
  intros (l & Hl & H).
  eapply shown_Cat; [apply in_intersperse; exact Hl | exact H].
Qed.

Lemma Alt_shows (c : Node) (first : Doc) (others : list Doc) :
  first <> Fail ->
  doc_shows c first ->
  Forall (fun d => d = Fail \/ doc_shows c d) others ->
  doc_shows c (Alt (first :: others)).
Proof.
  intros Hfirst H Hothers. apply shown_Alt.
  - intros d [<- | Hd]; [right; exact H|].
    rewrite Forall_forall in Hothers. exact (Hothers d Hd).
  - exists first. split; [left; reflexivity | exact Hfirst].
Qed.

(** Finds the part of the goal document that a hypothesis shows. *)
Ltac exhibit :=
  solve
    [ assumption
    | apply Cat_shows; exhibit
    | apply Nest_shows; exhibit
    | apply Row_shows; exhibit
    | apply join_shows; exhibit
    | apply line_shows_cons; first [left; exhibit | right; exhibit]
    | apply line_shows_app; first [left; exhibit | right; exhibit] ].

Ltac settle :=
  let c := fresh "c" in
  let Hc := fresh "Hc" in
  let He := fresh "He" in
  intros c Hc He; unfold nothing in He;
  repeat match goal with
         | H : _ \/ _ |- _ => destruct H
         | H : False |- _ => destruct H
         end;
  unfold slash, dslash, cat, nest, row, parens, braces, brackets, angles,
    double_quote;
  exhibit.

Ltac junk :=
  let c := fresh "c" in
  let H := fresh "H" in
  intros c _ [H | H];
  [ left; exact H
  | exfalso; unfold nothing in H;
    repeat match goal with
           | H : _ \/ _ |- _ => destruct H
           | H : False |- _ => destruct H
           end ].

Section CarriesHandlers.

Variable create_tables : list Doc -> list Doc.
Variable self : TalonFormatter.
Variable f : Node -> M Doc.
Variable fb : Node -> M (list Doc).
Variable fbm : Node -> bool -> bool -> M (list Doc).

Hypothesis Hct : keeps_rows create_tables.
Hypothesis Hf :
  forall node, carries (f node) (owed [node] nothing) doc_shows.
Hypothesis Hb :
  forall node, carries (fb node) (owed [node] nothing) line_shows.
Hypothesis Hm :
  forall node under_and under_not,
    carries (fbm node under_and under_not) (owed [node] nothing) line_shows.

Lemma carries_format_children (children : list Node) :
  carries (format_children f children) (owed children nothing) line_shows.
Proof.
  unfold format_children.
  apply (carries_store_comments isinstance_Node
           (fun child => d <- f child ;; ret [d]) children doc_shows).
  intros x _ _. eapply carries_bind_one; [apply Hf | intros d].
  apply carries_ret. settle.
Qed.

Lemma carries_get_formatted_comments :
  carries (get_formatted_comments f) (owed [] nothing) line_shows.
Proof.
  intros buffer docs buffer' Hbuf Hrun.
  unfold get_formatted_comments, bind, get_comments in Hrun.
  assert (Hloop :
            carries (for_each (fun comment => d <- f comment ;; ret [d])
                       buffer)
              (fun c => exists x, In x buffer /\ owed [x] nothing c)
              line_shows).
  { apply (carries_for_each (fun comment => d <- f comment ;; ret [d])
             buffer (fun x => owed [x] nothing) doc_shows).
    intros x _. eapply carries_bind_one; [apply Hf | intros d].
    apply carries_ret. settle. }
  destruct (Hloop [] docs buffer' (Forall_nil _) Hrun) as [Hb' Hall].
  split; [exact Hb'|]. intros c Hc [[(m & [] & _) | []] | Hin].
  apply (Hall c Hc). left. exists c. split; [exact Hin|].
  left. exists c. split; [left; reflexivity | apply reached_here].
Qed.

Lemma format_dispatch_carries (node : Node) :
  carries (format_dispatch f fb node) (owed [node] nothing) doc_shows.
Proof.
  destruct node; cbn [format_dispatch];
    first
      [ apply carries_raise
      | eapply carries_bind_one; [apply Hb | intros lines];
        apply carries_ret; settle
      | idtac ].
  all: try (apply carries_at_visited; [reflexivity|];
            cbn [visited subnodes children_of fields_of]).
  all: try (eapply carries_bind_app;
            [ apply carries_assert_only_comments | intros [] ]).
  all: try (eapply carries_bind_app;
            [ apply carries_format_children | intros docs ];
            apply carries_ret; settle).
  all: try (apply carries_get_node; intros child _).
  all: repeat (eapply carries_bind_one; [apply Hf | intros ?]).
  all: try (apply carries_ret; settle).
  all: try (eapply carries_weaken_owes; [apply Hf | junk]).
  - (* a comment is its own line *)
    intros buffer a buffer' Hbuf Hrun.
    apply ret_Ok_inv in Hrun. destruct Hrun as [<- <-].
    split; [exact Hbuf|].
    intros c Hc [[(m & [<- | []] & Hr) | []] | Hin]; [left | right; exact Hin].
    apply reached_comment in Hr. subst c. apply shown_here.
  - (* a regex escape sequence *)
    cbn [subnodes children_of fields_of].
    destruct children as [|child rest].
    + apply carries_ret. settle.
    + eapply carries_bind_app;
        [ apply carries_format_children | intros docs ].
      apply carries_ret. settle.
Qed.

Lemma carries_for_each_child (body : Node -> M (list Doc))
  (children : list Node) :
  (forall x, In x children ->
     carries (body x) (owed [x] nothing) line_shows) ->
  carries (for_each body children) (owed children nothing) line_shows.
Proof.
  intros Hbody.
  eapply carries_weaken_owes;
    [ apply (carries_for_each body children (fun x => owed [x] nothing)
               doc_shows); exact Hbody |].
  intros c _ [(m & Hin & Hr) | []]. exists m. split; [exact Hin|].
  left. exists m. split; [left; reflexivity | exact Hr].
Qed.

Lemma carries_get_comments :
  carries get_comments (owed [] nothing) (fun c comments => In c comments).
Proof.
  intros buffer a buffer' Hbuf Hrun. inversion Hrun; subst.
  split; [constructor|].
  intros c Hc [[(m & [] & _) | []] | Hin]. left. exact Hin.
Qed.

Lemma format_block_TalonContext_carries (children : list Node) :
  carries (format_block_TalonContext f fb children) (owed children nothing)
    line_shows.
Proof.
  apply carries_for_each_child. intros child _.
  eapply carries_bind_one; [apply Hb | intros lines].
  eapply carries_bind_none;
    [ apply carries_get_formatted_comments | intros comments ].
  apply carries_ret. settle.
Qed.

Lemma format_block_TalonBlock_carries (children : list Node) :
  carries (format_block_TalonBlock f fb children) (owed children nothing)
    line_shows.
Proof.
  apply carries_for_each_child. intros child _.
  eapply carries_bind_one; [apply Hb | intros lines].
  eapply carries_weaken_owes.
  - apply (carries_for_each
             (fun line =>
                comments <- get_formatted_comments f ;;
                ret (comments ++ [line]))
             lines (fun line c => doc_shows c line) doc_shows).
    intros line _.
    apply (@carries_weaken_owes _ _ _
             (owed [] (fun c => doc_shows c line))).
    + eapply carries_bind_none;
        [ apply carries_get_formatted_comments | intros comments ].
      apply carries_ret. settle.
    + intros c _ H. right. exact H.
  - intros c _ [(m & [] & _) | [[] | H]]. exact H.
Qed.

Lemma reached_built_block (c : Node) (comments : list Node) (block : Node) :
  (exists m, In m (comments ++ children_of block) /\ reached c m) ->
  reached c (block_with_comments comments block).
Proof.
  intros (m & Hin & Hr). apply (@reached_sub c _ m); [|exact Hr].
  unfold block_with_comments, visited, subnodes. simpl.
  rewrite app_nil_r. exact Hin.
Qed.

Lemma format_block_TalonSettings_carries (children : list Node) :
  carries (format_block_TalonSettings self f children)
    (owed (children ++ []) nothing) line_shows.
Proof.
  unfold format_block_TalonSettings.
  apply carries_get_node. intros block Hblock.
  eapply carries_bind_none; [apply carries_get_comments | intros comments].
  cbv zeta.
  apply (@carries_weaken_owes _ _ _
           (owed [block_with_comments comments block] nothing)).
  - eapply carries_bind_one; [apply Hf | intros b].
    apply carries_ret. settle.
  - intros c Hc H. left. exists (block_with_comments comments block).
    split; [left; reflexivity|]. apply reached_built_block.
    destruct H as [(m & [<- | []] & Hr) | [[] | Hin]].
    + destruct (@reached_below c block Hc) as (x & Hx & Hrx);
        [ destruct block; try discriminate; reflexivity | exact Hr |].
      exists x. split; [|exact Hrx]. apply in_or_app. right.
      destruct block; try discriminate.
      unfold visited, subnodes in Hx. simpl in Hx.
      rewrite app_nil_r in Hx. exact Hx.
    + exists c. split; [apply in_or_app; left; exact Hin | apply reached_here].
Qed.

Lemma format_short_command_shows (c : Node) (rule script : Doc) :
  doc_shows c rule \/ doc_shows c script ->
  doc_shows c (format_short_command self rule script).
Proof.
  intros H. unfold format_short_command.
  destruct (truthy (align_short_commands self));
    [destruct (is_True (align_short_commands self))|];
    unfold row, slash, dslash; destruct H; exhibit.
Qed.

Lemma format_block_TalonCommand_carries (children : list Node)
  (rule script : Node) :
  carries (format_block_TalonCommand self f children rule script)
    (owed (rule :: children ++ children_of script) nothing) line_shows.
Proof.
  unfold format_block_TalonCommand.
  eapply carries_bind_one; [apply Hf | intros r].
  eapply carries_bind_none;
    [ apply carries_get_formatted_comments | intros comments ].
  cbv zeta.
  apply (@carries_weaken_owes _ _ _
           (owed [block_with_comments children script]
              (fun c => (nothing c \/ doc_shows c r)
                        \/ line_shows c comments))).
  - eapply carries_bind_one; [apply Hf | intros s].
    apply carries_ret. intros c Hc He.
    assert (Hline :
              doc_shows c r \/ doc_shows c s ->
              line_shows c
                (comments
                 ++ [Alt [cat [r </> Text ":";
                               nest (indent_size self) [Line; s; Line]];
                          if (length (children_of
                                        (block_with_comments children script))
                              =? 1)%nat
                          then format_short_command self r s else Fail]])).
    { intros H. apply line_shows_app. right. apply line_shows_cons. left.
      apply Alt_shows.
      - discriminate.
      - unfold cat, nest, slash. destruct H; exhibit.
      - constructor; [|constructor].
        destruct (length _ =? 1)%nat; [right | left; reflexivity].
        apply format_short_command_shows. exact H. }
    destruct He as [[[[] | Hr] | Hcomments] | Hs].
    + apply Hline. left. exact Hr.
    + apply line_shows_app. left. exact Hcomments.
    + apply Hline. right. exact Hs.
  - intros c Hc [(m & Hin & Hr) | He]; [left | right; exact He].
    exists (block_with_comments children script).
    split; [left; reflexivity|]. apply reached_built_block.
    exists m. split; assumption.
Qed.

Lemma format_block_TalonIncludeTag_carries (children : list Node)
  (tag : Node) :
  carries (format_block_TalonIncludeTag f children tag)
    (owed (children ++ [tag]) nothing) line_shows.
Proof.
  unfold format_block_TalonIncludeTag.
  eapply carries_bind_app; [apply carries_assert_only_comments | intros []].
  eapply carries_bind_none;
    [ apply carries_get_formatted_comments | intros comments ].
  eapply carries_bind_one; [apply Hf | intros t].
  apply carries_ret. settle.
Qed.

Lemma format_block_TalonAssignment_carries (children : list Node)
  (lhs rhs : Node) :
  carries (format_block_TalonAssignment f children lhs rhs)
    (owed (children ++ [lhs; rhs]) nothing) line_shows.
Proof.
  unfold format_block_TalonAssignment.
  eapply carries_bind_app; [apply carries_assert_only_comments | intros []].
  eapply carries_bind_one; [apply Hf | intros l].
  eapply carries_bind_one; [apply Hf | intros r].
  apply carries_ret. settle.
Qed.

Lemma format_block_TalonExpression_carries (children : list Node)
  (expression : Node) :
  carries (format_block_TalonExpression f children expression)
    (owed (children ++ [expression]) nothing) line_shows.
Proof.
  unfold format_block_TalonExpression.
  eapply carries_bind_app; [apply carries_assert_only_comments | intros []].
  eapply carries_bind_one; [apply Hf | intros e].
  apply carries_ret. settle.
Qed.

Lemma clear_shows (c : Node) (rows : list Doc) :
  line_shows c rows ->
  line_shows c (clear_short_command_buffer create_tables rows).
Proof.
  intros (l & Hl & H). unfold clear_short_command_buffer.
  destruct rows as [|row rows]; [destruct Hl|].
  destruct (Hct _ Hl H) as (l' & Hl' & H').
  exists l'. split; assumption.
Qed.

(** Settles a goal about what the lines put out exhibit, from what the
    pieces exhibit. *)
Ltac pay :=
  solve
    [ assumption
    | reflexivity
    | discriminate
    | apply clear_shows; pay
    | apply line_shows_cons; first [left; pay | right; pay]
    | apply line_shows_app; first [left; pay | right; pay]
    | split; pay
    | left; pay
    | right; pay ].

Ltac cases :=
  repeat match goal with
         | H : _ \/ _ |- _ => destruct H
         | H : _ /\ _ |- _ => destruct H
         | H : nothing _ |- _ => destruct H
         | H : False |- _ => destruct H
         end.

Lemma source_file_loop_carries (children : list Node) :
  forall in_header comment_buffer short_command_buffer,
    carries
      (source_file_loop create_tables self f fb children in_header
         comment_buffer short_command_buffer)
      (owed children
         (fun c =>
            (in_header = true /\ line_shows c comment_buffer)
            \/ (is_True (align_short_commands self) = true
                /\ line_shows c short_command_buffer)))
      line_shows.
Proof.
  induction children as [|child rest IH]; intros in_header cb scb;
    cbn [source_file_loop].
  - apply carries_ret.
    intros c Hc [[-> H] | [-> H]]; cbv beta iota zeta; pay.
  - destruct (in_header && isinstance_TalonComment child) eqn:Hhead.
    { apply andb_prop in Hhead. destruct Hhead as [-> _].
      eapply carries_bind_one; [apply Hf | intros d].
      eapply carries_weaken_owes; [apply IH|].
      intros c Hc [H | H]; [left; exact H | right]. cases; pay. }
    destruct (isinstance_TalonContext child).
    { destruct in_header; [|apply carries_raise].
      eapply carries_bind_one; [apply Hb | intros lines].
      eapply carries_bind_last
        with (earlier2 := fun c => line_shows c cb \/ line_shows c lines);
        [ apply IH
        | intros more; apply carries_ret; intros c Hc He; cases;
          cbv beta iota zeta; pay
        | intros c He; cases; pay ]. }
    cbv zeta.
    destruct (is_True (align_short_commands self)) eqn:Htables;
      [destruct (isinstance_TalonCommand child && is_short_command child)|];
      (eapply carries_bind_one; [apply Hb | intros lines]);
      destruct (in_header && isinstance_body_only child) eqn:Hends;
      try (apply andb_prop in Hends; destruct Hends as [-> _]).
    + eapply carries_bind_last
        with (earlier2 := fun c => line_shows c (Text "-" :: cb));
        [ apply IH
        | intros more; apply carries_ret; intros c Hc He; cases;
          cbv beta iota zeta; pay
        | intros c He; rewrite ?Htables; cases; pay ].
    + eapply carries_bind_last with (earlier2 := nothing);
        [ apply IH
        | intros more; apply carries_ret; intros c Hc He; cases;
          cbv beta iota zeta; pay
        | intros c He; rewrite ?Htables; cases; pay ].
    + eapply carries_bind_last
        with (earlier2 :=
                fun c => line_shows c (Text "-" :: cb)
                         \/ line_shows c scb \/ line_shows c lines);
        [ apply IH
        | intros more; apply carries_ret; intros c Hc He; cases;
          cbv beta iota zeta; pay
        | intros c He; cases; pay ].
    + eapply carries_bind_last
        with (earlier2 :=
                fun c => line_shows c scb \/ line_shows c lines);
        [ apply IH
        | intros more; apply carries_ret; intros c Hc He; cases;
          cbv beta iota zeta; pay
        | intros c He; rewrite ?Htables; cases; pay ].
    + eapply carries_bind_last
        with (earlier2 :=
                fun c => line_shows c (Text "-" :: cb)
                         \/ line_shows c lines);
        [ apply IH
        | intros more; apply carries_ret; intros c Hc He; cases;
          cbv beta iota zeta; pay
        | intros c He; cases; pay ].
    + eapply carries_bind_last
        with (earlier2 := fun c => line_shows c lines);
        [ apply IH
        | intros more; apply carries_ret; intros c Hc He; cases;
          cbv beta iota zeta; pay
        | intros c He; rewrite ?Htables; cases; pay ].
Qed.

Lemma format_block_match_TalonAnd_carries (children : list Node) :
  forall under_and under_not,
    carries (format_block_match_TalonAnd fb fbm children under_and under_not)
      (owed children nothing) line_shows.
Proof.
  induction children as [|child rest IH]; intros under_and under_not;
    cbn [format_block_match_TalonAnd].
  - apply carries_ret. settle.
  - destruct (isinstance_TalonComment child);
      (eapply carries_bind_one; [first [apply Hb | apply Hm] | intros lines]);
      (eapply carries_bind_all; [apply IH | intros more]);
      apply carries_ret; settle.
Qed.

Lemma format_block_match_TalonNot_carries (children : list Node) :
  forall under_and under_not,
    carries (format_block_match_TalonNot fb fbm children under_and under_not)
      (owed children nothing) line_shows.
Proof.
  induction children as [|child rest IH]; intros under_and under_not;
    cbn [format_block_match_TalonNot].
  - apply carries_ret. settle.
  - destruct (isinstance_TalonComment child);
      (eapply carries_bind_one; [first [apply Hb | apply Hm] | intros lines]);
      (eapply carries_bind_all; [apply IH | intros more]);
      apply carries_ret; settle.
Qed.

Lemma format_block_match_TalonOr_carries (children : list Node)
  (under_and under_not : bool) :
  carries (format_block_match_TalonOr f fb fbm children under_and under_not)
    (owed children nothing) line_shows.
Proof.
  apply carries_for_each_child. intros child _.
  destruct (isinstance_TalonComment child); [apply Hb|].
  eapply carries_bind_one; [apply Hm | intros lines].
  eapply carries_bind_none;
    [ apply carries_get_formatted_comments | intros comments ].
  apply carries_ret. settle.
Qed.

Lemma match_line_shows (c : Node) (under_and under_not : bool) (k p : Doc) :
  doc_shows c k \/ doc_shows c p ->
  line_shows c
    [alt (format_match_alternatives self
            (cat (format_match_keywords under_and under_not ++ [k])) p)].
Proof.
  intros H.
  assert (Hkey : doc_shows c
                   (cat (format_match_keywords under_and under_not ++ [k]))
                 \/ doc_shows c p).
  { destruct H as [H | H]; [left | right; exact H].
    apply Cat_shows. apply line_shows_app. right.
    apply line_shows_cons. left. exact H. }
  clear H.
  set (key := cat (format_match_keywords under_and under_not ++ [k])) in *.
  apply line_shows_cons. left.
  unfold alt, format_match_alternatives. cbn [app].
  apply Alt_shows.
  - discriminate.
  - unfold slash, dslash. destruct Hkey; exhibit.
  - destruct (truthy (align_match_context self));
      [destruct (is_True (align_match_context self))|];
      first
        [ apply Forall_nil
        | apply Forall_cons;
          [ right; unfold row, slash; destruct Hkey; exhibit
          | apply Forall_nil ] ].
Qed.

Lemma format_block_match_TalonMatch_carries (children : list Node)
  (key pattern : Node) (under_and under_not : bool) :
  carries
    (format_block_match_TalonMatch self f children key pattern under_and
       under_not)
    (owed (children ++ [key; pattern]) nothing) line_shows.
Proof.
  unfold format_block_match_TalonMatch.
  eapply carries_bind_app; [apply carries_assert_only_comments | intros []].
  cbv zeta.
  eapply carries_bind_one; [apply Hf | intros k].
  eapply carries_bind_one; [apply Hf | intros p].
  apply carries_ret. intros c Hc He. apply match_line_shows.
  cases; [left | right]; assumption.
Qed.

Lemma format_block_match_dispatch_carries (node : Node)
  (under_and under_not : bool) :
  carries
    (format_block_match_dispatch self f fb fbm node under_and under_not)
    (owed [node] nothing) line_shows.
Proof.
  destruct node; cbn [format_block_match_dispatch];
    try apply carries_raise;
    (apply carries_at_visited; [reflexivity|]);
    unfold visited, subnodes; cbn [children_of fields_of];
    rewrite ?app_nil_r.
  - apply format_block_match_TalonAnd_carries.
  - apply format_block_match_TalonNot_carries.
  - apply format_block_match_TalonOr_carries.
  - apply format_block_match_TalonMatch_carries.
Qed.

Lemma format_block_dispatch_carries (node : Node) :
  carries (format_block_dispatch create_tables self f fb fbm node)
    (owed [node] nothing) line_shows.
Proof.
  destruct node; cbn [format_block_dispatch];
    first
      [ apply carries_raise
      | apply Hm
      | eapply carries_bind_one; [apply Hf | intros d];
        apply carries_ret; settle
      | idtac ];
    (apply carries_at_visited; [reflexivity|]);
    unfold visited, subnodes; cbn [children_of fields_of].
  - (* source file *)
    rewrite app_nil_r. unfold format_block_TalonSourceFile.
    eapply carries_weaken_owes; [apply source_file_loop_carries|].
    intros c _ [H | []]. left. exact H.
  - rewrite app_nil_r. apply format_block_TalonContext_carries.
  - apply format_block_TalonIncludeTag_carries.
  - apply format_block_TalonSettings_carries.
  - apply format_block_TalonCommand_carries.
  - rewrite app_nil_r. apply format_block_TalonBlock_carries.
  - apply format_block_TalonAssignment_carries.
  - apply format_block_TalonExpression_carries.
Qed.

End CarriesHandlers.

(** Whatever the fuel, the three methods carry the comments they reach. *)
Lemma translator_carries create_tables self :
  keeps_rows create_tables ->
  forall fuel,
    (forall node,
        carries (format create_tables self fuel node) (owed [node] nothing)
          doc_shows)
    /\ (forall node,
           carries (format_block create_tables self fuel node)
             (owed [node] nothing) line_shows)
    /\ (forall node under_and under_not,
           carries
             (format_block_match create_tables self fuel node under_and
                under_not)
             (owed [node] nothing) line_shows).
Proof.
  intros Hct. induction fuel as [|fuel (Hf & Hb & Hm)].
  - split; [|split]; intros; intros buffer a buffer' _ Hrun; discriminate.
  - split; [|split]; intros;
      cbn [format format_block format_block_match].
    + apply format_dispatch_carries; assumption.
    + apply format_block_dispatch_carries; assumption.
    + apply format_block_match_dispatch_carries; assumption.
Qed.

Lemma height_subnode (node m : Node) :
  In m (subnodes node) -> height m < height node.
Proof.
  unfold subnodes. intros Hin. apply in_app_or in Hin.
  destruct node; cbn [children_of fields_of] in Hin;
    destruct Hin as [Hin | Hin];
    try (destruct Hin; fail);
    try (apply height_child in Hin; cbn [height]; lia);
    cbn [In] in Hin; cbn [height];
    repeat match goal with
           | H : _ \/ _ |- _ => destruct H
           | H : False |- _ => destruct H
           end;
    subst; lia.
Qed.

Lemma scripts_are_blocks_subnode (node m : Node) :
  scripts_are_blocks node = true ->
  In m (subnodes node) ->
  scripts_are_blocks m = true.
Proof.
  unfold subnodes. intros Hok Hin. apply in_app_or in Hin.
  destruct node; cbn [children_of fields_of] in Hin;
    cbn [scripts_are_blocks] in Hok;
    repeat match goal with
           | H : _ && _ = true |- _ =>
               apply andb_prop in H; destruct H
           end;
    destruct Hin as [Hin | Hin];
    try (destruct Hin; fail);
    try (match goal with
         | H : forallb _ _ = true |- _ =>
             rewrite forallb_forall in H; exact (H m Hin)
         end);
    cbn [In] in Hin;
    repeat match goal with
           | H : _ \/ _ |- _ => destruct H
           | H : False |- _ => destruct H
           end;
    subst; assumption.
Qed.

(** In a tree whose scripts are blocks, the handlers read every comment
    of the tree. *)
Lemma inside_reached (n : nat) :
  forall node c,
    height node <= n ->
    scripts_are_blocks node = true ->
    isinstance_TalonComment c = true ->
    inside c node ->
    reached c node.
Proof.
  induction n as [|n IH]; intros node c Hheight Hok Hc Hinside.
  - inversion Hinside as [|node' m Hin Hm]; subst; [apply reached_here|].
    apply height_subnode in Hin. lia.
  - inversion Hinside as [|node' m Hin Hm]; subst; [apply reached_here|].
    assert (Hbelow : forall x, In x (subnodes node) ->
                               inside c x -> reached c x).
    { intros x Hx Hcx. apply IH; try assumption.
      - apply height_subnode in Hx. lia.
      - exact (scripts_are_blocks_subnode node x Hok Hx). }
    destruct node;
      try (apply (@reached_sub c _ m); [exact Hin | exact (Hbelow m Hin Hm)]).
    (* a command: the script is read through its children *)
    unfold subnodes in Hin. cbn [children_of fields_of] in Hin.
    apply in_app_or in Hin.
    destruct Hin as [Hin | [<- | [<- | []]]].
    + apply (@reached_sub c _ m); [|apply Hbelow; [|exact Hm]].
      * cbn [visited]. right. apply in_or_app. left. exact Hin.
      * unfold subnodes. apply in_or_app. left. exact Hin.
    + apply (@reached_sub c _ node1); [left; reflexivity|].
      apply Hbelow; [|exact Hm].
      unfold subnodes. apply in_or_app. right. left. reflexivity.
    + cbn [scripts_are_blocks] in Hok.
      repeat match goal with
             | H : _ && _ = true |- _ => apply andb_prop in H; destruct H
             end.
      inversion Hm as [|node' x Hx Hcx]; subst.
      { destruct node2; discriminate. }
      apply (@reached_sub c _ x).
      * cbn [visited]. right. apply in_or_app. right.
        destruct node2; try discriminate.
        unfold subnodes in Hx. cbn [children_of fields_of] in Hx.
        rewrite app_nil_r in Hx. exact Hx.
      * apply IH; try assumption.
        -- apply height_subnode in Hx.
           assert (height node2
                   < height (TalonCommand i children node1 node2))
             by (apply height_subnode; unfold subnodes;
                 apply in_or_app; right; right; left; reflexivity).
           lia.
        -- exact (scripts_are_blocks_subnode node2 x ltac:(assumption) Hx).
Qed.

(** X19.  No comment is lost on the way.  When a node of a tree whose
    scripts are blocks is formatted, by any of the three methods, every
    comment of the node, and every comment that was in the buffer, has
    its line in the document that comes out, or is in the buffer that is
    left -- provided [create_tables] keeps what its rows exhibit. *)
Theorem comments_are_shown_or_kept :
  forall create_tables self fuel node buffer c,
    keeps_rows create_tables ->
    scripts_are_blocks node = true ->
    only_comments buffer ->
    isinstance_TalonComment c = true ->
    inside c node \/ In c buffer ->
    (forall d b',
        format create_tables self fuel node buffer = Ok d b' ->
        doc_shows c d \/ In c b')
    /\ (forall lines b',
           format_block create_tables self fuel node buffer = Ok lines b' ->
           line_shows c lines \/ In c b')
    /\ (forall under_and under_not lines b',
           format_block_match create_tables self fuel node under_and
             under_not buffer = Ok lines b' ->
           line_shows c lines \/ In c b').
Proof.
  intros ct self fuel node buffer c Hct Hok Hbuf Hc Hwhere.
  assert (Howed : owed [node] nothing c \/ In c buffer).
  { destruct Hwhere as [Hin | Hin]; [left | right; exact Hin].
    left. exists node. split; [left; reflexivity|].
    exact (inside_reached (Nat.le_refl _) Hok Hc Hin). }
  destruct (@translator_carries ct self Hct fuel) as (Hf & Hb & Hm).
  split; [|split]; intros.
  - exact (proj2 (Hf node buffer _ _ Hbuf H) c Hc Howed).
  - exact (proj2 (Hb node buffer _ _ Hbuf H) c Hc Howed).
  - exact (proj2 (Hm node _ _ buffer _ _ Hbuf H) c Hc Howed).
Qed.

Lemma keep_rows_keeps : keeps_rows keep_rows.
Proof. intros rows l x Hl H. exists l. split; assumption. Qed.

Lemma comments_are_shown_or_kept_witness :
  let node := Sample.foo_note_bar in
  exists lines,
    format_block keep_rows (Sample.options (PyBool true)) 20 node []
    = Ok lines []
    /\ line_shows (Sample.comment "# note" 1) lines.
Proof.
  intros node. eexists. split; [vm_compute; reflexivity|].
  destruct (@comments_are_shown_or_kept keep_rows
              (Sample.options (PyBool true)) 20 node []
              (Sample.comment "# note" 1) keep_rows_keeps eq_refl
              (Forall_nil _) eq_refl) as (_ & Hblock & _).
  - left. eapply inside_sub; [right; left; reflexivity|].
    eapply inside_sub; [left; reflexivity | apply inside_here].
  - destruct (Hblock _ [] eq_refl) as [H | []]. exact H.
Defined.

(** X20.  A source file loses no comment.  In a source file whose
    children are comments, a context, tag includes naming an identifier,
    settings and commands, and whose scripts are blocks, the line of
    every comment of the tree is part of a line that is put out. *)
Theorem source_file_shows_every_comment :
  forall create_tables self fuel i children lines b' c,
    keeps_rows create_tables ->
    forallb top_level children = true ->
    scripts_are_blocks (TalonSourceFile i children) = true ->
    format_block create_tables self (S fuel) (TalonSourceFile i children) []
    = Ok lines b' ->
    isinstance_TalonComment c = true ->
    inside c (TalonSourceFile i children) ->
    line_shows c lines.
Proof.
  intros ct self fuel i children lines b' c Hct Htop Hok Hrun Hc Hin.
  assert (Hempty : b' = []).
  { cbn [format_block format_block_dispatch] in Hrun.
    exact (source_file_loop_drains _ _ _ _ _ _ _ Htop Hrun). }
  destruct (@translator_carries ct self Hct (S fuel)) as (_ & Hb & _).
  destruct (proj2 (Hb _ [] _ _ (Forall_nil _) Hrun) c Hc) as [H | H].
  - left. left. exists (TalonSourceFile i children).
    split; [left; reflexivity|].
    exact (inside_reached (Nat.le_refl _) Hok Hc Hin).
  - exact H.
  - rewrite Hempty in H. destruct H.
Qed.

Lemma source_file_shows_every_comment_witness :
  exists lines,
    format_block keep_rows (Sample.options (PyBool true)) 20
      (Sample.source_file [Sample.c1; Sample.foo_note_bar]) []
    = Ok lines []
    /\ line_shows Sample.c1 lines
    /\ line_shows (Sample.comment "# note" 1) lines.
Proof.
  eexists. split; [vm_compute; reflexivity|].
  split;
    eapply (@source_file_shows_every_comment keep_rows
              (Sample.options (PyBool true)) 19
              (Sample.leaf "file" "source_file" 0)
              [Sample.c1; Sample.foo_note_bar] _ [] _ keep_rows_keeps
              eq_refl eq_refl);
    try (vm_compute; reflexivity).
  - eapply inside_sub; [left; reflexivity | apply inside_here].
  - eapply inside_sub; [right; left; reflexivity|].
    eapply inside_sub; [right; left; reflexivity|].
    eapply inside_sub; [left; reflexivity | apply inside_here].
Defined.

(** X21.  The comments of a settings node go into its block.  When the
    one child that is not a comment is a block, the node is formatted as
    that block with the comments in the buffer and the comments among
    the children -- those behind the block as well -- put before its
    statements, in this order, and the block is formatted from an empty
    buffer. *)
Theorem settings_comments_go_into_the_block :
  forall create_tables self fuel i children block buffer,
    non_comments children = [block] ->
    isinstance_TalonBlock block = true ->
    format_block create_tables self (S fuel) (TalonSettings i children)
      buffer
    = (b <- format create_tables self fuel
              (block_with_comments (buffer ++ comments_in children) block) ;;
       ret [Text "settings():" <//> nest (indent_size self) [Line; b]]) [].
Proof.
  intros ct self fuel i children block buffer Hsole Hblock.
  assert (Htyped : well_typed_children isinstance_TalonBlock children).
  { intros child Hin.
    destruct (isinstance_TalonComment child) eqn:Hc; [left; reflexivity|].
    right.
    assert (Hchild : In child (non_comments children)).
    { apply filter_In. split; [exact Hin | rewrite Hc; reflexivity]. }
    rewrite Hsole in Hchild. destruct Hchild as [<- | []]. exact Hblock. }
  assert (Hget : get_node_with_type children isinstance_TalonBlock buffer
                 = Ok block (buffer ++ comments_in children)).
  { unfold get_node_with_type, bind.
    rewrite (stored_well_typed _ Htyped). rewrite Hsole. reflexivity. }
  cbn [format_block format_block_dispatch].
  unfold format_block_TalonSettings.
  rewrite (bind_Ok _ _ _ Hget). reflexivity.
Qed.

Lemma settings_comments_witness :
  let block :=
    TalonBlock (Sample.leaf "x = 1" "block" 1) [Sample.call [] "bar"] in
  format_block keep_rows (Sample.options (PyBool false)) 20
    (TalonSettings (Sample.leaf "settings" "settings" 0)
       [Sample.c1; block; Sample.c2])
    []
  = (b <- format keep_rows (Sample.options (PyBool false)) 19
            (block_with_comments [Sample.c1; Sample.c2] block) ;;
     ret [Text "settings():" <//> nest 4 [Line; b]]) [].
Proof.
  intros block.
  apply (@settings_comments_go_into_the_block keep_rows
           (Sample.options (PyBool false)) 19
           (Sample.leaf "settings" "settings" 0)
           [Sample.c1; block; Sample.c2] block []);
    reflexivity.
Defined.

(* ------------------------------------------------------------------ *)
(** ** Flags passed by position *)

(** X22.  The handlers of [and], [not] and [or] groups pass the flags to
    [format_block_match] by position, and the undecorated function takes
    them by keyword only.  So a first child that is no comment and of no
    class with a handler of its own -- an error node too -- makes the
    group raise the [TypeError] of that call: neither [ParseError] nor
    [TypeError] with the class of the child, as the body of the
    undecorated function would. *)
Theorem group_child_without_handler_raises_TypeError :
  forall create_tables self fuel i child rest under_and under_not buffer,
    isinstance_TalonComment child = false ->
    handles_match child = false ->
    format_block_match create_tables self (S (S fuel))
      (TalonAnd i (child :: rest)) under_and under_not buffer
    = Raise (TypeErrorArguments 2 4)
    /\ format_block_match create_tables self (S (S fuel))
         (TalonNot i (child :: rest)) under_and under_not buffer
       = Raise (TypeErrorArguments 2 4)
    /\ format_block_match create_tables self (S (S fuel))
         (TalonOr i (child :: rest)) under_and under_not buffer
       = Raise (TypeErrorArguments 2 4).
Proof.
  intros ct self fuel i child rest ua un buffer Hcomment Hclass.
  cbn [format_block_match format_block_match_dispatch
       format_block_match_TalonAnd format_block_match_TalonNot
       format_block_match_TalonOr for_each].
  rewrite Hcomment.
  assert (Hcall : forall flag1 flag2 b,
             format_block_match_dispatch self (format ct self fuel)
               (format_block ct self fuel) (format_block_match ct self fuel)
               child flag1 flag2 b
             = Raise (TypeErrorArguments 2 4)).
  { intros. destruct child; try discriminate; reflexivity. }
  repeat split; apply bind_Raise; try apply bind_Raise; apply Hcall.
Qed.

Lemma group_child_without_handler_witness :
  format_block_match keep_rows (Sample.options (PyBool false)) 2
    (TalonAnd (Sample.leaf "and" "and" 0)
       [TalonError (Sample.leaf "?" "ERROR" 0) [];
        Sample.match_ [] "app" "x" 0])
    false false []
  = Raise (TypeErrorArguments 2 4).
Proof.
  apply (@group_child_without_handler_raises_TypeError keep_rows
           (Sample.options (PyBool false)) 0 (Sample.leaf "and" "and" 0)
           (TalonError (Sample.leaf "?" "ERROR" 0) [])
           [Sample.match_ [] "app" "x" 0] false false []);
    reflexivity.
Defined.
